(** * LoRa MAC layer of the Communicator Badge: model and properties

    A shallow embedding of [firmware/lib/lora_hal.py], [firmware/lib/config.py]
    and [firmware/lib/lora_mac.py].

    - Python [int] is [Z]; [bytes]/[bytearray] is [list byte].
    - The firmware runs on MicroPython, and the runtime prelude follows
      it: the tick counter wraps; [bytes(l)] checks that every element
      fits a byte, while [bytearray(l)] keeps the low eight bits of each
      element without a check.
    - [float] is an exact rational [Q] and [int(x)] truncates toward
      zero.  The float computations of the MAC multiply a millisecond
      count by a short decimal constant (0.05, 0.15, 0.8, 1.2,
      1.0 + 0.3 k, 2.5).  Properties that need the exact value of such a
      product are stated for counts up to 100000 ms, where binary
      floating point, single or double, yields the same integer; the
      properties stated without such a bound use only the sign and the
      order of the products.
    - The methods run in a state-and-exception monad.  The state below the
      MAC ([World]) holds the millisecond clock, the samples the SX1262
      delivers on the BUSY pin and on SPI reads, the raw entropy behind
      [urandom], and the trace of what the code wrote out.
    - [while] loops whose exit depends on the clock take fuel; running out
      of it is the outcome [OutOfFuel], distinct from every Python
      outcome.
    - [print] calls are console output only and are left out, except the
      driver's TX-timeout line, which is the one place where the result
      of a failed transmit is visible from outside.
    - The receive callback is the caller's function: a call to it is
      recorded in the trace with its arguments, and it is taken to return
      without touching the MAC or the radio. *)

From Stdlib Require Import ZArith QArith Qminmax Qround List Bool String Lia.
From Stdlib Require Import Strings.Byte.
Import ListNotations.

Local Open Scope Z_scope.

(** ** Runtime prelude: the pieces of Python used by the firmware *)

Module Py.

Inductive Exn : Type :=
| ValueError
| IndexError.

(** Outcome of running a method from state [s]: a returned value, a
    raised exception (with the state as the raise leaves it), or fuel
    exhausted inside a loop. *)
Inductive Res (S A : Type) : Type :=
| Ok (a : A) (s : S)
| Raise (e : Exn) (s : S)
| OutOfFuel.

Arguments Ok {S A} a s.
Arguments Raise {S A} e s.
Arguments OutOfFuel {S A}.

Definition M (S A : Type) : Type := S -> Res S A.

Definition ret {S A} (a : A) : M S A := fun s => Ok a s.

Definition bind {S A B} (c : M S A) (k : A -> M S B) : M S B :=
  fun s =>
    match c s with
    | Ok a s' => k a s'
    | Raise e s' => Raise e s'
    | OutOfFuel => OutOfFuel
    end.

Definition raise {S A} (e : Exn) : M S A := fun s => Raise e s.
Definition gets {S A} (f : S -> A) : M S A := fun s => Ok (f s) s.
Definition modify {S} (f : S -> S) : M S unit := fun s => Ok tt (f s).
Definition diverge {S A} : M S A := fun _ => OutOfFuel.

(** Run a computation on a component [T] of the state [S]. *)
Definition zoom {S T A} (get : S -> T) (put : T -> S -> S) (c : M T A) : M S A :=
  fun s =>
    match c (get s) with
    | Ok a t => Ok a (put t s)
    | Raise e t => Raise e (put t s)
    | OutOfFuel => OutOfFuel
    end.

(** [int(x)] on a float: truncation toward zero. *)
Definition int (x : Q) : Z := Z.quot (Qnum x) (Zpos (Qden x)).

(** [x < y] on floats. *)
Definition Qltb (x y : Q) : bool := negb (Qle_bool y x).

(** [len(b)] *)
Definition len {A} (l : list A) : Z := Z.of_nat (List.length l).

(** The integer value of a byte, as indexing a [bytes] object gives it. *)
Definition byte_val (b : byte) : Z := Z.of_N (Byte.to_N b).

(** [bytes([n])] element conversion: defined only on 0..255, otherwise
    the constructor raises [ValueError]. *)
Definition byte_of_int (n : Z) : option byte :=
  if n <? 0 then None else Byte.of_N (Z.to_N n).

(** [n & 0xFF] as a byte: always in range. *)
Definition low_byte (n : Z) : byte :=
  match Byte.of_N (Z.to_N (Z.land n 255)) with
  | Some b => b
  | None => x00
  end.

(** [bytes(l)] on a list of ints. *)
Fixpoint bytes_of_ints (l : list Z) : option (list byte) :=
  match l with
  | [] => Some []
  | n :: l' =>
      match byte_of_int n, bytes_of_ints l' with
      | Some b, Some bs => Some (b :: bs)
      | _, _ => None
      end
  end.

Definition bytes {S} (l : list Z) : M S (list byte) :=
  match bytes_of_ints l with
  | Some bs => ret bs
  | None => raise ValueError
  end.

(** [bytearray(l)] on a list of ints: each element is stored as its low
    eight bits; there is no range check. *)
Definition bytearray {S} (l : list Z) : M S (list byte) :=
  ret (map low_byte l).

(** [l[i]] with Python's [IndexError] past the end (non-negative [i]). *)
Definition index {S A} (l : list A) (i : nat) : M S A :=
  match nth_error l i with
  | Some a => ret a
  | None => raise IndexError
  end.

End Py.

Import Py.

Declare Scope py_scope.
Delimit Scope py_scope with py.
Notation "x <- c ;; k" := (bind c (fun x => k))
  (at level 61, c at next level, right associativity) : py_scope.
Notation "c ;; k" := (bind c (fun _ => k))
  (at level 61, right associativity) : py_scope.
Local Open Scope py_scope.

(** ** The world below the driver *)

Module Env.

(** A scripted input: the [cursor]-th read returns [feed cursor]. *)
Record Oracle (A : Type) : Type := mkOracle { feed : nat -> A; cursor : nat }.
Arguments mkOracle {A} feed cursor.
Arguments feed {A} o n.
Arguments cursor {A} o.

Definition draw {A} (o : Oracle A) : A * Oracle A :=
  (feed o (cursor o), mkOracle (feed o) (S (cursor o))).

Inductive Event : Type :=
| Spi (cmd : Z) (params : list byte)        (* one chip-select transaction: the bytes written *)
| TxTimeout                                 (* the driver's "[Radio] TX timeout!" line *)
| Deliver (payload : list byte) (rssi : Z) (snr : Q). (* the receive callback was called *)

Record World : Type := mkWorld {
  clock : Z;                       (* milliseconds since boot *)
  pin_busy : Oracle bool;          (* successive values of [pin_busy.value()] *)
  spi_miso : Oracle byte;          (* successive bytes returned by [spi.read] *)
  entropy : Oracle Z;              (* raw draws behind [urandom.randint] *)
  coin : Oracle (Z * positive);    (* raw draws behind [urandom.random] *)
  trace : list Event;              (* newest first *)
  _rx_buffer : option (list byte); (* [LoRaRadio._rx_buffer] *)
  _valid_header_detected : bool    (* [LoRaRadio._valid_header_detected] *)
}.

Definition set_clock (c : Z) (e : World) : World :=
  mkWorld c (pin_busy e) (spi_miso e) (entropy e) (coin e) (trace e)
          (_rx_buffer e) (_valid_header_detected e).
Definition set_pin_busy (o : Oracle bool) (e : World) : World :=
  mkWorld (clock e) o (spi_miso e) (entropy e) (coin e) (trace e)
          (_rx_buffer e) (_valid_header_detected e).
Definition set_spi_miso (o : Oracle byte) (e : World) : World :=
  mkWorld (clock e) (pin_busy e) o (entropy e) (coin e) (trace e)
          (_rx_buffer e) (_valid_header_detected e).
Definition set_entropy (o : Oracle Z) (e : World) : World :=
  mkWorld (clock e) (pin_busy e) (spi_miso e) o (coin e) (trace e)
          (_rx_buffer e) (_valid_header_detected e).
Definition set_coin (o : Oracle (Z * positive)) (e : World) : World :=
  mkWorld (clock e) (pin_busy e) (spi_miso e) (entropy e) o (trace e)
          (_rx_buffer e) (_valid_header_detected e).
Definition emit (ev : Event) (e : World) : World :=
  mkWorld (clock e) (pin_busy e) (spi_miso e) (entropy e) (coin e) (ev :: trace e)
          (_rx_buffer e) (_valid_header_detected e).
Definition set_rx_buffer (b : option (list byte)) (e : World) : World :=
  mkWorld (clock e) (pin_busy e) (spi_miso e) (entropy e) (coin e) (trace e)
          b (_valid_header_detected e).
Definition set_valid_header_detected (b : bool) (e : World) : World :=
  mkWorld (clock e) (pin_busy e) (spi_miso e) (entropy e) (coin e) (trace e)
          (_rx_buffer e) b.

(** *** [time] *)

(** MicroPython's tick counter wraps at [TICKS_PERIOD]. *)
Definition TICKS_PERIOD : Z := 2 ^ 30.

Definition ticks_ms (e : World) : Z := clock e mod TICKS_PERIOD.

Definition ticks_diff (a b : Z) : Z :=
  (a - b + TICKS_PERIOD / 2) mod TICKS_PERIOD - TICKS_PERIOD / 2.

(** [time.sleep_ms(n)]: the only way time passes; a negative argument
    does not sleep. *)
Definition sleep_ms (n : Z) (e : World) : World := set_clock (clock e + Z.max 0 n) e.

(** *** [urandom] *)

(** [urandom.randint(a, b)]: some integer of [a..b]; [ValueError] on an
    empty range. *)
Definition randint (a b : Z) : M World Z :=
  fun e =>
    if a <=? b then
      let (raw, o) := draw (entropy e) in
      Ok (a + raw mod (b - a + 1)) (set_entropy o e)
    else Raise ValueError e.

(** [urandom.random()]: some rational of [[0, 1)]. *)
Definition random : M World Q :=
  fun e =>
    let (raw, o) := draw (coin e) in
    Ok (Qmake (fst raw mod Zpos (snd raw)) (snd raw)) (set_coin o e).

End Env.

Import Env.

(** ** [lora_hal.py]: the SX1262 driver *)

Module lora_hal.

(* SX1262 command bytes *)
Definition CMD_SET_PACKET_TYPE : Z := 0x8A.
Definition CMD_SET_RF_FREQUENCY : Z := 0x86.
Definition CMD_SET_TX_PARAMS : Z := 0x8E.
Definition CMD_SET_BUFFER_BASE_ADDRESS : Z := 0x8F.
Definition CMD_WRITE_BUFFER : Z := 0x0E.
Definition CMD_SET_TX : Z := 0x83.
Definition CMD_SET_RX : Z := 0x82.
Definition CMD_SET_CAD : Z := 0xC5.
Definition CMD_GET_IRQ_STATUS : Z := 0x12.
Definition CMD_CLEAR_IRQ_STATUS : Z := 0x02.
Definition CMD_READ_BUFFER : Z := 0x1E.
Definition CMD_GET_RX_BUFFER_STATUS : Z := 0x13.

(* Interrupt flags *)
Definition IRQ_TX_DONE : Z := 0x0001.
Definition IRQ_RX_DONE : Z := 0x0002.
Definition IRQ_CAD_DONE : Z := 0x0004.
Definition IRQ_CAD_DETECTED : Z := 0x0008.
Definition IRQ_VALID_HEADER : Z := 0x0010.

(** The [dict] returned by [read_packet]. *)
Record Packet : Type := mkPacket {
  type : Z;
  payload : list byte;
  rssi : Z;
  snr : Q
}.

(** [irq_status & FLAG] used as a condition. *)
Definition flag_set (irq_status flag : Z) : bool := negb (Z.land irq_status flag =? 0).

(** [_wait_busy]: the pin is sampled before the countdown is tested. *)
Fixpoint _wait_busy_loop (timeout : nat) (e : World) : World :=
  let (busy, o) := draw (pin_busy e) in
  let e1 := set_pin_busy o e in
  if busy then
    match timeout with
    | O => e1
    | S timeout' => _wait_busy_loop timeout' (sleep_ms 1 e1)
    end
  else e1.

Definition _wait_busy : M World unit := modify (_wait_busy_loop 1000).

(** [_spi_command(cmd, params)]; [params=None] is the empty list. *)
Definition _spi_command (cmd : Z) (params : list byte) : M World unit :=
  _wait_busy ;;
  modify (emit (Spi cmd params)) ;;
  _wait_busy.

(** [spi.read(length)] *)
Fixpoint spi_read (length : nat) (e : World) : list byte * World :=
  match length with
  | O => ([], e)
  | S n =>
      let (b, o) := draw (spi_miso e) in
      let (bs, e') := spi_read n (set_spi_miso o e) in
      (b :: bs, e')
  end.

(** [_spi_read(cmd, length)]: the command byte and the NOP byte are
    written, then [length] bytes are read. *)
Definition _spi_read (cmd : Z) (length : nat) : M World (list byte) :=
  _wait_busy ;;
  modify (emit (Spi cmd [x00])) ;;
  fun e => let (data, e') := spi_read length e in Ok data e'.

(** [_get_irq_status]: [(data[0] << 8) | data[1]] *)
Definition _get_irq_status : M World Z :=
  data <- _spi_read CMD_GET_IRQ_STATUS 2 ;;
  d0 <- index data 0 ;;
  d1 <- index data 1 ;;
  ret (Z.lor (Z.shiftl (byte_val d0) 8) (byte_val d1)).

Definition clear_irq : M World unit :=
  _spi_command CMD_CLEAR_IRQ_STATUS [xff; xff].

(** The polling loop of [cad], from the [while] test on. *)
Fixpoint cad_wait (fuel : nat) (start : Z) : M World bool :=
  match fuel with
  | O => diverge
  | S fuel' =>
      now <- gets ticks_ms ;;
      if ticks_diff now start <? 100 then
        irq_status <- _get_irq_status ;;
        if flag_set irq_status IRQ_CAD_DONE then
          let detected := flag_set irq_status IRQ_CAD_DETECTED in
          clear_irq ;;
          ret detected
        else
          modify (sleep_ms 1) ;;
          cad_wait fuel' start
      else ret false
  end.

Definition cad (fuel : nat) : M World bool :=
  clear_irq ;;
  _spi_command CMD_SET_CAD [] ;;
  start <- gets ticks_ms ;;
  cad_wait fuel start.

(** The polling loop of [send_packet], from the [while] test on. *)
Fixpoint tx_wait (fuel : nat) (start : Z) : M World bool :=
  match fuel with
  | O => diverge
  | S fuel' =>
      now <- gets ticks_ms ;;
      if ticks_diff now start <? 10000 then
        irq_status <- _get_irq_status ;;
        if flag_set irq_status IRQ_TX_DONE then
          clear_irq ;;
          ret true
        else
          modify (sleep_ms 10) ;;
          tx_wait fuel' start
      else
        modify (emit TxTimeout) ;;
        ret false
  end.

Definition send_packet (fuel : nat) (data : list byte) (pkt_type : Z) : M World bool :=
  tag <- bytes [pkt_type] ;;
  let payload := tag ++ data in
  _spi_command CMD_WRITE_BUFFER (x00 :: payload) ;;
  clear_irq ;;
  _spi_command CMD_SET_TX [x00; x00; x00] ;;
  start <- gets ticks_ms ;;
  tx_wait fuel start.

Definition start_rx (timeout_ms : Z) : M World unit :=
  modify (set_rx_buffer None) ;;
  modify (set_valid_header_detected false) ;;
  clear_irq ;;
  if timeout_ms =? 0 then
    _spi_command CMD_SET_RX [xff; xff; xff]
  else
    let timeout_val := timeout_ms * 64 in
    _spi_command CMD_SET_RX [low_byte (Z.shiftr timeout_val 16);
                             low_byte (Z.shiftr timeout_val 8);
                             low_byte timeout_val].

Definition rx_done : M World bool :=
  irq_status <- _get_irq_status ;;
  (if flag_set irq_status IRQ_VALID_HEADER
   then modify (set_valid_header_detected true) else ret tt) ;;
  if flag_set irq_status IRQ_RX_DONE then ret true else ret false.

(** [read_packet]: [None] when the chip reports an empty buffer. *)
Definition read_packet : M World (option Packet) :=
  status_data <- _spi_read CMD_GET_RX_BUFFER_STATUS 2 ;;
  payload_len <- index status_data 0 ;;
  buffer_offset <- index status_data 1 ;;
  if byte_val payload_len =? 0 then ret None
  else
    _wait_busy ;;
    modify (emit (Spi CMD_READ_BUFFER [buffer_offset; x00])) ;;
    data <- (fun e => let (d, e') := spi_read (Z.to_nat (byte_val payload_len)) e
                      in Ok d e') ;;
    pkt_type <- index data 0 ;;
    let payload := tl data in
    clear_irq ;;
    ret (Some (mkPacket (byte_val pkt_type) payload (-80) 8)).

(** The settings a [LoRaRadio] object keeps, and the object together with
    the world it drives. *)
Record LoRaRadio : Type := mkLoRaRadio {
  freq_mhz : Q;
  sf : Z;
  bw : Z;
  tx_power : Z
}.

Record Device : Type := mkDevice { radio : LoRaRadio; world : World }.

Definition on_world {A} (c : M World A) : M Device A :=
  zoom world (fun e d => mkDevice (radio d) e) c.

(** [_spi_command(cmd, params)] on a list of ints.  [bytes(params)] is
    evaluated after the command byte went out: when it raises, the
    transaction is left with the command byte only. *)
Definition _spi_command_ints (cmd : Z) (params : list Z) : M World unit :=
  _wait_busy ;;
  match bytes_of_ints params with
  | Some bs =>
      modify (emit (Spi cmd bs)) ;;
      _wait_busy
  | None =>
      modify (emit (Spi cmd [])) ;;
      raise ValueError
  end.

(** [set_tx_power] *)
Definition set_tx_power (power_dbm : Z) : M Device unit :=
  let tx_power := Z.max 0 (Z.min 22 power_dbm) in
  modify (fun d => mkDevice (mkLoRaRadio (freq_mhz (radio d)) (sf (radio d))
                                         (bw (radio d)) tx_power)
                            (world d)) ;;
  on_world (_spi_command_ints CMD_SET_TX_PARAMS [tx_power; 0x04]).

(** [_configure] *)
Definition _configure : M Device unit :=
  on_world (_spi_command_ints CMD_SET_PACKET_TYPE [0x01]) ;;
  freq_mhz <- gets (fun d => freq_mhz (radio d)) ;;
  let freq_int := int ((freq_mhz * 1000000) / 61.03515625) in
  on_world (_spi_command_ints CMD_SET_RF_FREQUENCY
              [Z.land (Z.shiftr freq_int 24) 0xFF;
               Z.land (Z.shiftr freq_int 16) 0xFF;
               Z.land (Z.shiftr freq_int 8) 0xFF;
               Z.land freq_int 0xFF]) ;;
  tx_power <- gets (fun d => tx_power (radio d)) ;;
  on_world (_spi_command_ints CMD_SET_TX_PARAMS [tx_power; 0x04]) ;;
  on_world (_spi_command_ints CMD_SET_BUFFER_BASE_ADDRESS [0x00; 0x00]).

End lora_hal.

(** ** [config.py]: configuration records *)

Module config.

(** The keyword arguments collected by [MACConfig.__init__]: each may be
    absent. *)
Record Kwargs : Type := mkKwargs {
  kw_phase2_probability : option Q;
  kw_backoff_window : option Z;
  kw_difs_ms : option Z;
  kw_use_cad : option bool;
  kw_freq_mhz : option Q;
  kw_spreading_factor : option Z;
  kw_bandwidth : option Z;
  kw_tx_power : option Z;
  kw_coding_rate : option Z;
  kw_node_id : option Z;
  kw_channel_id : option Z
}.

Definition no_kwargs : Kwargs :=
  mkKwargs None None None None None None None None None None None.

Record MACConfig : Type := mkMACConfig {
  phase2_probability : Q;
  backoff_window : Z;
  difs_ms : Z;
  use_cad : bool;
  freq_mhz : Q;
  spreading_factor : Z;
  bandwidth : Z;
  tx_power : Z;
  coding_rate : Z;
  node_id : Z;
  channel_id : Z
}.

(** [kwargs.get(key, default)] *)
Definition get {A} (v : option A) (default : A) : A :=
  match v with Some a => a | None => default end.

(** [MACConfig.__init__]: every value is stored as given. *)
Definition MACConfig_init (kwargs : Kwargs) : M unit MACConfig :=
  ret (mkMACConfig
         (get (kw_phase2_probability kwargs) 0.1%Q)
         (get (kw_backoff_window kwargs) 7)
         (get (kw_difs_ms kwargs) 400)
         (get (kw_use_cad kwargs) true)
         (get (kw_freq_mhz kwargs) 915%Q)
         (get (kw_spreading_factor kwargs) 12)
         (get (kw_bandwidth kwargs) 125)
         (get (kw_tx_power kwargs) 14)
         (get (kw_coding_rate kwargs) 5)
         (get (kw_node_id kwargs) 0)
         (get (kw_channel_id kwargs) 0)).

(** [Config.for_testing] *)
Definition for_testing : M unit MACConfig :=
  MACConfig_init
    (mkKwargs (Some 0.1%Q) (Some 7) (Some 100) None
              (Some 915%Q) (Some 7) (Some 125) (Some 14) (Some 5) None None).

(** [Config.for_low_power] *)
Definition for_low_power : M unit MACConfig :=
  MACConfig_init
    (mkKwargs (Some 0.1%Q) (Some 7) (Some 200) (Some false)
              (Some 915%Q) (Some 9) (Some 125) (Some 10) (Some 5) None None).

(** [Config.for_dense_deployment(node_count)] *)
Definition for_dense_deployment (node_count : Z) : M unit MACConfig :=
  let (w, p) :=
    if node_count <=? 50 then (7, 0.1%Q)
    else if node_count <=? 200 then (15, 0.08%Q)
    else (23, 0.05%Q) in
  MACConfig_init
    (mkKwargs (Some p) (Some w) (Some 400) (Some true)
              (Some 915%Q) (Some 12) (Some 125) (Some 14) (Some 5) None None).

(** [Config.for_long_range] *)
Definition for_long_range : M unit MACConfig :=
  MACConfig_init
    (mkKwargs (Some 0.15%Q) (Some 7) (Some 400) (Some true)
              (Some 915%Q) (Some 12) (Some 125) (Some 22) (Some 8) None None).

(** The nested dict that [to_dict] builds and [from_dict] reads.  A dict
    handed to [from_dict] may lack any of the three sections and any of
    the keys read from them, and may hold any number of other keys, at
    the top and in each section; of those only the names are kept, since
    no code looks at them. *)
Record MacSection : Type := mkMacSection {
  d_phase2_probability : option Q;
  d_backoff_window : option Z;
  d_difs_ms : option Z;
  d_use_cad : option bool;
  mac_other_keys : list string
}.

Record RadioSection : Type := mkRadioSection {
  d_freq_mhz : option Q;
  d_spreading_factor : option Z;
  d_bandwidth : option Z;
  d_tx_power : option Z;
  d_coding_rate : option Z;
  radio_other_keys : list string
}.

Record AppSection : Type := mkAppSection {
  d_node_id : option Z;
  d_channel_id : option Z;
  app_other_keys : list string
}.

Record ConfigDict : Type := mkConfigDict {
  d_mac : option MacSection;
  d_radio : option RadioSection;
  d_app : option AppSection;
  other_keys : list string
}.

(** [KeyError(key)] *)
Inductive DictError : Type := KeyError (key : string).

(** [d[key]] *)
Definition item {A} (v : option A) (key : string) : DictError + A :=
  match v with
  | Some a => inr a
  | None => inl (KeyError key)
  end.

(** [MACConfig.to_dict] *)
Definition to_dict (c : MACConfig) : ConfigDict :=
  mkConfigDict
    (Some (mkMacSection (Some (phase2_probability c)) (Some (backoff_window c))
                        (Some (difs_ms c)) (Some (use_cad c)) []))
    (Some (mkRadioSection (Some (freq_mhz c)) (Some (spreading_factor c))
                          (Some (bandwidth c)) (Some (tx_power c))
                          (Some (coding_rate c)) []))
    (Some (mkAppSection (Some (node_id c)) (Some (channel_id c)) []))
    [].

(** [Config.from_dict]: the eleven subscripts are evaluated in the order
    of the keyword arguments, and the first missing key is the error. *)
Definition from_dict (config_dict : ConfigDict) : DictError + MACConfig :=
  let sub {A B} (v : DictError + A) (k : A -> DictError + B) : DictError + B :=
    match v with inl e => inl e | inr a => k a end in
  sub (item (d_mac config_dict) "mac") (fun mac =>
  sub (item (d_phase2_probability mac) "phase2_probability") (fun p =>
  sub (item (d_mac config_dict) "mac") (fun mac =>
  sub (item (d_backoff_window mac) "backoff_window") (fun w =>
  sub (item (d_mac config_dict) "mac") (fun mac =>
  sub (item (d_difs_ms mac) "difs_ms") (fun difs =>
  sub (item (d_mac config_dict) "mac") (fun mac =>
  sub (item (d_use_cad mac) "use_cad") (fun cad =>
  sub (item (d_radio config_dict) "radio") (fun radio =>
  sub (item (d_freq_mhz radio) "freq_mhz") (fun freq =>
  sub (item (d_radio config_dict) "radio") (fun radio =>
  sub (item (d_spreading_factor radio) "spreading_factor") (fun sf =>
  sub (item (d_radio config_dict) "radio") (fun radio =>
  sub (item (d_bandwidth radio) "bandwidth") (fun bw =>
  sub (item (d_radio config_dict) "radio") (fun radio =>
  sub (item (d_tx_power radio) "tx_power") (fun power =>
  sub (item (d_radio config_dict) "radio") (fun radio =>
  sub (item (d_coding_rate radio) "coding_rate") (fun cr =>
  sub (item (d_app config_dict) "app") (fun app =>
  sub (item (d_node_id app) "node_id") (fun node =>
  sub (item (d_app config_dict) "app") (fun app =>
  sub (item (d_channel_id app) "channel_id") (fun channel =>
  (* the constructor itself never fails *)
  match MACConfig_init
          (mkKwargs (Some p) (Some w) (Some difs) (Some cad)
                    (Some freq) (Some sf) (Some bw) (Some power) (Some cr)
                    (Some node) (Some channel)) tt with
  | Ok c _ => inr c
  | _ => inl (KeyError "")
  end)))))))))))))))))))))).

End config.

(** ** [lora_mac.py]: the MAC state machine *)

Module lora_mac.

Import lora_hal config.

Definition PKT_TYPE_RTS : Z := 0x01.
Definition PKT_TYPE_DATA : Z := 0x02.

Definition PHASE_IDLE : Z := 0.
Definition PHASE_1_LISTEN : Z := 1.
Definition PHASE_2_RTS : Z := 2.
Definition PHASE_3_DATA : Z := 3.
Definition PHASE_NAV : Z := 4.

Definition PRIME_OFFSETS : list Z := [5; 7; 11; 13; 17].

(** [self.stats], a dict with a fixed set of keys. *)
Record Stats : Type := mkStats {
  tx_data : Z;
  tx_rts : Z;
  rx_data : Z;
  rx_rts : Z;
  nav_count : Z;
  cad_detected : Z;
  backoff_count : Z
}.

Record LoRaMAC : Type := mkLoRaMAC {
  config : MACConfig;
  phase : Z;
  nav_until : Z;
  stats : Stats;
  consecutive_navs : Z;
  _on_receive_callback : bool;   (* whether a callback is registered *)
  difs : Z;
  w : Z;
  p : Q;
  rts_toa : Z;
  phase1_duration : Z
}.

(** The object [self] together with the world its radio lives in. *)
Record Node : Type := mkNode { self : LoRaMAC; env : World }.

Definition on_self (f : LoRaMAC -> LoRaMAC) : M Node unit :=
  modify (fun n => mkNode (f (self n)) (env n)).
Definition on_env {A} (c : M World A) : M Node A :=
  zoom env (fun e n => mkNode (self n) e) c.
Definition attr {A} (f : LoRaMAC -> A) : M Node A := gets (fun n => f (self n)).

Definition set_phase (v : Z) (m : LoRaMAC) : LoRaMAC :=
  mkLoRaMAC (config m) v (nav_until m) (stats m) (consecutive_navs m)
            (_on_receive_callback m) (difs m) (w m) (p m) (rts_toa m) (phase1_duration m).
Definition set_nav_until (v : Z) (m : LoRaMAC) : LoRaMAC :=
  mkLoRaMAC (config m) (phase m) v (stats m) (consecutive_navs m)
            (_on_receive_callback m) (difs m) (w m) (p m) (rts_toa m) (phase1_duration m).
Definition set_stats (v : Stats) (m : LoRaMAC) : LoRaMAC :=
  mkLoRaMAC (config m) (phase m) (nav_until m) v (consecutive_navs m)
            (_on_receive_callback m) (difs m) (w m) (p m) (rts_toa m) (phase1_duration m).
Definition set_consecutive_navs (v : Z) (m : LoRaMAC) : LoRaMAC :=
  mkLoRaMAC (config m) (phase m) (nav_until m) (stats m) v
            (_on_receive_callback m) (difs m) (w m) (p m) (rts_toa m) (phase1_duration m).
Definition set_on_receive_callback (v : bool) (m : LoRaMAC) : LoRaMAC :=
  mkLoRaMAC (config m) (phase m) (nav_until m) (stats m) (consecutive_navs m)
            v (difs m) (w m) (p m) (rts_toa m) (phase1_duration m).

(** [self.stats[key] += 1], one definition per key. *)
Definition inc_tx_data (s : Stats) : Stats :=
  mkStats (tx_data s + 1) (tx_rts s) (rx_data s) (rx_rts s) (nav_count s)
          (cad_detected s) (backoff_count s).
Definition inc_tx_rts (s : Stats) : Stats :=
  mkStats (tx_data s) (tx_rts s + 1) (rx_data s) (rx_rts s) (nav_count s)
          (cad_detected s) (backoff_count s).
Definition inc_rx_data (s : Stats) : Stats :=
  mkStats (tx_data s) (tx_rts s) (rx_data s + 1) (rx_rts s) (nav_count s)
          (cad_detected s) (backoff_count s).
Definition inc_rx_rts (s : Stats) : Stats :=
  mkStats (tx_data s) (tx_rts s) (rx_data s) (rx_rts s + 1) (nav_count s)
          (cad_detected s) (backoff_count s).
Definition inc_nav_count (s : Stats) : Stats :=
  mkStats (tx_data s) (tx_rts s) (rx_data s) (rx_rts s) (nav_count s + 1)
          (cad_detected s) (backoff_count s).
Definition inc_cad_detected (s : Stats) : Stats :=
  mkStats (tx_data s) (tx_rts s) (rx_data s) (rx_rts s) (nav_count s)
          (cad_detected s + 1) (backoff_count s).
Definition inc_backoff_count (s : Stats) : Stats :=
  mkStats (tx_data s) (tx_rts s) (rx_data s) (rx_rts s) (nav_count s)
          (cad_detected s) (backoff_count s + 1).

Definition bump (inc : Stats -> Stats) : M Node unit :=
  on_self (fun m => set_stats (inc (stats m)) m).

(** [_calculate_toa] *)
Definition _calculate_toa (payload_len : Z) : Z :=
  let base_ms := 401 in
  let per_byte_ms := 37 in
  base_ms + payload_len * per_byte_ms.

(** [LoRaMAC.__init__]: no field of [config] is inspected beyond being
    copied. *)
Definition LoRaMAC_init (config : MACConfig) : M unit LoRaMAC :=
  let difs := difs_ms config in
  let w := backoff_window config in
  let p := phase2_probability config in
  let rts_toa := _calculate_toa 5 in
  let phase1_duration := w * difs + rts_toa in
  ret (mkLoRaMAC config PHASE_IDLE 0 (mkStats 0 0 0 0 0 0 0) 0 false
                 difs w p rts_toa phase1_duration).

(** [_in_nav] *)
Definition _in_nav : M Node bool :=
  nav_until <- attr nav_until ;;
  now <- on_env (gets ticks_ms) ;;
  if now <? nav_until then ret true else ret false.

(** [PRIME_OFFSETS[urandom.randint(0, len(PRIME_OFFSETS) - 1)]] *)
Definition draw_prime_offset : M Node Z :=
  i <- on_env (randint 0 (len PRIME_OFFSETS - 1)) ;;
  index PRIME_OFFSETS (Z.to_nat i).

(** The block shared by the three deferral methods:
    [if self.consecutive_navs > 0: d = int(d * min(1.0 + k * 0.3, 2.5))]. *)
Definition exponential_backoff (duration : Z) : M Node Z :=
  k <- attr consecutive_navs ;;
  if 0 <? k then
    let backoff_multiplier := Qmin (1.0 + inject_Z k * 0.3) 2.5 in
    ret (int (inject_Z duration * backoff_multiplier))
  else ret duration.

(** [_enter_nav_from_rts] *)
Definition _enter_nav_from_rts (rts_packet : Packet) : M Node unit :=
  data_len <- index (payload rts_packet) 4 ;;
  let data_len := byte_val data_len in
  let data_toa := _calculate_toa data_len in
  phase1_duration <- attr phase1_duration ;;
  w <- attr w ;;
  difs <- attr difs ;;
  let nav_duration := phase1_duration + (w * difs) + data_toa in
  prime_offset <- draw_prime_offset ;;
  let nav_duration := nav_duration + prime_offset in
  jitter <- on_env (randint (int (inject_Z nav_duration * 0.05))
                            (int (inject_Z nav_duration * 0.15))) ;;
  let nav_duration := nav_duration + jitter in
  nav_duration <- exponential_backoff nav_duration ;;
  on_self (fun m => set_consecutive_navs (consecutive_navs m + 1) m) ;;
  now <- on_env (gets ticks_ms) ;;
  on_self (set_nav_until (now + nav_duration)) ;;
  on_self (set_phase PHASE_NAV) ;;
  bump inc_nav_count.

(** [_enter_nav_random] *)
Definition _enter_nav_random : M Node unit :=
  let max_toa := _calculate_toa 255 in
  nav_duration <- on_env (randint (int (inject_Z max_toa * 0.8))
                                  (int (inject_Z max_toa * 1.2))) ;;
  prime_offset <- draw_prime_offset ;;
  let nav_duration := nav_duration + prime_offset in
  nav_duration <- exponential_backoff nav_duration ;;
  on_self (fun m => set_consecutive_navs (consecutive_navs m + 1) m) ;;
  now <- on_env (gets ticks_ms) ;;
  on_self (set_nav_until (now + nav_duration)) ;;
  on_self (set_phase PHASE_NAV) ;;
  bump inc_nav_count.

(** [_defer_random] *)
Definition _defer_random : M Node unit :=
  phase1_duration <- attr phase1_duration ;;
  defer_duration <- on_env (randint phase1_duration (phase1_duration * 3)) ;;
  prime_offset <- draw_prime_offset ;;
  let defer_duration := defer_duration + prime_offset in
  defer_duration <- exponential_backoff defer_duration ;;
  on_self (fun m => set_consecutive_navs (consecutive_navs m + 1) m) ;;
  now <- on_env (gets ticks_ms) ;;
  on_self (set_nav_until (now + defer_duration)) ;;
  on_self (set_phase PHASE_NAV).

(** One pass through the body of the listening [while] loop, up to but
    not including the final [sleep_ms]: [inl r] when the method returns
    [r] from inside the loop, [inr (poll_interval, idle_count)]
    otherwise.  Phase 1 and Phase 2 contain the same loop. *)
Definition listen_poll (poll_interval idle_count : Z) : M Node (bool + Z * Z) :=
  done <- on_env rx_done ;;
  if done then
    pkt <- on_env read_packet ;;
    match pkt with
    | Some pk =>
        if type pk =? PKT_TYPE_RTS then
          bump inc_rx_rts ;;
          _enter_nav_from_rts pk ;;
          ret (inl false)
        else if type pk =? PKT_TYPE_DATA then
          bump inc_rx_data ;;
          cb <- attr _on_receive_callback ;;
          (if cb then on_env (modify (emit (Deliver (payload pk) (rssi pk) (snr pk))))
           else ret tt) ;;
          _enter_nav_random ;;
          ret (inl false)
        else ret (inr (11, 0))
    | None => ret (inr (11, 0))
    end
  else
    let idle_count := idle_count + 1 in
    let poll_interval := if 3 <? idle_count then 23 else poll_interval in
    let poll_interval := if 7 <? idle_count then 41 else poll_interval in
    ret (inr (poll_interval, idle_count)).

(** The listening loop from the [while] test on: [Some r] when the
    method returned [r] from inside, [None] when the window ran out. *)
Fixpoint listen_loop (fuel : nat) (start duration poll_interval idle_count : Z)
  : M Node (option bool) :=
  match fuel with
  | O => diverge
  | S fuel' =>
      now <- on_env (gets ticks_ms) ;;
      if ticks_diff now start <? duration then
        r <- listen_poll poll_interval idle_count ;;
        match r with
        | inl b => ret (Some b)
        | inr (poll_interval, idle_count) =>
            on_env (modify (sleep_ms poll_interval)) ;;
            listen_loop fuel' start duration poll_interval idle_count
        end
      else ret None
  end.

(** The backoff drawn before the RTS and before the data. *)
Definition draw_backoff : M Node Z :=
  w <- attr w ;;
  difs <- attr difs ;;
  slots <- on_env (randint 0 w) ;;
  let backoff := slots * difs in
  prime_offset <- draw_prime_offset ;;
  ret (backoff + prime_offset).

(** [_phase3_send_data] *)
Definition _phase3_send_data (fuel : nat) (data : list byte) : M Node bool :=
  on_self (set_phase PHASE_3_DATA) ;;
  backoff <- draw_backoff ;;
  on_env (modify (sleep_ms backoff)) ;;
  bump inc_backoff_count ;;
  on_env (send_packet fuel data PKT_TYPE_DATA) ;;
  bump inc_tx_data ;;
  on_self (set_consecutive_navs 0) ;;
  on_self (set_phase PHASE_IDLE) ;;
  ret true.

(** [_phase2_send_rts] *)
Definition _phase2_send_rts (fuel : nat) (pending_data : list byte) : M Node bool :=
  on_self (set_phase PHASE_2_RTS) ;;
  backoff <- draw_backoff ;;
  on_env (modify (sleep_ms backoff)) ;;
  bump inc_backoff_count ;;
  let data_len := len pending_data in
  rts_packet <- bytearray [0xCA; 0xFE; 0xBA; 0xBE; data_len] ;;
  on_env (send_packet fuel rts_packet PKT_TYPE_RTS) ;;
  bump inc_tx_rts ;;
  listen_duration <- attr phase1_duration ;;
  on_env (start_rx listen_duration) ;;
  start <- on_env (gets ticks_ms) ;;
  r <- listen_loop fuel start listen_duration 11 0 ;;
  match r with
  | Some b => ret b
  | None => _phase3_send_data fuel pending_data
  end.

(** [_phase1_listen_rts] *)
Definition _phase1_listen_rts (fuel : nat) (pending_data : list byte) : M Node bool :=
  on_self (set_phase PHASE_1_LISTEN) ;;
  phase1_duration <- attr phase1_duration ;;
  on_env (start_rx phase1_duration) ;;
  start <- on_env (gets ticks_ms) ;;
  r <- listen_loop fuel start phase1_duration 11 0 ;;
  match r with
  | Some b => ret b
  | None => _phase2_send_rts fuel pending_data
  end.

(** [send_data]: [true] is the spec's [Sent], [false] its [Deferred]. *)
Definition send_data (fuel : nat) (data : list byte) (priority : string) : M Node bool :=
  in_nav <- _in_nav ;;
  if in_nav then ret false
  else
    use_cad <- attr (fun m => use_cad (config m)) ;;
    busy <- (if use_cad then on_env (cad fuel) else ret false) ;;
    if busy then
      bump inc_cad_detected ;;
      _defer_random ;;
      ret false
    else
      p <- attr p ;;
      direct <- (if String.eqb priority "high" then ret true
                 else r <- on_env random ;; ret (Qltb r p)) ;;
      if direct then _phase2_send_rts fuel data
      else _phase1_listen_rts fuel data.

(** [on_receive] *)
Definition on_receive : M Node unit := on_self (set_on_receive_callback true).

(** [start_listening] *)
Definition start_listening : M Node unit := on_env (start_rx 0).

(** [get_stats] *)
Definition get_stats : M Node Stats := attr stats.

End lora_mac.

Import lora_hal config lora_mac.

(** ** Observations *)

(** What the chip has been told to transmit, read off a trace (newest
    event first): [CMD_WRITE_BUFFER] stores the bytes after the offset
    byte, [CMD_SET_TX] puts the stored bytes on the air.  The result is
    the buffer content and the frames transmitted, newest first. *)
Fixpoint air (tr : list Event) : list byte * list (list byte) :=
  match tr with
  | [] => ([], [])
  | ev :: tr' =>
      let (buffer, frames) := air tr' in
      match ev with
      | Spi cmd params =>
          if cmd =? CMD_WRITE_BUFFER then (tl params, frames)
          else if cmd =? CMD_SET_TX then (buffer, buffer :: frames)
          else (buffer, frames)
      | _ => (buffer, frames)
      end
  end.

(** Frames on the air so far, oldest first. *)
Definition frames_sent (e : World) : list (list byte) := rev (snd (air (trace e))).

(** The frame carrying [payload] under type tag [tag]. *)
Definition frame (tag : byte) (payload : list byte) : list byte := tag :: payload.

Definition is_rts (f : list byte) : bool :=
  match f with b :: _ => byte_val b =? PKT_TYPE_RTS | [] => false end.
Definition is_data (f : list byte) : bool :=
  match f with b :: _ => byte_val b =? PKT_TYPE_DATA | [] => false end.

(** The RTS payload for a given data length, as [_phase2_send_rts]
    builds it. *)
Definition rts_payload (data_len : Z) : option (list byte) :=
  match bytearray [0xCA; 0xFE; 0xBA; 0xBE; data_len] tt with
  | Ok rts_packet _ => Some rts_packet
  | _ => None
  end.

(** [spec c s Q E D]: run from [s], [c] either returns [a] in a state
    satisfying [Q a], or raises [x] in a state satisfying [E x], or runs
    out of fuel and [D] holds.  With [D := False] the command does not
    run out of fuel. *)
Definition spec {S A} (c : M S A) (s : S)
           (Q : A -> S -> Prop) (E : Exn -> S -> Prop) (D : Prop) : Prop :=
  match c s with
  | Ok a s' => Q a s'
  | Raise x s' => E x s'
  | OutOfFuel => D
  end.

(** Postconditions for what cannot happen. *)
Definition never {S} : Exn -> S -> Prop := fun _ _ => False.

(** The change all three deferral methods make to [self]:
    [consecutive_navs += 1], [nav_until = until], [phase = PHASE_NAV]. *)
Definition armed (until : Z) (m : LoRaMAC) : LoRaMAC :=
  set_phase PHASE_NAV
    (set_nav_until until (set_consecutive_navs (consecutive_navs m + 1) m)).

(** Between [n] and [n'] nothing was transmitted and no transmission was
    counted. *)
Definition no_tx (n n' : Node) : Prop :=
  air (trace (env n')) = air (trace (env n)) /\
  tx_rts (stats (self n')) = tx_rts (stats (self n)) /\
  tx_data (stats (self n')) = tx_data (stats (self n)).

(** Between [m] and [m'] exactly one reception was counted: an RTS or a
    DATA packet. *)
Definition heard (m m' : LoRaMAC) : Prop :=
  (rx_rts (stats m') = rx_rts (stats m) + 1 /\ rx_data (stats m') = rx_data (stats m)) \/
  (rx_data (stats m') = rx_data (stats m) + 1 /\ rx_rts (stats m') = rx_rts (stats m)).

(** What a call that went through Phase 2 and Phase 3 leaves behind:
    the RTS frame then the DATA frame on the air, both counted, and the
    deferral counter at zero. *)
Definition sent_outcome (data : list byte) (n n' : Node) : Prop :=
  exists rts,
    rts_payload (len data) = Some rts /\
    snd (air (trace (env n'))) =
      frame x02 data :: frame x01 rts :: snd (air (trace (env n))) /\
    tx_rts (stats (self n')) = tx_rts (stats (self n)) + 1 /\
    tx_data (stats (self n')) = tx_data (stats (self n)) + 1 /\
    consecutive_navs (self n') = 0.

(** What a call that was stopped in the Phase 2 listening window leaves
    behind: the RTS frame on the air and counted, no DATA frame, one
    reception counted. *)
Definition rts_only_outcome (data : list byte) (n n' : Node) : Prop :=
  exists rts,
    rts_payload (len data) = Some rts /\
    snd (air (trace (env n'))) = frame x01 rts :: snd (air (trace (env n))) /\
    tx_rts (stats (self n')) = tx_rts (stats (self n)) + 1 /\
    tx_data (stats (self n')) = tx_data (stats (self n)) /\
    heard (self n) (self n').

(** The timing fields are the ones [__init__] computes from a
    configuration of the data model: [W >= 0], [difs_ms > 0]. *)
Definition timing_ok (m : LoRaMAC) : Prop :=
  0 <= w m /\ 0 < difs m /\
  rts_toa m = _calculate_toa 5 /\
  phase1_duration m = w m * difs m + rts_toa m.

(** A chip that never raises an interrupt and is never busy, a clock at
    zero, entropy that always draws the low end of the range, and a coin
    that always shows 1/2. *)
Definition silent_world : World :=
  mkWorld 0 (mkOracle (fun _ => false) 0) (mkOracle (fun _ => x00) 0)
          (mkOracle (fun _ => 0) 0) (mkOracle (fun _ => (1, 2%positive)) 0)
          [] None false.

(** The MAC built from a configuration, or an idle all-zero object when
    construction fails. *)
Definition mac_of (c : M unit MACConfig) : LoRaMAC :=
  match (cfg <- c ;; LoRaMAC_init cfg) tt with
  | Ok m _ => m
  | _ => mkLoRaMAC (mkMACConfig 0 0 0 false 0 0 0 0 0 0 0) 0 0
                   (mkStats 0 0 0 0 0 0 0) 0 false 0 0 0 0 0
  end.

Definition default_mac : LoRaMAC := mac_of (MACConfig_init no_kwargs).

(** The state a run ends in ([default] when it ran out of fuel). *)
Definition state_of {S A} (r : Res S A) (default : S) : S :=
  match r with
  | Ok _ s => s
  | Raise _ s => s
  | OutOfFuel => default
  end.

(** A world in which every SPI read returns [b]. *)
Definition constant_world (b : byte) : World :=
  set_spi_miso (mkOracle (fun _ => b) 0) silent_world.

(** A world in which the SPI reads return the bytes of [l] in order, then
    zeros. *)
Definition scripted_world (l : list byte) : World :=
  set_spi_miso (mkOracle (fun i => nth i l x00) 0) silent_world.

(** IRQ status [0x0101]: TxDone is reported at once, nothing is ever
    received or detected. *)
Definition clear_channel : World := constant_world x01.

(** IRQ status [0x0c0c]: CAD completes at once and detects activity. *)
Definition busy_channel : World := constant_world x0c.

(** TxDone for the RTS, then RxDone with a six-byte frame in the buffer:
    somebody else's RTS announcing 16 bytes. *)
Definition competing_rts : World :=
  scripted_world [x00; x01;  x00; x02;  x06; x00;  x01; xca; xfe; xba; xbe; x10].

(** The last thing the driver did was to give up waiting for TxDone. *)
Definition tx_timed_out (e : World) : Prop := hd_error (trace e) = Some TxTimeout.

(** Inputs for the examples. *)
Definition hi : list byte := ["h"%byte; "i"%byte].
Definition idle_node (e : World) : Node := mkNode default_mac e.
Definition deferred_thrice (e : World) : Node := mkNode (set_consecutive_navs 3 default_mac) e.
Definition in_nav_node : Node := mkNode (set_nav_until 5000 default_mac) silent_world.
Definition low_power_node (e : World) : Node := mkNode (mac_of for_low_power) e.
Definition rts_announcing_16 : Packet := mkPacket PKT_TYPE_RTS [xca; xfe; xba; xbe; x10] (-80) 8.
Definition payload_of (k : nat) : list byte := repeat x00 k.
Definition bad_kwargs : Kwargs :=
  mkKwargs (Some 1.5%Q) (Some (-1)) (Some 0) None None None None None None None None.


(** A dict reduced to the sections and keys that [from_dict] reads. *)
Definition known_entries (config_dict : ConfigDict) : ConfigDict :=
  mkConfigDict
    (option_map (fun mac => mkMacSection (d_phase2_probability mac) (d_backoff_window mac)
                                         (d_difs_ms mac) (d_use_cad mac) [])
                (d_mac config_dict))
    (option_map (fun radio => mkRadioSection (d_freq_mhz radio) (d_spreading_factor radio)
                                             (d_bandwidth radio) (d_tx_power radio)
                                             (d_coding_rate radio) [])
                (d_radio config_dict))
    (option_map (fun app => mkAppSection (d_node_id app) (d_channel_id app) [])
                (d_app config_dict))
    [].

(** A dict with every entry of [to_dict] at the defaults, and more: a
    fourth section, and a key in the MAC section that no code reads. *)
Definition annotated_dict : ConfigDict :=
  mkConfigDict
    (Some (mkMacSection (Some 0.1%Q) (Some 7) (Some 400) (Some true) ["comment"%string]))
    (Some (mkRadioSection (Some 915%Q) (Some 12) (Some 125) (Some 14) (Some 5) []))
    (Some (mkAppSection (Some 0) (Some 0) []))
    ["ui"%string].

(** The IRQ status word the chip returns to the [k]-th status read after
    [e], when nothing else is read in between: two bytes per read, high
    byte first, as [_get_irq_status] assembles them. *)
Definition irq_status_at (e : World) (k : nat) : Z :=
  Z.lor (Z.shiftl (byte_val (feed (spi_miso e) (cursor (spi_miso e) + 2 * k)%nat)) 8)
        (byte_val (feed (spi_miso e) (cursor (spi_miso e) + 2 * k + 1)%nat)).

(** The calls made to the receive callback, read off a trace (newest
    first); each entry is the [(payload, rssi, snr)] passed. *)
Fixpoint deliveries (tr : list Event) : list (list byte * Z * Q) :=
  match tr with
  | [] => []
  | Deliver payload rssi snr :: tr' => (payload, rssi, snr) :: deliveries tr'
  | _ :: tr' => deliveries tr'
  end.

(** From [e] to [e'] between [lo] and [hi] milliseconds passed and the
    receive callback was not called. *)
Definition advances (lo hi : Z) (e e' : World) : Prop :=
  clock e + lo <= clock e' <= clock e + hi /\
  deliveries (trace e') = deliveries (trace e).

(** The fields of [self] that [__init__] sets and no method assigns. *)
Definition same_setup (m m' : LoRaMAC) : Prop :=
  config m' = config m /\ difs m' = difs m /\ w m' = w m /\ p m' = p m /\
  rts_toa m' = rts_toa m /\ phase1_duration m' = phase1_duration m /\
  _on_receive_callback m' = _on_receive_callback m.

(** Enough fuel for one [send_data]: the 101 polls of [cad], the 1001 of
    [send_packet], and the polls of one listening window. *)
Definition enough_fuel (fuel : nat) (m : LoRaMAC) : Prop :=
  1001 <= Z.of_nat fuel /\ phase1_duration m + 11 <= 11 * Z.of_nat fuel.

(** From [n] to [n'] the setup of [self] is unchanged and at most [hi]
    milliseconds passed. *)
Definition runs (hi : Z) (n n' : Node) : Prop :=
  same_setup (self n) (self n') /\
  clock (env n) <= clock (env n') <= clock (env n) + hi.

(** Upper bounds, in milliseconds, on one listening window (receiver
    start included), on Phase 3, on Phase 2 and what follows it, and on a
    whole [send_data]; BUSY waits and radio timeouts included. *)
Definition listen_time_bound (m : LoRaMAC) : Z := 4000 + (phase1_duration m + 5041).
Definition phase3_time_bound (m : LoRaMAC) : Z := (w m * difs m + 17) + 19010.
Definition phase2_time_bound (m : LoRaMAC) : Z :=
  (w m * difs m + 17) + 19010 + listen_time_bound m + phase3_time_bound m.
Definition send_time_bound (m : LoRaMAC) : Z :=
  7100 + listen_time_bound m + phase2_time_bound m.

(** Counter-wise sum of two [stats] dicts. *)
Definition add_stats (s d : Stats) : Stats :=
  mkStats (tx_data s + tx_data d) (tx_rts s + tx_rts d) (rx_data s + rx_data d)
          (rx_rts s + rx_rts d) (nav_count s + nav_count d)
          (cad_detected s + cad_detected d) (backoff_count s + backoff_count d).

(** What one [send_data] adds to [stats] when it returns [True] ... *)
Definition sent_tally : Stats := mkStats 1 1 0 0 0 0 2.

(** ... and what it can add when it returns [False]. *)
Definition deferred_tallies : list Stats :=
  [ mkStats 0 0 0 0 0 0 0     (* called inside a NAV period *)
  ; mkStats 0 0 0 0 0 1 0     (* CAD positive *)
  ; mkStats 0 0 0 1 1 0 0     (* RTS received in Phase 1 *)
  ; mkStats 0 0 1 0 1 0 0     (* DATA received in Phase 1 *)
  ; mkStats 0 1 0 1 1 0 1     (* RTS received in Phase 2 *)
  ; mkStats 0 1 1 0 1 0 1 ].  (* DATA received in Phase 2 *)

(** A deferral recorded on [self]: the counters stepped by [d], the
    deferral counter by one, the phase NAV, the setup untouched. *)
Definition nav_update (d : Stats) (m m' : LoRaMAC) : Prop :=
  same_setup m m' /\
  stats m' = add_stats (stats m) d /\
  consecutive_navs m' = consecutive_navs m + 1 /\
  phase m' = PHASE_NAV.

(** The callback was called [k] more times in [e'] than in [e]. *)
Definition delivered (k : nat) (e e' : World) : Prop :=
  List.length (deliveries (trace e')) = (List.length (deliveries (trace e)) + k)%nat.

(** How often the callback is called for [d]: once per DATA reception
    counted, if one is registered. *)
Definition calls_for (m : LoRaMAC) (d : Stats) : nat :=
  if _on_receive_callback m then Z.to_nat (rx_data d) else 0%nat.

(** From [n] to [n'] the counters grew by [d], the callback was called
    as [d] says, the setup is untouched, and the phase and the deferral
    counter are those of a send ([b = true]) or of a deferral. *)
Definition tallied (b : bool) (d : Stats) (n n' : Node) : Prop :=
  same_setup (self n) (self n') /\
  stats (self n') = add_stats (stats (self n)) d /\
  delivered (calls_for (self n) d) (env n) (env n') /\
  if b then consecutive_navs (self n') = 0 /\ phase (self n') = PHASE_IDLE
  else consecutive_navs (self n') = consecutive_navs (self n) + 1 /\
       phase (self n') = PHASE_NAV.

(** CadDone with nothing detected, then RxDone with a six-byte frame in
    the buffer: somebody else's RTS announcing 0 bytes. *)
Definition rts_for_no_data : World :=
  scripted_world [x00; x04;  x00; x02;  x06; x00;  x01; xca; xfe; xba; xbe; x00].

(** A node built with [backoff_window = -1] and everything else at its
    default. *)
Definition negative_window : Kwargs :=
  mkKwargs None (Some (-1)) None None None None None None None None None.
Definition negative_window_node (e : World) : Node :=
  mkNode (mac_of (MACConfig_init negative_window)) e.

(** CadDone with nothing detected, then RxDone with a three-byte frame in
    the buffer: somebody else's DATA packet carrying [hi]. *)
Definition incoming_data : World :=
  scripted_world [x00; x04;  x00; x02;  x03; x00;  x02; "h"%byte; "i"%byte].

(** A buffer status of three bytes at offset 0, then the frame itself. *)
Definition frame_in_buffer : World :=
  scripted_world [x03; x00;  x02; "h"%byte; "i"%byte].

(** One millisecond before the tick counter wraps. *)
Definition near_wrap : World := set_clock (TICKS_PERIOD - 1) silent_world.

(** More inputs for the examples. *)
Definition subscribed_node (e : World) : Node :=
  mkNode (set_on_receive_callback true default_mac) e.
Definition armed_near_wrap : LoRaMAC :=
  self (state_of (_enter_nav_random (idle_node near_wrap)) (idle_node near_wrap)).
Definition bench_radio : Device := mkDevice (mkLoRaRadio 915 12 125 14) silent_world.

(** What a call between [n] and [n'] handed to the receive callback:
    nothing; or, with a callback registered, the payload, RSSI and SNR of
    one packet that [read_packet] returned with type DATA, the read of
    that packet being the last thing the call took from the chip. *)
Definition handed_over (n n' : Node) : Prop :=
  deliveries (trace (env n')) = deliveries (trace (env n)) \/
  exists e0 e1 pkt,
    read_packet e0 = Ok (Some pkt) e1 /\
    spi_miso e1 = spi_miso (env n') /\
    type pkt = PKT_TYPE_DATA /\
    _on_receive_callback (self n) = true /\
    deliveries (trace (env n')) =
      (payload pkt, rssi pkt, snr pkt) :: deliveries (trace (env n)).

(** [n'] is [n] after arming the NAV for an RTS that announces [L] bytes.
    The duration is [phase1_duration + W * difs + toa(L)], plus one of the
    prime offsets, plus a jitter of 5 to 15 percent of that sum (the
    percentages are given for sums up to 100000 ms), scaled by the
    congestion multiplier when deferrals precede. *)
Definition nav_armed_for (L : Z) (n n' : Node) : Prop :=
  exists prime jitter,
    In prime PRIME_OFFSETS /\
    let nav_duration :=
      phase1_duration (self n) + w (self n) * difs (self n) + _calculate_toa L + prime in
    (0 <= nav_duration -> 0 <= jitter <= nav_duration) /\
    (0 <= nav_duration <= 100000 ->
     int (inject_Z nav_duration * 0.05) <= jitter <= int (inject_Z nav_duration * 0.15)) /\
    (0 <= nav_duration + jitter ->
     nav_duration + jitter <= nav_until (self n') - ticks_ms (env n')) /\
    (consecutive_navs (self n) <= 0 ->
     nav_until (self n') - ticks_ms (env n') = nav_duration + jitter) /\
    consecutive_navs (self n') = consecutive_navs (self n) + 1 /\
    phase (self n') = PHASE_NAV.

(** The state [n'] in which a call that began in [n] is left when a
    received RTS is too short to hold a length byte: the reception is
    counted, the NAV is not armed, the phase is the one the call was in,
    and the short RTS packet is the last thing read from the chip. *)
Definition stopped_by_short_rts (n n' : Node) : Prop :=
  rx_rts (stats (self n')) = rx_rts (stats (self n)) + 1 /\
  nav_count (stats (self n')) = nav_count (stats (self n)) /\
  nav_until (self n') = nav_until (self n) /\
  consecutive_navs (self n') = consecutive_navs (self n) /\
  (phase (self n') = PHASE_1_LISTEN \/ phase (self n') = PHASE_2_RTS) /\
  exists e0 e1 pkt,
    read_packet e0 = Ok (Some pkt) e1 /\
    spi_miso e1 = spi_miso (env n') /\
    type pkt = PKT_TYPE_RTS /\
    len (payload pkt) < 5.

(** CadDone with nothing detected, then RxDone with a three-byte frame in
    the buffer: an RTS cut short after two payload bytes. *)
Definition short_rts : World :=
  scripted_world [x00; x04;  x00; x02;  x03; x00;  x01; xca; xfe].

(** * Properties *)

(** ** Rules for [spec] *)

Section Rules.

Context {S : Type}.

Lemma spec_ret {A} (a : A) (s : S) Q E D : Q a s -> spec (ret a) s Q E D.
Proof. exact (fun H => H). Qed.

Lemma spec_raise {A} (x : Exn) (s : S) (Q : A -> S -> Prop) E D :
  E x s -> spec (raise x) s Q E D.
Proof. exact (fun H => H). Qed.

Lemma spec_gets {A} (f : S -> A) (s : S) Q E D : Q (f s) s -> spec (gets f) s Q E D.
Proof. exact (fun H => H). Qed.

Lemma spec_modify (f : S -> S) (s : S) Q E D : Q tt (f s) -> spec (modify f) s Q E D.
Proof. exact (fun H => H). Qed.

Lemma spec_diverge {A} (s : S) (Q : A -> S -> Prop) E (D : Prop) :
  D -> spec diverge s Q E D.
Proof. exact (fun H => H). Qed.

Lemma spec_bind {A B} (c : M S A) (k : A -> M S B) (s : S) Q E D :
  spec c s (fun a s' => spec (k a) s' Q E D) E D -> spec (bind c k) s Q E D.
Proof. unfold spec, bind. destruct (c s); auto. Qed.

Lemma spec_mono {A} (c : M S A) (s : S) (Q Q' : A -> S -> Prop)
      (E E' : Exn -> S -> Prop) (D D' : Prop) :
  spec c s Q E D ->
  (forall a s', Q a s' -> Q' a s') ->
  (forall x s', E x s' -> E' x s') ->
  (D -> D') ->
  spec c s Q' E' D'.
Proof. unfold spec. destruct (c s); auto. Qed.

Lemma spec_bytes (l : list Z) (s : S) Q E D :
  (forall bs, bytes_of_ints l = Some bs -> Q bs s) ->
  (bytes_of_ints l = None -> E ValueError s) ->
  spec (bytes l) s Q E D.
Proof.
  unfold bytes. destruct (bytes_of_ints l); intros HQ HE; [apply HQ | apply HE]; auto.
Qed.

Lemma spec_bytearray (l : list Z) (s : S) Q E D :
  Q (map low_byte l) s -> spec (bytearray l) s Q E D.
Proof. exact (fun H => H). Qed.

Lemma spec_Ok {A} (c : M S A) (s s' : S) (a : A) Q E D :
  spec c s Q E D -> c s = Ok a s' -> Q a s'.
Proof. unfold spec. intros H Hc. rewrite Hc in H. exact H. Qed.

Lemma spec_Raise {A} (c : M S A) (s s' : S) (x : Exn) (Q : A -> S -> Prop) E D :
  spec c s Q E D -> c s = Raise x s' -> E x s'.
Proof. unfold spec. intros H Hc. rewrite Hc in H. exact H. Qed.

(** The run behind a returned value. *)
Lemma spec_run {A} (c : M S A) (s : S) (Q : A -> S -> Prop) E D :
  spec c s Q E D -> spec c s (fun a s' => c s = Ok a s' /\ Q a s') E D.
Proof. unfold spec. destruct (c s); auto. Qed.

Lemma spec_total {A} (c : M S A) (s : S) (Q : A -> S -> Prop) :
  spec c s Q never False -> exists a s', c s = Ok a s' /\ Q a s'.
Proof. unfold spec, never. destruct (c s); [eauto | tauto | tauto]. Qed.

End Rules.

Lemma spec_zoom {S T A} (get : S -> T) (put : T -> S -> S) (c : M T A) (s : S) Q E D :
  spec c (get s) (fun a t => Q a (put t s)) (fun x t => E x (put t s)) D ->
  spec (zoom get put c) s Q E D.
Proof. unfold spec, zoom. destruct (c (get s)); auto. Qed.

(** One step of symbolic execution through the primitive operations. *)
Ltac step :=
  lazymatch goal with
  | |- spec (bind _ _) _ _ _ _ => apply spec_bind
  | |- spec (ret _) _ _ _ _ => apply spec_ret
  | |- spec (raise _) _ _ _ _ => apply spec_raise
  | |- spec (gets _) _ _ _ _ => apply spec_gets
  | |- spec (modify _) _ _ _ _ => apply spec_modify
  | |- spec diverge _ _ _ _ => apply spec_diverge
  | |- spec (on_self _) _ _ _ _ => apply spec_modify
  | |- spec (bump _) _ _ _ _ => apply spec_modify
  | |- spec (attr _) _ _ _ _ => apply spec_gets
  | |- spec (on_env _) _ _ _ _ => apply spec_zoom
  end.

Ltac steps := repeat (step; cbv beta; cbn [self env]).

(** Use an established [spec] of the command at the head of the goal. *)
Ltac use L :=
  eapply spec_mono;
  [ apply L
  | cbv beta; cbn [self env]
  | try solve [unfold never; intros ? ? [] | exact (fun _ _ H => H)];
    cbv beta; cbn [self env]
  | try solve [exact (fun H => H) | intros [] | intros _; exact I] ].

(** ** The driver: what each operation writes to the chip *)

Section Driver.

Lemma _wait_busy_loop_trace (timeout : nat) (e : World) :
  trace (_wait_busy_loop timeout e) = trace e.
Proof.
  revert e. induction timeout as [|t IH]; intros e; simpl;
    destruct (feed (pin_busy e) (cursor (pin_busy e))); try reflexivity.
  rewrite IH. reflexivity.
Qed.

Lemma spec__wait_busy (e : World) :
  spec _wait_busy e (fun _ e' => trace e' = trace e) never False.
Proof. apply spec_modify. apply _wait_busy_loop_trace. Qed.

Lemma spec__spi_command (cmd : Z) (params : list byte) (e : World) :
  spec (_spi_command cmd params) e
       (fun _ e' => trace e' = Spi cmd params :: trace e) never False.
Proof.
  unfold _spi_command. step. use spec__wait_busy.
  intros _ e1 H1. step. step. use spec__wait_busy.
  intros _ e2 H2. rewrite H2. simpl. rewrite H1. reflexivity.
Qed.

Lemma spi_read_spec (length : nat) (e : World) :
  List.length (fst (spi_read length e)) = length /\
  trace (snd (spi_read length e)) = trace e.
Proof.
  revert e. induction length as [|n IH]; intros e; simpl; [auto|].
  specialize (IH (set_spi_miso
                    (mkOracle (feed (spi_miso e)) (Datatypes.S (cursor (spi_miso e)))) e)).
  destruct (spi_read n _) as [bs e']. simpl in *. destruct IH as [-> ->]. auto.
Qed.

Lemma spec__spi_read (cmd : Z) (length : nat) (e : World) :
  spec (_spi_read cmd length) e
       (fun data e' => List.length data = length /\ trace e' = Spi cmd [x00] :: trace e)
       never False.
Proof.
  unfold _spi_read. step. use spec__wait_busy.
  intros _ e1 H1. step. step. unfold spec.
  pose proof (spi_read_spec length (emit (Spi cmd [x00]) e1)) as H.
  destruct (spi_read length (emit (Spi cmd [x00]) e1)) as [d e2].
  simpl in H. destruct H as [Hl Ht]. rewrite Ht, H1. auto.
Qed.

Lemma spec__get_irq_status (e : World) :
  spec _get_irq_status e
       (fun _ e' => trace e' = Spi CMD_GET_IRQ_STATUS [x00] :: trace e) never False.
Proof.
  unfold _get_irq_status. step. use spec__spi_read.
  intros data e1 [Hl H1].
  destruct data as [|d0 [|d1 [|? ?]]]; try discriminate.
  simpl. exact H1.
Qed.

(** Only [CMD_WRITE_BUFFER] and [CMD_SET_TX] change what is on the air. *)
Lemma air_quiet (cmd : Z) (params : list byte) (tr : list Event) :
  cmd <> CMD_WRITE_BUFFER -> cmd <> CMD_SET_TX ->
  air (Spi cmd params :: tr) = air tr.
Proof.
  intros H1 H2. cbn [air]. destruct (air tr) as [buffer frames].
  apply Z.eqb_neq in H1, H2. rewrite H1, H2. reflexivity.
Qed.

Ltac quiet :=
  repeat (rewrite air_quiet
            by (let Hq := fresh in intro Hq; vm_compute in Hq; discriminate Hq)).

Lemma quiet__get_irq_status (e : World) :
  spec _get_irq_status e (fun _ e' => air (trace e') = air (trace e)) never False.
Proof.
  use spec__get_irq_status. intros irq e1 H1. rewrite H1. quiet. reflexivity.
Qed.

Lemma spec_clear_irq (e : World) :
  spec clear_irq e
       (fun _ e' => trace e' = Spi CMD_CLEAR_IRQ_STATUS [xff; xff] :: trace e)
       never False.
Proof. apply spec__spi_command. Qed.

Lemma quiet_clear_irq (e : World) :
  spec clear_irq e (fun _ e' => air (trace e') = air (trace e)) never False.
Proof.
  use spec_clear_irq. intros _ e1 H1. rewrite H1. quiet. reflexivity.
Qed.

Lemma spec_cad_wait (fuel : nat) (start : Z) (e : World) :
  spec (cad_wait fuel start) e (fun _ e' => air (trace e') = air (trace e))
       never True.
Proof.
  revert e. induction fuel as [|fuel IH]; intros e; [exact I|].
  cbn [cad_wait]. step. step.
  destruct (ticks_diff (ticks_ms e) start <? 100); [|step; reflexivity].
  step. use quiet__get_irq_status. intros irq e1 H1.
  destruct (flag_set irq IRQ_CAD_DONE).
  - step. use quiet_clear_irq. intros _ e2 H2. step. congruence.
  - step. step. use IH. intros b e2 H2. rewrite H2. simpl. exact H1.
Qed.

Lemma spec_cad (fuel : nat) (e : World) :
  spec (cad fuel) e (fun _ e' => air (trace e') = air (trace e)) never True.
Proof.
  unfold cad. step. use quiet_clear_irq. intros _ e1 H1.
  step. use spec__spi_command. intros _ e2 H2.
  step. step. use spec_cad_wait. intros b e3 H3.
  rewrite H3, H2. quiet. exact H1.
Qed.

Lemma spec_tx_wait (fuel : nat) (start : Z) (e : World) :
  spec (tx_wait fuel start) e (fun _ e' => air (trace e') = air (trace e))
       never True.
Proof.
  revert e. induction fuel as [|fuel IH]; intros e; [exact I|].
  cbn [tx_wait]. step. step.
  destruct (ticks_diff (ticks_ms e) start <? 10000).
  - step. use quiet__get_irq_status. intros irq e1 H1.
    destruct (flag_set irq IRQ_TX_DONE).
    + step. use quiet_clear_irq. intros _ e2 H2. step. congruence.
    + step. step. use IH. intros b e2 H2. rewrite H2. simpl. exact H1.
  - step. step. step. simpl. destruct (air (trace e)). reflexivity.
Qed.

(** [send_packet] hands exactly one frame to the chip: the type tag
    followed by the data. *)
Lemma spec_send_packet (fuel : nat) (data : list byte) (pkt_type : Z) (tag : byte)
      (e : World) :
  byte_of_int pkt_type = Some tag ->
  spec (send_packet fuel data pkt_type) e
       (fun _ e' => snd (air (trace e')) = frame tag data :: snd (air (trace e)))
       never True.
Proof.
  intros Htag. unfold send_packet. step. apply spec_bytes.
  2:{ simpl. rewrite Htag. discriminate. }
  intros bs Hbs. simpl in Hbs. rewrite Htag in Hbs. injection Hbs as <-.
  step. use spec__spi_command. intros _ e1 H1.
  step. use spec_clear_irq. intros _ e2 H2.
  step. use spec__spi_command. intros _ e3 H3.
  step. step. use spec_tx_wait. intros b e4 H4.
  rewrite H4, H3, H2, H1. simpl. destruct (air (trace e)). reflexivity.
Qed.

Lemma spec_start_rx (timeout_ms : Z) (e : World) :
  spec (start_rx timeout_ms) e (fun _ e' => air (trace e') = air (trace e))
       never False.
Proof.
  unfold start_rx. step. step. step. step. step.
  use spec_clear_irq. intros _ e1 H1.
  destruct (timeout_ms =? 0);
    use spec__spi_command; intros _ e2 H2; rewrite H2, H1; simpl;
    destruct (air (trace e)); reflexivity.
Qed.

Lemma spec_rx_done (e : World) :
  spec rx_done e (fun _ e' => air (trace e') = air (trace e)) never False.
Proof.
  unfold rx_done. step. use quiet__get_irq_status. intros irq e1 H1.
  step. destruct (flag_set irq IRQ_VALID_HEADER); step;
    destruct (flag_set irq IRQ_RX_DONE); step; simpl; exact H1.
Qed.

Lemma spec_read_packet (e : World) :
  spec read_packet e (fun _ e' => air (trace e') = air (trace e)) never False.
Proof.
  unfold read_packet. step. use spec__spi_read. intros st e1 [Hl H1].
  destruct st as [|payload_len [|buffer_offset [|? ?]]]; try discriminate.
  unfold index; cbn [nth_error]. step. step. step. step.
  destruct (byte_val payload_len =? 0) eqn:Hlen; [step; rewrite H1; quiet; reflexivity|].
  step. use spec__wait_busy. intros _ e2 H2.
  step. step. step. unfold spec at 1.
  pose proof (spi_read_spec (Z.to_nat (byte_val payload_len))
                            (emit (Spi CMD_READ_BUFFER [buffer_offset; x00]) e2)) as H.
  destruct (spi_read _ (emit (Spi CMD_READ_BUFFER [buffer_offset; x00]) e2)) as [d e3].
  simpl in H. destruct H as [Hd H3].
  assert (Hpos : (0 < Z.to_nat (byte_val payload_len))%nat).
  { apply Z.eqb_neq in Hlen. unfold byte_val in *. lia. }
  destruct d as [|pkt_type rest]; [simpl in Hd; lia|].
  cbn [nth_error]. step. step. step. use spec_clear_irq. intros _ e4 H4. step.
  rewrite H4, H3, H2, H1. quiet. reflexivity.
Qed.

End Driver.

(** ** Arithmetic of the deferral durations *)

Section Durations.

Lemma int_scale_nonneg (n : Z) (q : Q) : 0 <= n -> (0 <= q)%Q -> 0 <= int (inject_Z n * q).
Proof.
  intros Hn Hq. unfold int. destruct q as [qn qd]. unfold Qle in Hq. simpl in *.
  apply Z.quot_pos; [nia | lia].
Qed.

Lemma int_scale_mono (n : Z) (q r : Q) :
  0 <= n -> (0 <= q)%Q -> (q <= r)%Q -> int (inject_Z n * q) <= int (inject_Z n * r).
Proof.
  intros Hn Hq Hqr. unfold int. destruct q as [qn qd], r as [rn rd].
  unfold Qle in *. simpl in *.
  rewrite !Z.quot_div_nonneg by nia.
  apply Z.div_le_lower_bound; [lia|].
  assert (H1 : Z.pos qd * ((n * qn) / Z.pos qd) <= n * qn)
    by (apply Z.mul_div_le; lia).
  assert (H2 : 0 <= (n * qn) / Z.pos qd) by (apply Z.div_pos; nia).
  nia.
Qed.

Lemma int_scale_ge (n : Z) (q : Q) : 0 <= n -> (1 <= q)%Q -> n <= int (inject_Z n * q).
Proof.
  intros Hn Hq. unfold int. destruct q as [qn qd]. unfold Qle in Hq. simpl in *.
  apply Z.quot_le_lower_bound; [lia | nia].
Qed.

Lemma multiplier_ge_1 (k : Z) : 0 < k -> (1 <= Qmin (1.0 + inject_Z k * 0.3) 2.5)%Q.
Proof.
  intros Hk. apply Q.min_glb.
  - unfold Qle, Qplus, Qmult, inject_Z. cbn [Qnum Qden]. lia.
  - unfold Qle. cbn [Qnum Qden]. lia.
Qed.

End Durations.

(** ** The deferral methods *)

Section Deferral.

Lemma spec_randint (a b : Z) (e : World) :
  spec (randint a b) e
       (fun v e' => a <= v <= b /\ trace e' = trace e /\ clock e' = clock e)
       (fun x e' => x = ValueError /\ b < a /\ e' = e)
       False.
Proof.
  unfold spec, randint. destruct (a <=? b) eqn:Hab.
  - apply Z.leb_le in Hab. simpl. repeat split; try reflexivity.
    + pose proof (Z.mod_pos_bound (feed (entropy e) (cursor (entropy e))) (b - a + 1)). lia.
    + pose proof (Z.mod_pos_bound (feed (entropy e) (cursor (entropy e))) (b - a + 1)). lia.
  - apply Z.leb_gt in Hab. auto.
Qed.

Lemma spec_draw_prime_offset (n : Node) :
  spec draw_prime_offset n
       (fun prime n' =>
          self n' = self n /\ trace (env n') = trace (env n) /\
          clock (env n') = clock (env n) /\ 5 <= prime <= 17)
       never False.
Proof.
  unfold draw_prime_offset. steps. use spec_randint.
  - intros i e' (Hi & Ht & Hc). change (len PRIME_OFFSETS - 1) with 4 in Hi.
    assert (Hcases : i = 0 \/ i = 1 \/ i = 2 \/ i = 3 \/ i = 4) by lia.
    destruct Hcases as [-> | [-> | [-> | [-> | ->]]]];
      (apply spec_ret; simpl; repeat split; (assumption || lia)).
  - unfold never. intros x e' (_ & Hlt & _). change (len PRIME_OFFSETS - 1) with 4 in Hlt. lia.
Qed.

Lemma spec_exponential_backoff (duration : Z) (n : Node) :
  spec (exponential_backoff duration) n
       (fun d n' => n' = n /\ (0 <= duration -> duration <= d))
       never False.
Proof.
  unfold exponential_backoff. steps.
  destruct (0 <? consecutive_navs (self n)) eqn:Hk; step; split; auto; try lia.
  intros Hd. apply int_scale_ge; [exact Hd|]. apply multiplier_ge_1.
  apply Z.ltb_lt. exact Hk.
Qed.

(** Whatever an observed RTS makes of [self] is an [armed] state with
    [nav_count] stepped; a raise leaves [self] as it was. *)
Lemma spec__enter_nav_from_rts (rts_packet : Packet) (n : Node) :
  spec (_enter_nav_from_rts rts_packet) n
       (fun _ n' =>
          (exists nav_duration,
             self n' = set_stats (inc_nav_count (stats (self n)))
                                 (armed (ticks_ms (env n) + nav_duration) (self n))) /\
          trace (env n') = trace (env n) /\ clock (env n') = clock (env n))
       (fun _ n' => self n' = self n /\ trace (env n') = trace (env n))
       False.
Proof.
  unfold _enter_nav_from_rts. step. unfold index.
  destruct (nth_error (payload rts_packet) 4) as [b|]; [|step; auto].
  steps.
  use spec_draw_prime_offset. intros prime n1 (Hs1 & Ht1 & Hc1 & _).
  steps. use spec_randint.
  2:{ intros x e' (_ & _ & ->). simpl. rewrite Hs1, Ht1. auto. }
  intros jitter e2 (_ & Ht2 & Hc2). step.
  use spec_exponential_backoff. intros d n3 [-> _].
  steps.
  simpl. rewrite Ht2, Hc2, Ht1, Hc1, Hs1. unfold ticks_ms at 1. simpl. rewrite Hc2, Hc1.
  repeat split. eexists. reflexivity.
Qed.

Lemma spec__enter_nav_random (n : Node) :
  spec _enter_nav_random n
       (fun _ n' =>
          (exists nav_duration,
             self n' = set_stats (inc_nav_count (stats (self n)))
                                 (armed (ticks_ms (env n) + nav_duration) (self n))) /\
          trace (env n') = trace (env n) /\ clock (env n') = clock (env n))
       never False.
Proof.
  unfold _enter_nav_random. steps. use spec_randint.
  2:{ unfold never. intros x e' (_ & Hlt & _). vm_compute in Hlt. discriminate. }
  intros d0 e1 (_ & Ht1 & Hc1). steps.
  use spec_draw_prime_offset. intros prime n2 (Hs2 & Ht2 & Hc2 & _). simpl in Hs2, Ht2, Hc2.
  steps. use spec_exponential_backoff. intros d n3 [-> _].
  steps.
  simpl. rewrite Ht2, Hc2, Ht1, Hc1, Hs2. unfold ticks_ms at 1. rewrite Hc2, Hc1.
  repeat split. eexists. reflexivity.
Qed.

(** The CAD deferral arms the NAV like the other two, and leaves
    [stats] alone. *)
Lemma spec__defer_random (n : Node) :
  spec _defer_random n
       (fun _ n' =>
          (exists defer_duration,
             self n' = armed (ticks_ms (env n) + defer_duration) (self n)) /\
          trace (env n') = trace (env n) /\ clock (env n') = clock (env n))
       (fun _ n' => n' = n)
       False.
Proof.
  unfold _defer_random. steps. use spec_randint.
  2:{ intros x e' (_ & _ & ->). destruct n; reflexivity. }
  intros d0 e1 (_ & Ht1 & Hc1). steps.
  use spec_draw_prime_offset. intros prime n2 (Hs2 & Ht2 & Hc2 & _). simpl in Hs2, Ht2, Hc2.
  steps. use spec_exponential_backoff. intros d n3 [-> _].
  steps.
  simpl. rewrite Ht2, Hc2, Ht1, Hc1, Hs2. unfold ticks_ms at 1. rewrite Hc2, Hc1.
  repeat split. eexists. reflexivity.
Qed.

End Deferral.

(** ** The listening window *)

Section Listening.

Lemma no_tx_refl (n : Node) : no_tx n n.
Proof. unfold no_tx. auto. Qed.

Lemma no_tx_trans (n1 n2 n3 : Node) : no_tx n1 n2 -> no_tx n2 n3 -> no_tx n1 n3.
Proof. unfold no_tx. intros (-> & -> & ->) (-> & -> & ->). auto. Qed.

Lemma spec_listen_poll (poll_interval idle_count : Z) (n : Node) :
  spec (listen_poll poll_interval idle_count) n
       (fun r n' =>
          air (trace (env n')) = air (trace (env n)) /\
          match r with
          | inl b =>
              b = false /\
              tx_rts (stats (self n')) = tx_rts (stats (self n)) /\
              tx_data (stats (self n')) = tx_data (stats (self n)) /\
              heard (self n) (self n')
          | inr _ => self n' = self n
          end)
       (fun _ n' => no_tx n n')
       False.
Proof.
  unfold listen_poll. steps. use spec_rx_done. intros done e1 H1.
  destruct done.
  2:{ steps. simpl. auto. }
  steps. use spec_read_packet. intros pkt e2 H2.
  destruct pkt as [pk|]; [|steps; cbn [self env] in *; split; [congruence | reflexivity]].
  destruct (type pk =? PKT_TYPE_RTS).
  - steps. use spec__enter_nav_from_rts.
    + intros _ n3 ([d Hs] & Ht & _). steps. simpl in *. rewrite Ht, H2, H1, Hs.
      unfold heard. simpl. repeat split; auto.
    + intros x n3 (Hs & Ht). simpl in *. unfold no_tx. rewrite Ht, H2, H1, Hs. simpl. auto.
  - destruct (type pk =? PKT_TYPE_DATA); [|steps; cbn [self env] in *; split; [congruence | reflexivity]].
    steps.
    match goal with |- context [if _on_receive_callback ?m then _ else _] =>
      destruct (_on_receive_callback m) end.
    + steps. use spec__enter_nav_random.
      intros _ n3 ([d Hs] & Ht & _). steps. simpl in *. rewrite Ht. simpl.
      rewrite H2, H1, Hs. unfold heard. simpl.
      destruct (air (trace (env n))). repeat split; auto.
    + steps. use spec__enter_nav_random.
      intros _ n3 ([d Hs] & Ht & _). steps. simpl in *. rewrite Ht, H2, H1, Hs.
      unfold heard. simpl. repeat split; auto.
Qed.

Lemma spec_listen_loop (fuel : nat) (start duration poll_interval idle_count : Z) (n : Node) :
  spec (listen_loop fuel start duration poll_interval idle_count) n
       (fun r n' =>
          air (trace (env n')) = air (trace (env n)) /\
          match r with
          | Some b =>
              b = false /\
              tx_rts (stats (self n')) = tx_rts (stats (self n)) /\
              tx_data (stats (self n')) = tx_data (stats (self n)) /\
              heard (self n) (self n')
          | None => self n' = self n
          end)
       (fun _ n' => no_tx n n')
       True.
Proof.
  revert poll_interval idle_count n.
  induction fuel as [|fuel IH]; intros poll_interval idle_count n; [exact I|].
  cbn [listen_loop]. steps.
  destruct (ticks_diff (ticks_ms (env n)) start <? duration);
    [|steps; destruct n; simpl; auto].
  steps. use spec_listen_poll. intros r n1 [Ha Hr].
  destruct r as [b | [poll' idle']].
  - steps. auto.
  - steps. use IH.
    + intros r n2 [Ha2 Hr2]. simpl in *. rewrite Hr in Hr2. rewrite Ha2, Ha.
      split; [reflexivity | exact Hr2].
    + intros x n2 (Ha2 & Hr2 & Hd2). simpl in *. unfold no_tx.
      rewrite Ha2, Hr2, Hd2, Ha, Hr. auto.
Qed.

End Listening.

(** ** The three phases and [send_data] *)

Section Phases.

Lemma spec_draw_backoff (n : Node) :
  spec draw_backoff n
       (fun _ n' => self n' = self n /\ trace (env n') = trace (env n))
       (fun _ n' => self n' = self n /\ trace (env n') = trace (env n))
       False.
Proof.
  unfold draw_backoff. steps. use spec_randint.
  2:{ intros x e' (_ & _ & ->). auto. }
  intros slots e1 (_ & Ht1 & _). steps.
  use spec_draw_prime_offset. intros prime n2 (Hs2 & Ht2 & _). steps.
  simpl in *. split; congruence.
Qed.

Lemma spec__phase3_send_data (fuel : nat) (data : list byte) (n : Node) :
  spec (_phase3_send_data fuel data) n
       (fun b n' =>
          b = true /\
          snd (air (trace (env n'))) = frame x02 data :: snd (air (trace (env n))) /\
          tx_data (stats (self n')) = tx_data (stats (self n)) + 1 /\
          tx_rts (stats (self n')) = tx_rts (stats (self n)) /\
          consecutive_navs (self n') = 0 /\
          phase (self n') = PHASE_IDLE)
       (fun _ n' => no_tx n n')
       True.
Proof.
  unfold _phase3_send_data. steps. use spec_draw_backoff.
  2:{ intros x n1 [Hs Ht]. simpl in *. unfold no_tx. rewrite Hs, Ht. auto. }
  intros backoff n1 [Hs1 Ht1]. steps.
  use (spec_send_packet fuel data PKT_TYPE_DATA x02). { reflexivity. }
  intros _ e2 H2. steps. simpl in *. rewrite H2, Ht1, Hs1. simpl.
  repeat split; reflexivity.
Qed.

Lemma spec__phase2_send_rts (fuel : nat) (pending_data : list byte) (n : Node) :
  spec (_phase2_send_rts fuel pending_data) n
       (fun b n' =>
          if b then sent_outcome pending_data n n'
          else rts_only_outcome pending_data n n')
       (fun _ _ => True)
       True.
Proof.
  unfold _phase2_send_rts. steps. use spec_draw_backoff.
  2:{ intros; exact I. }
  intros backoff n1 [Hs1 Ht1]. steps. apply spec_bytearray.
  set (rts := map low_byte [0xCA; 0xFE; 0xBA; 0xBE; len pending_data]).
  assert (Hrts : rts_payload (len pending_data) = Some rts) by reflexivity.
  clearbody rts.
  steps. use (spec_send_packet fuel rts PKT_TYPE_RTS x01). { reflexivity. }
  intros _ e2 H2. steps. use spec_start_rx. intros _ e3 H3. steps.
  use spec_listen_loop.
  2:{ intros; exact I. }
  intros r n4 [Ha4 Hr4]. simpl in *. destruct r as [b|].
  - destruct Hr4 as (-> & Hrts4 & Hdata4 & Hheard). steps.
    exists rts. simpl in *. rewrite Ha4, H3, H2, Ht1, Hrts4, Hdata4, Hs1.
    repeat split; auto.
    unfold heard in *. simpl in *. rewrite Hs1 in Hheard. exact Hheard.
  - use spec__phase3_send_data.
    2:{ intros; exact I. }
    intros b n5 (-> & Ha5 & Hd5 & Hr5 & Hc5 & _).
    exists rts. rewrite Ha5, Ha4, H3, H2, Ht1, Hd5, Hr5, Hr4, Hs1. simpl.
    repeat split; auto.
Qed.

Lemma spec__phase1_listen_rts (fuel : nat) (pending_data : list byte) (n : Node) :
  spec (_phase1_listen_rts fuel pending_data) n
       (fun b n' =>
          if b then sent_outcome pending_data n n'
          else no_tx n n' \/ rts_only_outcome pending_data n n')
       (fun _ _ => True)
       True.
Proof.
  unfold _phase1_listen_rts. steps. use spec_start_rx. intros _ e1 H1. steps.
  use spec_listen_loop.
  2:{ intros; exact I. }
  intros r n2 [Ha2 Hr2]. simpl in *. destruct r as [b|].
  - destruct Hr2 as (-> & Hrts2 & Hdata2 & _). steps. left.
    unfold no_tx. rewrite Ha2, H1, Hrts2, Hdata2. auto.
  - use spec__phase2_send_rts.
    + intros b n3 Hb. destruct b.
      * destruct Hb as (rts & Hp & Ha3 & Hr3 & Hd3 & Hc3). exists rts.
        rewrite Ha3, Hr3, Hd3, Ha2, H1, Hr2. simpl. auto.
      * right. destruct Hb as (rts & Hp & Ha3 & Hr3 & Hd3 & Hh). exists rts.
        rewrite Ha3, Hr3, Hd3, Ha2, H1, Hr2. simpl. repeat split; auto.
        unfold heard in *. rewrite Hr2 in Hh. exact Hh.
Qed.

Lemma spec_send_data (fuel : nat) (data : list byte) (priority : string) (n : Node) :
  spec (send_data fuel data priority) n
       (fun b n' =>
          if b then sent_outcome data n n'
          else no_tx n n' \/ rts_only_outcome data n n')
       (fun _ _ => True)
       True.
Proof.
  destruct n as [m e]. unfold send_data. step. unfold _in_nav. steps.
  destruct (ticks_ms e <? nav_until m).
  { steps. left. apply no_tx_refl. }
  steps. set (n := mkNode m e).
  assert (Hcad : spec (if use_cad (config m) then on_env (cad fuel) else ret false) n
                      (fun _ n' => self n' = self n /\
                                   air (trace (env n')) = air (trace (env n)))
                      never True).
  { destruct (use_cad (config m)); steps; auto.
    use spec_cad. intros b e1 H1. simpl. auto. }
  use Hcad. clear Hcad. intros busy n1 [Hs1 Ha1].
  destruct busy.
  - steps. use spec__defer_random.
    + intros _ n2 ([d Hs2] & Ht2 & _). steps. left. simpl in *. unfold no_tx.
      rewrite Ht2, Ha1, Hs2, Hs1. simpl. auto.
    + intros; exact I.
  - steps.
    assert (Hcoin : spec (if (priority =? "high")%string then ret true
                          else r <- on_env random ;; ret (Qltb r (p (self n1)))) n1
                         (fun _ n' => self n' = self n1 /\
                                      trace (env n') = trace (env n1))
                         never False).
    { destruct (priority =? "high")%string; steps; auto.
      unfold spec, random. simpl. auto. }
    use Hcoin. clear Hcoin. intros direct n2 [Hs2 Ht2].
    assert (Hn2 : forall n3, no_tx n2 n3 -> no_tx n n3).
    { intros n3. apply no_tx_trans. unfold no_tx. rewrite Ht2, Ha1, Hs2, Hs1. auto. }
    assert (Hsent : forall n3, sent_outcome data n2 n3 -> sent_outcome data n n3).
    { intros n3 (rts & Hp & Ha3 & Hr3 & Hd3 & Hc3). exists rts.
      rewrite Ha3, Hr3, Hd3, Ht2, Ha1, Hs2, Hs1. auto. }
    assert (Hrts : forall n3, rts_only_outcome data n2 n3 -> rts_only_outcome data n n3).
    { intros n3 (rts & Hp & Ha3 & Hr3 & Hd3 & Hh). exists rts.
      rewrite Ha3, Hr3, Hd3, Ht2, Ha1, Hs2, Hs1. repeat split; auto.
      rewrite Hs2, Hs1 in Hh. exact Hh. }
    destruct direct.
    + use spec__phase2_send_rts.
      intros b n3 Hb. destruct b; auto.
    + use spec__phase1_listen_rts.
      intros b n3 Hb. destruct b; [auto|]. destruct Hb; auto.
Qed.

End Phases.

(** ** Results *)

Section Results.

Lemma frames_sent_app (e e' : World) (fs : list (list byte)) :
  snd (air (trace e')) = fs ++ snd (air (trace e)) ->
  frames_sent e' = frames_sent e ++ rev fs.
Proof. unfold frames_sent. intros ->. apply rev_app_distr. Qed.

Lemma spec_tx_wait_last (fuel : nat) (start : Z) (e : World) :
  spec (tx_wait fuel start) e
       (fun sent e' => sent = false <-> tx_timed_out e')
       never True.
Proof.
  revert e. induction fuel as [|fuel IH]; intros e; [exact I|].
  cbn [tx_wait]. steps.
  destruct (ticks_diff (ticks_ms e) start <? 10000).
  - steps. use spec__get_irq_status. intros irq e1 H1.
    destruct (flag_set irq IRQ_TX_DONE).
    + steps. use spec_clear_irq. intros _ e2 H2. steps.
      unfold tx_timed_out. rewrite H2. simpl. split; discriminate.
    + steps. apply IH.
  - steps. unfold tx_timed_out. simpl. tauto.
Qed.

Lemma spec_send_packet_last (fuel : nat) (data : list byte) (pkt_type : Z) (e : World) :
  spec (send_packet fuel data pkt_type) e
       (fun sent e' => sent = false <-> tx_timed_out e')
       (fun _ _ => True) True.
Proof.
  unfold send_packet. steps. apply spec_bytes; [|exact (fun _ => I)].
  intros tag _. steps. use spec__spi_command. intros _ e1 _.
  steps. use spec_clear_irq. intros _ e2 _.
  steps. use spec__spi_command. intros _ e3 _.
  steps. use spec_tx_wait_last. auto.
Qed.

(** C1 (as amended): the result of the radio transmit is not looked at.
    When [_phase3_send_data] returns after a DATA transmission that timed
    out, it still returns [True], counts the transmission and resets the
    deferral counter. *)
Theorem data_tx_timeout_still_sent
        (fuel : nat) (data : list byte) (n n' : Node) (b : bool) :
  _phase3_send_data fuel data n = Ok b n' ->
  tx_timed_out (env n') ->
  b = true /\
  tx_data (stats (self n')) = tx_data (stats (self n)) + 1 /\
  consecutive_navs (self n') = 0.
Proof.
  intros Hrun _.
  pose proof (spec_Ok _ _ _ _ _ _ _ (spec__phase3_send_data fuel data n) Hrun) as H.
  cbv beta in H. tauto.
Qed.

Lemma data_tx_timeout_still_sent_witness :
  true = true /\
  tx_data (stats (self (state_of (_phase3_send_data 2000 hi (idle_node silent_world))
                                 (idle_node silent_world)))) =
    tx_data (stats (self (idle_node silent_world))) + 1 /\
  consecutive_navs (self (state_of (_phase3_send_data 2000 hi (idle_node silent_world))
                                   (idle_node silent_world))) = 0.
Proof.
  apply (data_tx_timeout_still_sent 2000 hi (idle_node silent_world)).
  - vm_compute. reflexivity.
  - vm_compute. reflexivity.
Defined.

(** C1 (counterexample): on a chip that never signals TxDone the driver's
    [send_packet] returns [False], and [send_data] on that chip returns
    [True] with the timed-out DATA transmit as its last radio action. *)
Lemma tx_timeout_reported_as_sent :
  (exists e', send_packet 2000 hi PKT_TYPE_DATA silent_world = Ok false e') /\
  (exists n', send_data 2000 hi "high" (idle_node silent_world) = Ok true n' /\
              tx_timed_out (env n')).
Proof.
  split.
  - exists (state_of (send_packet 2000 hi PKT_TYPE_DATA silent_world) silent_world).
    vm_compute. reflexivity.
  - exists (state_of (send_data 2000 hi "high" (idle_node silent_world))
                     (idle_node silent_world)).
    split; vm_compute; reflexivity.
Qed.

(** C2 (the code at the failing input): a [send_data] stopped by a
    positive CAD arms the NAV ([nav_until] in the future, [phase] NAV,
    [consecutive_navs] stepped) and counts the CAD, yet [nav_count] stays
    at zero. *)
Lemma cad_deferral_not_counted :
  exists n',
    send_data 10 hi "normal" (idle_node busy_channel) = Ok false n' /\
    ticks_ms (env n') < nav_until (self n') /\
    phase (self n') = PHASE_NAV /\
    consecutive_navs (self n') = 1 /\
    cad_detected (stats (self n')) = 1 /\
    nav_count (stats (self n')) = 0.
Proof.
  exists (state_of (send_data 10 hi "normal" (idle_node busy_channel))
                   (idle_node busy_channel)).
  split; [vm_compute; reflexivity|].
  split; [vm_compute; reflexivity|].
  split; [vm_compute; reflexivity|].
  split; [vm_compute; reflexivity|].
  split; vm_compute; reflexivity.
Qed.

Lemma two_frames_when_sent
      (fuel : nat) (data : list byte) (priority : string) (n n' : Node) :
  send_data fuel data priority n = Ok true n' ->
  exists rts,
    rts_payload (len data) = Some rts /\
    frames_sent (env n') = frames_sent (env n) ++ [frame x01 rts; frame x02 data].
Proof.
  intros Hrun.
  pose proof (spec_Ok _ _ _ _ _ _ _ (spec_send_data fuel data priority n) Hrun) as H.
  cbv beta iota in H. destruct H as (rts & Hp & Ha & _).
  exists rts. split; [exact Hp|].
  apply (frames_sent_app _ _ [frame x02 data; frame x01 rts]). exact Ha.
Qed.

(** C3: a [send_data] that returns [True] has put exactly two frames on
    the air during the call, the RTS announcing [len(data)] first and the
    DATA frame carrying [data] second. *)
Theorem sent_emits_rts_then_data
        (fuel : nat) (data : list byte) (priority : string) (n n' : Node) :
  send_data fuel data priority n = Ok true n' ->
  exists rts,
    rts_payload (len data) = Some rts /\
    frames_sent (env n') = frames_sent (env n) ++ [frame x01 rts; frame x02 data].
Proof. apply two_frames_when_sent. Qed.

Lemma sent_emits_rts_then_data_witness :
  exists rts,
    rts_payload (len hi) = Some rts /\
    frames_sent (env (state_of (send_data 2000 hi "normal" (idle_node clear_channel))
                               (idle_node clear_channel))) =
      frames_sent (env (idle_node clear_channel)) ++ [frame x01 rts; frame x02 hi].
Proof.
  apply (sent_emits_rts_then_data 2000 hi "normal" (idle_node clear_channel)).
  vm_compute. reflexivity.
Defined.

(** C4 (as amended): for a MAC whose window and DIFS are those of the
    data model ([W >= 0], [difs_ms > 0]), arming the NAV from an observed
    RTS whose fifth payload byte is [L] succeeds and leaves [nav_until] at
    least [phase1_duration + toa(L)] after the tick count read at arming
    time. *)
Theorem nav_from_rts_lower_bound (rts_packet : Packet) (L : byte) (n : Node) :
  timing_ok (self n) ->
  nth_error (payload rts_packet) 4 = Some L ->
  exists n',
    _enter_nav_from_rts rts_packet n = Ok tt n' /\
    ticks_ms (env n') = ticks_ms (env n) /\
    phase1_duration (self n) + _calculate_toa (byte_val L)
      <= nav_until (self n') - ticks_ms (env n').
Proof.
  intros (Hw & Hdifs & Hrts & Hp1) HL.
  assert (HLpos : 0 <= byte_val L) by (unfold byte_val; lia).
  assert (Hslots : 0 <= w (self n) * difs (self n)) by nia.
  assert (Htoa5 : _calculate_toa 5 = 586) by reflexivity.
  assert (Htoa : 401 <= _calculate_toa (byte_val L)) by (unfold _calculate_toa; lia).
  cut (spec (_enter_nav_from_rts rts_packet) n
            (fun _ n' =>
               ticks_ms (env n') = ticks_ms (env n) /\
               phase1_duration (self n) + _calculate_toa (byte_val L)
                 <= nav_until (self n') - ticks_ms (env n'))
            never False).
  { intros H. apply spec_total in H. destruct H as ([] & n' & Hrun & Hq). eauto. }
  unfold _enter_nav_from_rts. step. unfold index. rewrite HL. steps.
  use spec_draw_prime_offset. intros prime n1 (Hs1 & Ht1 & Hc1 & Hprime).
  set (base := phase1_duration (self n) + w (self n) * difs (self n)
               + _calculate_toa (byte_val L) + prime).
  assert (Hbase : 0 <= base) by (unfold base; lia).
  steps. use spec_randint.
  2:{ unfold never. intros x e' (_ & Hlt & _).
      assert (int (inject_Z base * 0.05) <= int (inject_Z base * 0.15)).
      { apply int_scale_mono; [exact Hbase | |]; unfold Qle; simpl; lia. }
      lia. }
  intros jitter e2 (Hj & Ht2 & Hc2).
  assert (Hjitter : 0 <= jitter).
  { assert (0 <= int (inject_Z base * 0.05)).
    { apply int_scale_nonneg; [exact Hbase|]. unfold Qle; simpl; lia. }
    lia. }
  steps. use spec_exponential_backoff. intros d n3 [-> Hd]. steps.
  simpl. unfold ticks_ms. simpl. rewrite Hc2, Hc1. split; [reflexivity|].
  specialize (Hd ltac:(lia)). lia.
Qed.

Lemma nav_from_rts_lower_bound_witness :
  exists n',
    _enter_nav_from_rts rts_announcing_16 (idle_node silent_world) = Ok tt n' /\
    ticks_ms (env n') = ticks_ms (env (idle_node silent_world)) /\
    phase1_duration (self (idle_node silent_world)) + _calculate_toa (byte_val x10)
      <= nav_until (self n') - ticks_ms (env n').
Proof.
  apply (nav_from_rts_lower_bound rts_announcing_16 x10 (idle_node silent_world)).
  - unfold timing_ok. simpl. lia.
  - reflexivity.
Defined.

(** C4 (counterexample): the constructor accepts [W = -1].  With it and
    the default [difs_ms = 400], a node that hears an RTS announcing 0
    bytes while it listens in Phase 1 arms a NAV of 201 ms, although
    [phase1_duration + toa(0)] is 587 ms. *)
Lemma nav_shorter_with_negative_window :
  exists n',
    send_data 2000 hi "normal" (negative_window_node rts_for_no_data) = Ok false n' /\
    rx_rts (stats (self n')) = 1 /\
    nav_count (stats (self n')) = 1 /\
    nav_until (self n') - ticks_ms (env n') = 201 /\
    phase1_duration (self n') + _calculate_toa 0 = 587.
Proof.
  exists (state_of (send_data 2000 hi "normal" (negative_window_node rts_for_no_data))
                   (negative_window_node rts_for_no_data)).
  split; [vm_compute; reflexivity|].
  split; [vm_compute; reflexivity|].
  split; [vm_compute; reflexivity|].
  split; vm_compute; reflexivity.
Qed.

Lemma byte_of_int_Some (L : Z) :
  0 <= L <= 255 -> exists b, byte_of_int L = Some b /\ byte_val b = L.
Proof.
  intros HL. unfold byte_of_int, byte_val.
  destruct (L <? 0) eqn:Hneg; [apply Z.ltb_lt in Hneg; lia|].
  destruct (Byte.of_N (Z.to_N L)) as [b|] eqn:Hb.
  - exists b. split; [reflexivity|]. apply Byte.to_of_N in Hb. rewrite Hb. lia.
  - apply Byte.of_N_None_iff in Hb. lia.
Qed.

Lemma byte_of_int_None (L : Z) : 255 < L -> byte_of_int L = None.
Proof.
  intros HL. unfold byte_of_int.
  destruct (L <? 0) eqn:Hneg; [reflexivity|].
  apply Byte.of_N_None_iff. lia.
Qed.

Lemma rts_payload_eq (L : Z) :
  rts_payload L = Some [xca; xfe; xba; xbe; low_byte L].
Proof. reflexivity. Qed.

Lemma byte_val_low_byte (n : Z) : byte_val (low_byte n) = n mod 256.
Proof.
  unfold low_byte, byte_val.
  change 255 with (Z.ones 8). rewrite Z.land_ones by lia. change (2 ^ 8) with 256.
  pose proof (Z.mod_pos_bound n 256 ltac:(lia)) as Hm.
  destruct (Byte.of_N (Z.to_N (n mod 256))) as [b|] eqn:Hb.
  - apply Byte.to_of_N in Hb. rewrite Hb. lia.
  - apply Byte.of_N_None_iff in Hb. lia.
Qed.




(** C6 (as amended): construction accepts every configuration.
    [MACConfig] and [LoRaMAC] are built for any keyword values, and the MAC
    holds [W], [P] and [difs_ms] exactly as given. *)
Theorem construction_never_fails (kwargs : Kwargs) :
  exists cfg mac,
    MACConfig_init kwargs tt = Ok cfg tt /\
    LoRaMAC_init cfg tt = Ok mac tt /\
    config mac = cfg /\
    w mac = get (kw_backoff_window kwargs) 7 /\
    p mac = get (kw_phase2_probability kwargs) 0.1%Q /\
    difs mac = get (kw_difs_ms kwargs) 400.
Proof.
  eexists. eexists. split; [reflexivity|]. split; [reflexivity|].
  repeat split; reflexivity.
Qed.

(** C6 (counterexample): [W = -1], [P = 1.5] and [difs_ms = 0] together
    still give a MAC object. *)
Lemma invalid_config_accepted :
  exists cfg mac,
    MACConfig_init bad_kwargs tt = Ok cfg tt /\
    LoRaMAC_init cfg tt = Ok mac tt /\
    w mac = -1 /\ (1 < p mac)%Q /\ difs mac = 0.
Proof.
  eexists. eexists. split; [reflexivity|]. split; [reflexivity|].
  split; [reflexivity|]. split; reflexivity.
Qed.

(** C7: after a [send_data] that returned [True], [consecutive_navs] is
    zero, whatever it was before. *)
Theorem sent_resets_consecutive_navs
        (fuel : nat) (data : list byte) (priority : string) (n n' : Node) :
  send_data fuel data priority n = Ok true n' ->
  consecutive_navs (self n') = 0.
Proof.
  intros Hrun.
  pose proof (spec_Ok _ _ _ _ _ _ _ (spec_send_data fuel data priority n) Hrun) as H.
  cbv beta iota in H. destruct H as (rts & _ & _ & _ & _ & Hc). exact Hc.
Qed.

Lemma sent_resets_consecutive_navs_witness :
  consecutive_navs (self (state_of (send_data 2000 hi "normal" (deferred_thrice clear_channel))
                                   (deferred_thrice clear_channel))) = 0.
Proof.
  apply (sent_resets_consecutive_navs 2000 hi "normal" (deferred_thrice clear_channel)).
  vm_compute. reflexivity.
Defined.

(** C9: when [_phase2_send_rts] returns [False] (a competing RTS or a DATA
    packet was received in its listening window), exactly one frame went
    on the air during the call, the RTS, and [tx_rts] was stepped; no DATA
    frame was sent or counted. *)
Theorem deferred_in_phase2_has_sent_rts
        (fuel : nat) (data : list byte) (n n' : Node) :
  _phase2_send_rts fuel data n = Ok false n' ->
  exists rts,
    rts_payload (len data) = Some rts /\
    frames_sent (env n') = frames_sent (env n) ++ [frame x01 rts] /\
    tx_rts (stats (self n')) = tx_rts (stats (self n)) + 1 /\
    tx_data (stats (self n')) = tx_data (stats (self n)) /\
    heard (self n) (self n').
Proof.
  intros Hrun.
  pose proof (spec_Ok _ _ _ _ _ _ _ (spec__phase2_send_rts fuel data n) Hrun) as H.
  cbv beta iota in H. destruct H as (rts & Hp & Ha & Hr & Hd & Hh).
  exists rts. split; [exact Hp|]. split; [|auto].
  apply (frames_sent_app _ _ [frame x01 rts]). exact Ha.
Qed.

Lemma deferred_in_phase2_has_sent_rts_witness :
  exists rts,
    rts_payload (len hi) = Some rts /\
    frames_sent (env (state_of (_phase2_send_rts 50 hi (low_power_node competing_rts))
                               (low_power_node competing_rts))) =
      frames_sent (env (low_power_node competing_rts)) ++ [frame x01 rts] /\
    tx_rts (stats (self (state_of (_phase2_send_rts 50 hi (low_power_node competing_rts))
                                  (low_power_node competing_rts)))) =
      tx_rts (stats (self (low_power_node competing_rts))) + 1 /\
    tx_data (stats (self (state_of (_phase2_send_rts 50 hi (low_power_node competing_rts))
                                   (low_power_node competing_rts)))) =
      tx_data (stats (self (low_power_node competing_rts))) /\
    heard (self (low_power_node competing_rts))
          (self (state_of (_phase2_send_rts 50 hi (low_power_node competing_rts))
                          (low_power_node competing_rts))).
Proof.
  apply (deferred_in_phase2_has_sent_rts 50 hi (low_power_node competing_rts)).
  vm_compute. reflexivity.
Defined.

(** C10: a [send_data] called while [_in_nav] holds returns [False] and
    leaves the MAC object and the world below it exactly as they were: no
    counter, no field, no clock tick, no radio command, no input consumed. *)
Theorem send_in_nav_is_noop
        (fuel : nat) (data : list byte) (priority : string) (n : Node) :
  _in_nav n = Ok true n ->
  send_data fuel data priority n = Ok false n.
Proof.
  intros Hnav. unfold send_data, bind. rewrite Hnav. reflexivity.
Qed.

Lemma send_in_nav_is_noop_witness :
  send_data 0 hi "normal" in_nav_node = Ok false in_nav_node.
Proof.
  apply (send_in_nav_is_noop 0 hi "normal" in_nav_node). reflexivity.
Defined.

End Results.

(** ** The driver: time *)

Section DriverTiming.

Lemma advances_refl (e : World) : advances 0 0 e e.
Proof. unfold advances. split; [lia | reflexivity]. Qed.

Lemma advances_trans (l1 h1 l2 h2 : Z) (e1 e2 e3 : World) :
  advances l1 h1 e1 e2 -> advances l2 h2 e2 e3 -> advances (l1 + l2) (h1 + h2) e1 e3.
Proof. unfold advances. intros [H1 ->] [H2 ->]. split; [lia | reflexivity]. Qed.

Lemma advances_weaken (l h l' h' : Z) (e e' : World) :
  advances l h e e' -> l' <= l -> h <= h' -> advances l' h' e e'.
Proof. unfold advances. intros [H1 H2] Hl Hh. split; [lia | exact H2]. Qed.

Lemma _wait_busy_loop_clock (timeout : nat) (e : World) :
  clock e <= clock (_wait_busy_loop timeout e) <= clock e + Z.of_nat timeout.
Proof.
  revert e. induction timeout as [|t IH]; intros e; simpl;
    destruct (feed (pin_busy e) (cursor (pin_busy e))); simpl; try lia.
  match goal with |- context [_wait_busy_loop t ?x] => specialize (IH x) end.
  simpl in IH. lia.
Qed.

Lemma _wait_busy_loop_low (timeout : nat) (e : World) :
  feed (pin_busy e) (cursor (pin_busy e)) = false ->
  clock (_wait_busy_loop timeout e) = clock e.
Proof. intros Hlow. destruct timeout; simpl; rewrite Hlow; reflexivity. Qed.

Lemma _wait_busy_loop_stuck (feed0 : nat -> bool) (timeout : nat) (e : World) :
  (forall i, feed0 i = true) ->
  feed (pin_busy e) = feed0 ->
  clock (_wait_busy_loop timeout e) = clock e + Z.of_nat timeout.
Proof.
  intros Hhigh. revert e. induction timeout as [|t IH]; intros e He.
  - simpl. rewrite He, Hhigh. simpl. lia.
  - cbn [_wait_busy_loop draw]. rewrite He, Hhigh. rewrite IH; [|reflexivity].
    simpl. lia.
Qed.

(** X1: [_wait_busy] gives up on a BUSY pin that stays high: it waits one
    millisecond per sample and at most 1000 ms in all, and returns at once
    when the first sample is low. *)
Theorem wait_busy_is_bounded (e : World) :
  exists e',
    _wait_busy e = Ok tt e' /\
    clock e <= clock e' <= clock e + 1000 /\
    trace e' = trace e /\
    (feed (pin_busy e) (cursor (pin_busy e)) = false -> clock e' = clock e) /\
    ((forall i, feed (pin_busy e) i = true) -> clock e' = clock e + 1000).
Proof.
  exists (_wait_busy_loop 1000 e). split; [reflexivity|].
  split; [exact (_wait_busy_loop_clock 1000 e)|].
  split; [apply _wait_busy_loop_trace|].
  split.
  - apply _wait_busy_loop_low.
  - intros Hhigh.
    exact (_wait_busy_loop_stuck (feed (pin_busy e)) 1000 e Hhigh eq_refl).
Qed.

Lemma adv__wait_busy (e : World) :
  spec _wait_busy e (fun _ e' => advances 0 1000 e e') never False.
Proof.
  apply spec_modify. pose proof (_wait_busy_loop_clock 1000 e) as H.
  change (Z.of_nat 1000) with 1000 in H.
  split; [lia|]. rewrite _wait_busy_loop_trace. reflexivity.
Qed.

Lemma adv__spi_command (cmd : Z) (params : list byte) (e : World) :
  spec (_spi_command cmd params) e (fun _ e' => advances 0 2000 e e') never False.
Proof.
  unfold _spi_command. steps. use adv__wait_busy. intros _ e1 H1.
  steps. use adv__wait_busy. intros _ e2 H2.
  unfold advances in *. simpl in *. destruct H1 as [H1 D1]. destruct H2 as [H2 D2].
  split; [lia | congruence].
Qed.

Lemma spi_read_clock (length : nat) (e : World) :
  clock (snd (spi_read length e)) = clock e.
Proof.
  revert e. induction length as [|k IH]; intros e; simpl; [reflexivity|].
  match goal with |- context [spi_read k ?x] => specialize (IH x); destruct (spi_read k x) end.
  simpl in *. exact IH.
Qed.

Lemma adv__spi_read (cmd : Z) (length : nat) (e : World) :
  spec (_spi_read cmd length) e
       (fun data e' => List.length data = length /\ advances 0 1000 e e') never False.
Proof.
  unfold _spi_read. steps. use adv__wait_busy. intros _ e1 [H1 Hd1]. steps. unfold spec.
  pose proof (spi_read_spec length (emit (Spi cmd [x00]) e1)) as [Hl Ht].
  pose proof (spi_read_clock length (emit (Spi cmd [x00]) e1)) as Hc.
  destruct (spi_read length (emit (Spi cmd [x00]) e1)) as [d e2].
  cbn [fst snd trace clock emit] in *.
  split; [exact Hl|]. split; [lia|]. rewrite Ht. cbn [deliveries]. exact Hd1.
Qed.

Lemma adv__get_irq_status (e : World) :
  spec _get_irq_status e (fun _ e' => advances 0 1000 e e') never False.
Proof.
  unfold _get_irq_status. steps. use adv__spi_read. intros data e1 [Hl H1].
  destruct data as [|d0 [|d1 [|? ?]]]; try discriminate.
  simpl. exact H1.
Qed.

Lemma adv_clear_irq (e : World) :
  spec clear_irq e (fun _ e' => advances 0 2000 e e') never False.
Proof. apply adv__spi_command. Qed.

Lemma ticks_diff_elapsed (now start : Z) :
  - (TICKS_PERIOD / 2) <= now - start < TICKS_PERIOD / 2 ->
  ticks_diff (now mod TICKS_PERIOD) (start mod TICKS_PERIOD) = now - start.
Proof.
  intros H. unfold ticks_diff.
  rewrite <- Z.add_mod_idemp_l by (unfold TICKS_PERIOD; lia).
  rewrite <- Zminus_mod.
  rewrite Z.add_mod_idemp_l by (unfold TICKS_PERIOD; lia).
  rewrite Z.mod_small; [lia|].
  unfold TICKS_PERIOD in *. change (2 ^ 30 / 2) with (2 ^ 29) in *. lia.
Qed.

(** The polling loop of [send_packet] entered [elapsed] ms after [start]
    was read: it ends within the fuel that the remaining time calls for,
    never raises, and a [False] result means the ten seconds are over. *)
Lemma tx_wait_terminates (fuel : nat) (t0 : Z) (e : World) :
  0 <= clock e - t0 <= 11010 ->
  (1 <= fuel)%nat ->
  10010 <= (clock e - t0) + 10 * Z.of_nat fuel ->
  spec (tx_wait fuel (t0 mod TICKS_PERIOD)) e
       (fun sent e' =>
          clock e <= clock e' <= t0 + 13010 /\
          deliveries (trace e') = deliveries (trace e) /\
          (sent = false -> t0 + 10000 <= clock e'))
       never False.
Proof.
  revert e. induction fuel as [|fuel IH]; intros e Hel Hfuel Hleft; [lia|].
  cbn [tx_wait]. steps. unfold ticks_ms at 1.
  rewrite ticks_diff_elapsed
    by (unfold TICKS_PERIOD; change (2 ^ 30 / 2) with 536870912; lia).
  destruct (clock e - t0 <? 10000) eqn:Htest.
  - apply Z.ltb_lt in Htest. steps. use adv__get_irq_status. intros irq e1 [Hc1 Hd1].
    destruct (flag_set irq IRQ_TX_DONE).
    + steps. use adv_clear_irq. intros _ e2 [Hc2 Hd2]. steps.
      split; [lia|]. split; [congruence | discriminate].
    + steps. use IH; unfold sleep_ms; cbn [clock set_clock trace]; try lia.
      intros sent e2 (Hc2 & Hd2 & Hs2).
      split; [lia|]. split; [congruence | exact Hs2].
  - apply Z.ltb_ge in Htest. steps. simpl.
    split; [lia|]. split; [reflexivity | lia].
Qed.

Lemma cad_wait_terminates (fuel : nat) (t0 : Z) (e : World) :
  0 <= clock e - t0 <= 1100 ->
  (1 <= fuel)%nat ->
  101 <= (clock e - t0) + Z.of_nat fuel ->
  spec (cad_wait fuel (t0 mod TICKS_PERIOD)) e
       (fun _ e' =>
          clock e <= clock e' <= t0 + 3100 /\
          deliveries (trace e') = deliveries (trace e))
       never False.
Proof.
  revert e. induction fuel as [|fuel IH]; intros e Hel Hfuel Hleft; [lia|].
  cbn [cad_wait]. steps. unfold ticks_ms at 1.
  rewrite ticks_diff_elapsed
    by (unfold TICKS_PERIOD; change (2 ^ 30 / 2) with 536870912; lia).
  destruct (clock e - t0 <? 100) eqn:Htest.
  - apply Z.ltb_lt in Htest. steps. use adv__get_irq_status. intros irq e1 [Hc1 Hd1].
    destruct (flag_set irq IRQ_CAD_DONE).
    + steps. use adv_clear_irq. intros _ e2 [Hc2 Hd2]. steps.
      split; [lia | congruence].
    + steps. use IH; unfold sleep_ms; cbn [clock set_clock trace]; try lia.
      intros b e2 (Hc2 & Hd2). split; [lia | congruence].
  - apply Z.ltb_ge in Htest. steps. split; [lia | reflexivity].
Qed.

Lemma adv_cad (fuel : nat) (e : World) :
  (101 <= fuel)%nat ->
  spec (cad fuel) e (fun _ e' => advances 0 7100 e e') never False.
Proof.
  intros Hfuel. unfold cad. steps. use adv_clear_irq. intros _ e1 [H1 D1].
  steps. use adv__spi_command. intros _ e2 [H2 D2].
  steps. unfold ticks_ms. use (cad_wait_terminates fuel (clock e2) e2); try lia.
  intros b e3 (H3 & D3). split; [lia | congruence].
Qed.

(** X3: [cad] always returns.  With fuel for its 101 status polls it
    neither raises nor runs on, takes at most 7.1 s (BUSY waits
    included), and puts nothing on the air. *)
Theorem cad_returns (fuel : nat) (e : World) :
  (101 <= fuel)%nat ->
  exists detected e',
    cad fuel e = Ok detected e' /\
    air (trace e') = air (trace e) /\
    clock e <= clock e' <= clock e + 7100.
Proof.
  intros Hfuel. pose proof (adv_cad fuel e Hfuel) as Hspec.
  pose proof (spec_cad fuel e) as Hair. unfold spec, never in *.
  destruct (cad fuel e) as [detected e'| |]; [|tauto|tauto].
  exists detected, e'. destruct Hspec as [Hc _]. split; [reflexivity|].
  split; [exact Hair | lia].
Qed.

Lemma cad_returns_witness :
  exists detected e',
    cad 101 busy_channel = Ok detected e' /\
    air (trace e') = air (trace busy_channel) /\
    clock busy_channel <= clock e' <= clock busy_channel + 7100.
Proof.
  apply (cad_returns 101 busy_channel). lia.
Defined.

Lemma adv_send_packet (fuel : nat) (data : list byte) (pkt_type : Z) (tag : byte) (e : World) :
  byte_of_int pkt_type = Some tag ->
  (1001 <= fuel)%nat ->
  spec (send_packet fuel data pkt_type) e (fun _ e' => advances 0 19010 e e') never False.
Proof.
  intros Htag Hfuel. unfold send_packet. steps. apply spec_bytes.
  2:{ simpl. rewrite Htag. discriminate. }
  intros bs _. steps. use adv__spi_command. intros _ e1 [H1 D1].
  steps. use adv_clear_irq. intros _ e2 [H2 D2].
  steps. use adv__spi_command. intros _ e3 [H3 D3].
  steps. unfold ticks_ms. use (tx_wait_terminates fuel (clock e3) e3); try lia.
  intros sent e4 (H4 & D4 & _). split; [lia | congruence].
Qed.

Lemma adv_start_rx (timeout_ms : Z) (e : World) :
  spec (start_rx timeout_ms) e (fun _ e' => advances 0 4000 e e') never False.
Proof.
  unfold start_rx. steps. use adv_clear_irq. intros _ e1 [H1 D1]. simpl in H1, D1.
  destruct (timeout_ms =? 0); use adv__spi_command; intros _ e2 [H2 D2];
    (split; [lia | congruence]).
Qed.

Lemma adv_rx_done (e : World) :
  spec rx_done e (fun _ e' => advances 0 1000 e e') never False.
Proof.
  unfold rx_done. steps. use adv__get_irq_status. intros irq e1 H1.
  steps. destruct (flag_set irq IRQ_VALID_HEADER); steps;
    destruct (flag_set irq IRQ_RX_DONE); steps; exact H1.
Qed.

Lemma adv_read_packet (e : World) :
  spec read_packet e (fun _ e' => advances 0 4000 e e') never False.
Proof.
  unfold read_packet. steps. use adv__spi_read. intros st e1 [Hl [H1 D1]].
  destruct st as [|payload_len [|buffer_offset [|? ?]]]; try discriminate.
  unfold index; cbn [nth_error]. steps.
  destruct (byte_val payload_len =? 0) eqn:Hlen; [steps; split; [lia | exact D1]|].
  steps. use adv__wait_busy. intros _ e2 [H2 D2].
  steps. unfold spec at 1.
  set (e2' := emit (Spi CMD_READ_BUFFER [buffer_offset; x00]) e2).
  pose proof (spi_read_spec (Z.to_nat (byte_val payload_len)) e2') as [Hd Ht3].
  pose proof (spi_read_clock (Z.to_nat (byte_val payload_len)) e2') as Hc3.
  destruct (spi_read _ e2') as [d e3]. subst e2'.
  cbn [fst snd trace clock emit] in Hd, Ht3, Hc3.
  assert (Hpos : (0 < Z.to_nat (byte_val payload_len))%nat).
  { apply Z.eqb_neq in Hlen. unfold byte_val in *. lia. }
  destruct d as [|pkt_type rest]; [simpl in Hd; lia|].
  cbn [nth_error]. steps. use adv_clear_irq. intros _ e4 [H4 D4]. steps.
  split; [lia|]. rewrite D4, Ht3. cbn [deliveries]. congruence.
Qed.

End DriverTiming.

(** ** [send_data] returns, and in bounded time *)

Section Termination.

Lemma same_setup_refl (m : LoRaMAC) : same_setup m m.
Proof. unfold same_setup. repeat split; reflexivity. Qed.

Lemma same_setup_trans (m1 m2 m3 : LoRaMAC) :
  same_setup m1 m2 -> same_setup m2 m3 -> same_setup m1 m3.
Proof.
  unfold same_setup. intros (A1 & A2 & A3 & A4 & A5 & A6 & A7) (B1 & B2 & B3 & B4 & B5 & B6 & B7).
  repeat split; congruence.
Qed.

Lemma runs_refl (n : Node) : runs 0 n n.
Proof. split; [apply same_setup_refl | lia]. Qed.

Lemma runs_trans (h1 h2 : Z) (n1 n2 n3 : Node) :
  runs h1 n1 n2 -> runs h2 n2 n3 -> runs (h1 + h2) n1 n3.
Proof.
  intros [S1 C1] [S2 C2]. split; [exact (same_setup_trans _ _ _ S1 S2) | lia].
Qed.

Lemma runs_weaken (h h' : Z) (n n' : Node) : runs h n n' -> h <= h' -> runs h' n n'.
Proof. intros [S1 C1] Hh. split; [exact S1 | lia]. Qed.

(** A step that changes [self] only in fields outside the setup and
    leaves the world alone. *)
Lemma runs_on_self (f : LoRaMAC -> LoRaMAC) (n : Node) :
  same_setup (self n) (f (self n)) -> runs 0 n (mkNode (f (self n)) (env n)).
Proof. intros H. split; [exact H | simpl; lia]. Qed.

Lemma run_draw_prime_offset (n : Node) :
  spec draw_prime_offset n (fun prime n' => runs 0 n n' /\ 5 <= prime <= 17) never False.
Proof.
  use spec_draw_prime_offset. intros prime n' (Hs & _ & Hc & Hp).
  split; [|exact Hp]. split; [rewrite Hs; apply same_setup_refl | lia].
Qed.

Lemma run__enter_nav_from_rts (rts_packet : Packet) (n : Node) :
  spec (_enter_nav_from_rts rts_packet) n
       (fun _ n' => runs 0 n n') (fun _ n' => runs 0 n n') False.
Proof.
  unfold _enter_nav_from_rts. step. unfold index.
  destruct (nth_error (payload rts_packet) 4) as [b|]; [|step; apply runs_refl].
  steps. use run_draw_prime_offset. intros prime n1 [[Hs1 Hc1] _].
  steps. use spec_randint.
  2:{ intros x e' (_ & _ & ->). split; [exact Hs1 | exact Hc1]. }
  intros jitter e2 (_ & _ & Hc2). steps.
  use spec_exponential_backoff. intros d n3 [-> _]. steps.
  split; [|simpl in *; lia].
  unfold same_setup in *. simpl. exact Hs1.
Qed.

Lemma run__enter_nav_random (n : Node) :
  spec _enter_nav_random n (fun _ n' => runs 0 n n') never False.
Proof.
  use spec__enter_nav_random. intros _ n' ([d Hs] & _ & Hc).
  split; [|lia]. rewrite Hs. unfold same_setup. simpl. repeat split; reflexivity.
Qed.

Lemma run__defer_random (n : Node) :
  spec _defer_random n (fun _ n' => runs 0 n n') (fun _ n' => runs 0 n n') False.
Proof.
  use spec__defer_random.
  - intros _ n' ([d Hs] & _ & Hc).
    split; [|lia]. rewrite Hs. unfold same_setup. simpl. repeat split; reflexivity.
  - intros x n' ->. apply runs_refl.
Qed.

Lemma run_listen_poll (poll_interval idle_count : Z) (n : Node) :
  11 <= poll_interval <= 41 ->
  spec (listen_poll poll_interval idle_count) n
       (fun r n' =>
          runs 5000 n n' /\
          match r with
          | inl _ => True
          | inr (poll_interval', _) => 11 <= poll_interval' <= 41
          end)
       (fun _ n' => runs 5000 n n')
       False.
Proof.
  intros Hpoll. unfold listen_poll. steps. use adv_rx_done. intros done e1 [H1 _].
  destruct done.
  2:{ steps. split; [split; [apply same_setup_refl | simpl; lia]|].
      destruct (3 <? idle_count + 1), (7 <? idle_count + 1); lia. }
  steps. use adv_read_packet. intros pkt e2 [H2 _].
  assert (Hhere : runs 5000 n (mkNode (self n) e2))
    by (split; [apply same_setup_refl | simpl; lia]).
  destruct pkt as [pk|]; [|steps; split; [exact Hhere | lia]].
  destruct (type pk =? PKT_TYPE_RTS).
  - steps.
    assert (Hbump : runs 5000 n (mkNode (set_stats (inc_rx_rts (stats (self n))) (self n)) e2))
      by (split; [unfold same_setup; simpl; repeat split; reflexivity | simpl; lia]).
    use run__enter_nav_from_rts.
    + intros _ n3 H3. steps. split; [|exact I].
      apply (runs_weaken (5000 + 0)); [|lia]. exact (runs_trans _ _ _ _ _ Hbump H3).
    + intros x n3 H3.
      apply (runs_weaken (5000 + 0)); [|lia]. exact (runs_trans _ _ _ _ _ Hbump H3).
  - destruct (type pk =? PKT_TYPE_DATA); [|steps; split; [exact Hhere | lia]].
    steps.
    match goal with |- context [if _on_receive_callback ?m then _ else _] =>
      destruct (_on_receive_callback m) end;
      steps; use run__enter_nav_random; intros _ n3 [S3 C3]; steps;
      (split; [|exact I]); (split; [|simpl in *; lia]);
      unfold same_setup in *; simpl in *; exact S3.
Qed.

Lemma listen_loop_terminates
      (fuel : nat) (t0 duration poll_interval idle_count : Z) (n : Node) :
  duration + 5041 < 2 ^ 29 ->
  11 <= poll_interval <= 41 ->
  0 <= clock (env n) - t0 <= Z.max 0 duration + 5041 ->
  (1 <= fuel)%nat ->
  duration + 11 <= (clock (env n) - t0) + 11 * Z.of_nat fuel ->
  spec (listen_loop fuel (t0 mod TICKS_PERIOD) duration poll_interval idle_count) n
       (fun _ n' =>
          same_setup (self n) (self n') /\
          clock (env n) <= clock (env n') <= t0 + (Z.max 0 duration + 5041))
       (fun _ n' =>
          same_setup (self n) (self n') /\
          clock (env n) <= clock (env n') <= t0 + (Z.max 0 duration + 5041))
       False.
Proof.
  intros Hsmall. revert poll_interval idle_count n.
  induction fuel as [|fuel IH];
    intros poll_interval idle_count [m e] Hpoll Hel Hfuel Hleft; [lia|].
  cbn [self env] in *. cbn [listen_loop]. steps. unfold ticks_ms at 1.
  rewrite ticks_diff_elapsed
    by (unfold TICKS_PERIOD; change (2 ^ 30 / 2) with (2 ^ 29); lia).
  destruct (clock e - t0 <? duration) eqn:Htest.
  2:{ steps. split; [apply same_setup_refl | simpl; lia]. }
  apply Z.ltb_lt in Htest. steps.
  use (run_listen_poll poll_interval idle_count (mkNode m e) Hpoll).
  2:{ intros x n1 [S1 C1]. cbn [self env] in *. split; [exact S1 | lia]. }
  intros r n1 [[S1 C1] Hr]. cbn [self env] in *. destruct r as [b | [poll' idle']].
  - steps. split; [exact S1 | lia].
  - steps. use IH; unfold sleep_ms; cbn [self env clock set_clock]; try lia.
    + intros r n2 [S2 C2]. cbn [self env clock set_clock] in *.
      split; [exact (same_setup_trans _ _ _ S1 S2) | lia].
    + intros x n2 [S2 C2]. cbn [self env clock set_clock] in *.
      split; [exact (same_setup_trans _ _ _ S1 S2) | lia].
Qed.

Lemma timing_ok_same_setup (m m' : LoRaMAC) :
  same_setup m m' -> timing_ok m -> timing_ok m'.
Proof.
  unfold same_setup, timing_ok. intros (_ & -> & -> & _ & -> & -> & _). tauto.
Qed.

Lemma spec_draw_prime_offset_in (n : Node) :
  spec draw_prime_offset n
       (fun prime n' =>
          In prime PRIME_OFFSETS /\ self n' = self n /\
          trace (env n') = trace (env n) /\ clock (env n') = clock (env n))
       never False.
Proof.
  unfold draw_prime_offset. steps. use spec_randint.
  - intros i e' (Hi & Ht & Hc). change (len PRIME_OFFSETS - 1) with 4 in Hi.
    assert (Hcases : i = 0 \/ i = 1 \/ i = 2 \/ i = 3 \/ i = 4) by lia.
    destruct Hcases as [-> | [-> | [-> | [-> | ->]]]];
      (apply spec_ret; split; [simpl; tauto | auto]).
  - unfold never. intros x e' (_ & Hlt & _). change (len PRIME_OFFSETS - 1) with 4 in Hlt. lia.
Qed.

Lemma backoff_is_slots_plus_prime_aux (n : Node) :
  0 <= w (self n) ->
  exists slots prime n',
    draw_backoff n = Ok (slots * difs (self n) + prime) n' /\
    0 <= slots <= w (self n) /\
    In prime PRIME_OFFSETS /\
    self n' = self n /\ clock (env n') = clock (env n) /\ trace (env n') = trace (env n).
Proof.
  intros Hw.
  cut (spec draw_backoff n
            (fun b n' =>
               exists slots prime,
                 b = slots * difs (self n) + prime /\
                 0 <= slots <= w (self n) /\
                 In prime PRIME_OFFSETS /\
                 self n' = self n /\ clock (env n') = clock (env n) /\
                 trace (env n') = trace (env n))
            never False).
  { intros H. apply spec_total in H. destruct H as (b & n' & Hrun & slots & prime & -> & H).
    exists slots, prime, n'. tauto. }
  unfold draw_backoff. steps. use spec_randint.
  2:{ unfold never. intros x e' (_ & Hlt & _). lia. }
  intros slots e1 (Hs & Ht1 & Hc1). steps.
  use spec_draw_prime_offset_in. intros prime n2 (Hp & Hs2 & Ht2 & Hc2). steps.
  exists slots, prime. simpl in *. repeat split; try tauto; congruence.
Qed.

(** X4: with a window [W >= 0] the backoff drawn before the RTS and
    before the data is [k * difs + prime] for some [k] of [0..W] and some
    [prime] of 5, 7, 11, 13, 17; drawing it changes neither [self], nor the
    clock, nor the trace.  With [W = 0] it is one of the five primes. *)
Theorem backoff_is_slots_plus_prime (n : Node) :
  0 <= w (self n) ->
  exists slots prime n',
    draw_backoff n = Ok (slots * difs (self n) + prime) n' /\
    0 <= slots <= w (self n) /\
    In prime PRIME_OFFSETS /\
    self n' = self n /\ clock (env n') = clock (env n) /\ trace (env n') = trace (env n).
Proof. apply backoff_is_slots_plus_prime_aux. Qed.

Lemma backoff_is_slots_plus_prime_witness :
  exists slots prime n',
    draw_backoff (idle_node silent_world) =
      Ok (slots * difs (self (idle_node silent_world)) + prime) n' /\
    0 <= slots <= w (self (idle_node silent_world)) /\
    In prime PRIME_OFFSETS /\
    self n' = self (idle_node silent_world) /\
    clock (env n') = clock (env (idle_node silent_world)) /\
    trace (env n') = trace (env (idle_node silent_world)).
Proof.
  apply (backoff_is_slots_plus_prime (idle_node silent_world)).
  vm_compute. discriminate.
Defined.

Lemma run_draw_backoff (n : Node) :
  timing_ok (self n) ->
  spec draw_backoff n
       (fun b n' => runs 0 n n' /\ 0 <= b <= w (self n) * difs (self n) + 17)
       never False.
Proof.
  intros (Hw & Hd & _). unfold spec, never.
  destruct (backoff_is_slots_plus_prime_aux n Hw)
    as (slots & prime & n' & -> & Hs & Hp & Hself & Hc & _).
  split.
  - split; [rewrite Hself; apply same_setup_refl | lia].
  - simpl in Hp. assert (5 <= prime <= 17) by (intuition lia). nia.
Qed.


Lemma run__phase3_send_data (fuel : nat) (data : list byte) (n : Node) :
  timing_ok (self n) ->
  (1001 <= fuel)%nat ->
  spec (_phase3_send_data fuel data) n
       (fun _ n' => runs (phase3_time_bound (self n)) n n') never False.
Proof.
  destruct n as [m e]. cbn [self env]. intros Hok Hfuel.
  unfold _phase3_send_data. steps.
  use (run_draw_backoff (mkNode (set_phase PHASE_3_DATA m) e) Hok).
  intros backoff n1 [[S1 C1] Hb]. cbn [self env] in *. steps.
  use (adv_send_packet fuel data PKT_TYPE_DATA x02); [reflexivity | exact Hfuel |].
  intros _ e2 [C2 _]. steps. unfold phase3_time_bound.
  split.
  - unfold same_setup in *. simpl in *. exact S1.
  - unfold sleep_ms in C2. cbn [clock set_clock self env] in *.
    change (w (set_phase PHASE_3_DATA m)) with (w m) in Hb.
    change (difs (set_phase PHASE_3_DATA m)) with (difs m) in Hb. lia.
Qed.

Lemma phase1_duration_pos (m : LoRaMAC) : timing_ok m -> 586 <= phase1_duration m.
Proof.
  intros (Hw & Hd & Hr & ->). rewrite Hr. change (_calculate_toa 5) with 586. nia.
Qed.

Lemma run__phase2_send_rts (fuel : nat) (pending_data : list byte) (n : Node) :
  timing_ok (self n) ->
  phase1_duration (self n) + 5041 < 2 ^ 29 ->
  enough_fuel fuel (self n) ->
  spec (_phase2_send_rts fuel pending_data) n
       (fun _ n' => runs (phase2_time_bound (self n)) n n')
       (fun _ n' => runs (phase2_time_bound (self n)) n n')
       False.
Proof.
  destruct n as [m e]. cbn [self env]. intros Hok Hsmall [Hfuel Hlisten].
  pose proof (phase1_duration_pos m Hok) as Hp1.
  assert (Hwd : 0 <= w m * difs m) by (destruct Hok as (? & ? & _); nia).
  unfold _phase2_send_rts. steps.
  use (run_draw_backoff (mkNode (set_phase PHASE_2_RTS m) e) Hok).
  intros backoff n1 [[S1 C1] Hb]. cbn [self env] in *.
  change (w (set_phase PHASE_2_RTS m)) with (w m) in Hb.
  change (difs (set_phase PHASE_2_RTS m)) with (difs m) in Hb.
  assert (S1' : same_setup m (self n1)) by exact S1.
  pose proof S1' as (_ & _ & _ & _ & _ & Hp1eq & _).
  steps. apply spec_bytearray.
  set (rts := map low_byte [0xCA; 0xFE; 0xBA; 0xBE; len pending_data]). clearbody rts.
  steps.
  use (adv_send_packet fuel rts PKT_TYPE_RTS x01); [reflexivity | lia |].
  intros _ e2 [C2 _]. unfold sleep_ms in C2. cbn [clock set_clock] in C2.
  steps. cbn [phase1_duration set_stats]. rewrite Hp1eq. use adv_start_rx. intros _ e3 [C3 _]. steps. unfold ticks_ms.
  set (m3 := set_stats (inc_tx_rts (stats (set_stats (inc_backoff_count (stats (self n1)))
                                                     (self n1))))
                       (set_stats (inc_backoff_count (stats (self n1))) (self n1))).
  assert (S3 : same_setup m m3) by exact S1'.
  use (listen_loop_terminates fuel (clock e3) (phase1_duration m) 11 0 (mkNode m3 e3));
    cbn [self env]; try lia.
  2:{ intros x n4 [S4 C4]. cbn [self env] in *. unfold runs. cbn [self env].
      split; [exact (same_setup_trans _ _ _ S3 S4)|].
      unfold phase2_time_bound, listen_time_bound, phase3_time_bound. lia. }
  intros r n4 [S4 C4]. cbn [self env] in *.
  pose proof (same_setup_trans _ _ _ S3 S4) as S04.
  destruct r as [b|].
  - steps. unfold runs. cbn [self env]. split; [exact S04|].
    unfold phase2_time_bound, listen_time_bound, phase3_time_bound. lia.
  - use (run__phase3_send_data fuel pending_data n4);
      [exact (timing_ok_same_setup _ _ S04 Hok) | lia |].
    intros b n5 [S5 C5]. unfold runs. cbn [self env].
    split; [exact (same_setup_trans _ _ _ S04 S5)|].
    unfold phase2_time_bound, listen_time_bound, phase3_time_bound in *.
    destruct S04 as (_ & Hd4 & Hw4 & _). rewrite Hd4, Hw4 in C5. lia.
Qed.

Lemma run__phase1_listen_rts (fuel : nat) (pending_data : list byte) (n : Node) :
  timing_ok (self n) ->
  phase1_duration (self n) + 5041 < 2 ^ 29 ->
  enough_fuel fuel (self n) ->
  spec (_phase1_listen_rts fuel pending_data) n
       (fun _ n' => runs (listen_time_bound (self n) + phase2_time_bound (self n)) n n')
       (fun _ n' => runs (listen_time_bound (self n) + phase2_time_bound (self n)) n n')
       False.
Proof.
  destruct n as [m e]. cbn [self env]. intros Hok Hsmall Hfuel.
  pose proof (phase1_duration_pos m Hok) as Hp1.
  assert (Hwd : 0 <= w m * difs m) by (destruct Hok as (? & ? & _); nia).
  assert (Hb2 : 0 <= phase2_time_bound m)
    by (unfold phase2_time_bound, listen_time_bound, phase3_time_bound; lia).
  destruct Hfuel as [Hfuel Hlisten].
  unfold _phase1_listen_rts. steps.
  change (phase1_duration (set_phase PHASE_1_LISTEN m)) with (phase1_duration m).
  use adv_start_rx. intros _ e1 [C1 _]. steps. unfold ticks_ms.
  assert (S1 : same_setup m (set_phase PHASE_1_LISTEN m))
    by (unfold same_setup; simpl; repeat split; reflexivity).
  use (listen_loop_terminates fuel (clock e1) (phase1_duration m) 11 0
                              (mkNode (set_phase PHASE_1_LISTEN m) e1));
    cbn [self env]; try lia.
  2:{ intros x n2 [S2 C2]. cbn [self env] in *. unfold runs. cbn [self env].
      split; [exact (same_setup_trans _ _ _ S1 S2)|]. unfold listen_time_bound. lia. }
  intros r n2 [S2 C2]. cbn [self env] in *.
  pose proof (same_setup_trans _ _ _ S1 S2) as S02.
  destruct r as [b|].
  - steps. unfold runs. cbn [self env]. split; [exact S02|]. unfold listen_time_bound. lia.
  - pose proof S02 as (_ & Hd2 & Hw2 & _ & Hr2 & Hp2 & _).
    assert (Hbound : phase2_time_bound (self n2) = phase2_time_bound m).
    { unfold phase2_time_bound, listen_time_bound, phase3_time_bound.
      rewrite Hd2, Hw2, Hp2. reflexivity. }
    use (run__phase2_send_rts fuel pending_data n2);
      [exact (timing_ok_same_setup _ _ S02 Hok) | rewrite Hp2; lia
       | split; [lia | rewrite Hp2; lia] | |].
    + intros b n3 [S3 C3]. unfold runs. cbn [self env].
      split; [exact (same_setup_trans _ _ _ S02 S3)|].
      rewrite Hbound in C3. unfold listen_time_bound. lia.
    + intros x n3 [S3 C3]. unfold runs. cbn [self env].
      split; [exact (same_setup_trans _ _ _ S02 S3)|].
      rewrite Hbound in C3. unfold listen_time_bound. lia.
Qed.

(** X5: [send_data] always comes back.  For a MAC set up from a
    configuration of the data model, with a listening window short of the
    tick counter's half period and fuel for the polls of its loops, the
    call returns or raises (it does not run on), the setup fields of
    [self] are what they were, and the clock has advanced by at most
    [send_time_bound]: two listening windows, two backoffs, and the
    driver's worst cases. *)
Theorem send_data_returns_in_bounded_time
        (fuel : nat) (data : list byte) (priority : string) (n : Node) :
  timing_ok (self n) ->
  phase1_duration (self n) + 5041 < 2 ^ 29 ->
  enough_fuel fuel (self n) ->
  spec (send_data fuel data priority) n
       (fun _ n' => runs (send_time_bound (self n)) n n')
       (fun _ n' => runs (send_time_bound (self n)) n n')
       False.
Proof.
  destruct n as [m e]. cbn [self env]. intros Hok Hsmall Hfuel.
  pose proof (phase1_duration_pos m Hok) as Hp1.
  assert (Hwd : 0 <= w m * difs m) by (destruct Hok as (? & ? & _); nia).
  assert (Hb2 : 0 <= phase2_time_bound m)
    by (unfold phase2_time_bound, listen_time_bound, phase3_time_bound; lia).
  assert (Hb1 : 0 <= listen_time_bound m) by (unfold listen_time_bound; lia).
  unfold send_data. step. unfold _in_nav. steps.
  destruct (ticks_ms e <? nav_until m).
  { steps. split; [apply same_setup_refl | unfold send_time_bound; cbn [self env]; lia]. }
  steps.
  assert (Hcad : spec (if use_cad (config m) then on_env (cad fuel) else ret false)
                      (mkNode m e)
                      (fun _ n' => runs 7100 (mkNode m e) n') never False).
  { destruct (use_cad (config m)); steps.
    - use adv_cad; [destruct Hfuel; lia|]. intros b e1 [C1 _].
      split; [apply same_setup_refl | cbn [self env clock set_coin]; lia].
    - split; [apply same_setup_refl | cbn [self env clock set_coin]; lia]. }
  use Hcad. clear Hcad. intros busy n1 [S1 C1]. cbn [self env] in *.
  assert (Hbound : forall n2 h, same_setup (self n1) (self n2) ->
                     clock (env n1) <= clock (env n2) <= clock (env n1) + h ->
                     h <= listen_time_bound m + phase2_time_bound m ->
                     runs (send_time_bound m) (mkNode m e) n2).
  { intros n2 h S2 C2 Hh. split; [exact (same_setup_trans _ _ _ S1 S2)|].
    unfold send_time_bound. cbn [self env]. lia. }
  destruct busy.
  - steps. use run__defer_random.
    + intros _ n2 [S2 C2]. steps. cbn [self env] in *.
      apply (Hbound _ 0); [exact S2 | lia | lia].
    + intros x n2 [S2 C2]. cbn [self env] in *.
      apply (Hbound _ 0); [exact S2 | lia | lia].
  - steps.
    assert (Hcoin : spec (if (priority =? "high")%string then ret true
                          else r <- on_env random ;; ret (Qltb r (p (self n1)))) n1
                         (fun _ n' => runs 0 n1 n') never False).
    { destruct n1 as [m1 e1]. destruct (priority =? "high")%string; steps.
      - apply runs_refl.
      - unfold spec, random. simpl. split; [apply same_setup_refl | cbn [self env clock set_coin]; lia]. }
    use Hcoin. clear Hcoin. intros direct n2 [S2 C2].
    pose proof (same_setup_trans _ _ _ S1 S2) as S02.
    pose proof S02 as (_ & Hd2 & Hw2 & _ & Hr2 & Hp2 & _).
    assert (Hl2 : listen_time_bound (self n2) = listen_time_bound m)
      by (unfold listen_time_bound; rewrite Hp2; reflexivity).
    assert (Hq2 : phase2_time_bound (self n2) = phase2_time_bound m).
    { unfold phase2_time_bound, listen_time_bound, phase3_time_bound.
      rewrite Hd2, Hw2, Hp2. reflexivity. }
    assert (Hok2 : timing_ok (self n2)) by exact (timing_ok_same_setup _ _ S02 Hok).
    assert (Hfuel2 : enough_fuel fuel (self n2))
      by (destruct Hfuel; split; [lia | rewrite Hp2; lia]).
    assert (Hsmall2 : phase1_duration (self n2) + 5041 < 2 ^ 29) by (rewrite Hp2; lia).
    assert (Hchain : forall n3 h, same_setup (self n2) (self n3) ->
                       clock (env n2) <= clock (env n3) <= clock (env n2) + h ->
                       h <= listen_time_bound m + phase2_time_bound m ->
                       runs (send_time_bound m) (mkNode m e) n3).
    { intros n3 h S3 C3 Hh. split; [exact (same_setup_trans _ _ _ S02 S3)|].
      unfold send_time_bound. cbn [self env]. lia. }
    destruct direct.
    + use (run__phase2_send_rts fuel data n2 Hok2 Hsmall2 Hfuel2).
      * intros b n3 [S3 C3]. rewrite Hq2 in C3. apply (Hchain _ _ S3 C3). lia.
      * intros x n3 [S3 C3]. rewrite Hq2 in C3. apply (Hchain _ _ S3 C3). lia.
    + use (run__phase1_listen_rts fuel data n2 Hok2 Hsmall2 Hfuel2).
      * intros b n3 [S3 C3]. rewrite Hl2, Hq2 in C3. apply (Hchain _ _ S3 C3). lia.
      * intros x n3 [S3 C3]. rewrite Hl2, Hq2 in C3. apply (Hchain _ _ S3 C3). lia.
Qed.

Lemma send_data_returns_in_bounded_time_witness :
  spec (send_data 2000 hi "normal") (idle_node clear_channel)
       (fun _ n' => runs (send_time_bound (self (idle_node clear_channel)))
                         (idle_node clear_channel) n')
       (fun _ n' => runs (send_time_bound (self (idle_node clear_channel)))
                         (idle_node clear_channel) n')
       False.
Proof.
  apply (send_data_returns_in_bounded_time 2000 hi "normal" (idle_node clear_channel)).
  - split; [vm_compute; discriminate|]. split; [vm_compute; reflexivity|].
    split; vm_compute; reflexivity.
  - vm_compute. reflexivity.
  - split; vm_compute; discriminate.
Defined.

End Termination.

(** ** What one [send_data] adds to the counters *)

Section Accounting.

Lemma stats_eq (s t : Stats) :
  tx_data s = tx_data t -> tx_rts s = tx_rts t -> rx_data s = rx_data t ->
  rx_rts s = rx_rts t -> nav_count s = nav_count t ->
  cad_detected s = cad_detected t -> backoff_count s = backoff_count t ->
  s = t.
Proof. destruct s, t. simpl. intros. subst. reflexivity. Qed.

Ltac stats := apply stats_eq; simpl; lia.

Lemma delivered_refl (e : World) : delivered 0 e e.
Proof. unfold delivered. lia. Qed.

Lemma delivered_trans (j k : nat) (e1 e2 e3 : World) :
  delivered j e1 e2 -> delivered k e2 e3 -> delivered (j + k) e1 e3.
Proof. unfold delivered. lia. Qed.

Lemma delivered_same (e e' : World) :
  deliveries (trace e') = deliveries (trace e) -> delivered 0 e e'.
Proof. unfold delivered. intros ->. lia. Qed.

Lemma del_cad_wait (fuel : nat) (start : Z) (e : World) :
  spec (cad_wait fuel start) e (fun _ e' => delivered 0 e e') never True.
Proof.
  revert e. induction fuel as [|fuel IH]; intros e; [exact I|].
  cbn [cad_wait]. steps.
  destruct (ticks_diff (ticks_ms e) start <? 100); [|steps; apply delivered_refl].
  steps. use adv__get_irq_status. intros irq e1 [_ D1].
  destruct (flag_set irq IRQ_CAD_DONE).
  - steps. use adv_clear_irq. intros _ e2 [_ D2]. steps.
    apply delivered_same. congruence.
  - steps. use IH. intros b e2 D2. unfold delivered in *. simpl in D2. rewrite D2, D1. lia.
Qed.

Lemma del_cad (fuel : nat) (e : World) :
  spec (cad fuel) e (fun _ e' => delivered 0 e e') never True.
Proof.
  unfold cad. steps. use adv_clear_irq. intros _ e1 [_ D1].
  steps. use adv__spi_command. intros _ e2 [_ D2].
  steps. use del_cad_wait. intros b e3 D3. unfold delivered in *. rewrite D3, D2, D1. lia.
Qed.

Lemma del_tx_wait (fuel : nat) (start : Z) (e : World) :
  spec (tx_wait fuel start) e (fun _ e' => delivered 0 e e') never True.
Proof.
  revert e. induction fuel as [|fuel IH]; intros e; [exact I|].
  cbn [tx_wait]. steps.
  destruct (ticks_diff (ticks_ms e) start <? 10000);
    [|steps; apply delivered_same; reflexivity].
  steps. use adv__get_irq_status. intros irq e1 [_ D1].
  destruct (flag_set irq IRQ_TX_DONE).
  - steps. use adv_clear_irq. intros _ e2 [_ D2]. steps.
    apply delivered_same. congruence.
  - steps. use IH. intros b e2 D2. unfold delivered in *. simpl in D2. rewrite D2, D1. lia.
Qed.

Lemma del_send_packet (fuel : nat) (data : list byte) (pkt_type : Z) (e : World) :
  spec (send_packet fuel data pkt_type) e
       (fun _ e' => delivered 0 e e') (fun _ _ => True) True.
Proof.
  unfold send_packet. steps. apply spec_bytes; [|exact (fun _ => I)].
  intros tag _. steps. use adv__spi_command. intros _ e1 [_ D1].
  steps. use adv_clear_irq. intros _ e2 [_ D2].
  steps. use adv__spi_command. intros _ e3 [_ D3].
  steps. use del_tx_wait. intros b e4 D4. unfold delivered in *.
  rewrite D4, D3, D2, D1. lia.
Qed.

Lemma nav_update_armed (m : LoRaMAC) (until : Z) (bump : Stats -> Stats) (d : Stats) :
  (forall s, bump s = add_stats s d) ->
  nav_update d m (set_stats (bump (stats m)) (armed until m)).
Proof.
  intros Hbump. unfold nav_update, same_setup. simpl. rewrite Hbump.
  repeat split; reflexivity.
Qed.

(** One pass of the listening loop either goes on with [self] as it was,
    or records the reception of an RTS or of a DATA packet; only a DATA
    packet reaches the callback. *)
Lemma tally_listen_poll (poll_interval idle_count : Z) (n : Node) :
  spec (listen_poll poll_interval idle_count) n
       (fun r n' =>
          match r with
          | inl b =>
              b = false /\
              exists d,
                (d = mkStats 0 0 0 1 1 0 0 \/ d = mkStats 0 0 1 0 1 0 0) /\
                nav_update d (self n) (self n') /\
                delivered (calls_for (self n) d) (env n) (env n')
          | inr _ => self n' = self n /\ delivered 0 (env n) (env n')
          end)
       (fun _ _ => True)
       False.
Proof.
  destruct n as [m e]. cbn [self env].
  unfold listen_poll. steps. use adv_rx_done. intros done e1 [_ D1].
  destruct done.
  2:{ steps. split; [reflexivity | apply delivered_same; exact D1]. }
  steps. use adv_read_packet. intros pkt e2 [_ D2].
  assert (Hd : delivered 0 e e2) by (apply delivered_same; congruence).
  destruct pkt as [pk|]; [|steps; split; [reflexivity | exact Hd]].
  destruct (type pk =? PKT_TYPE_RTS).
  - steps. use spec__enter_nav_from_rts.
    2:{ intros; exact I. }
    intros _ n3 ([until Hs] & Ht & _). steps. cbn [self env] in *.
    split; [reflexivity|]. exists (mkStats 0 0 0 1 1 0 0).
    split; [left; reflexivity|]. split.
    + rewrite Hs. unfold nav_update, same_setup. simpl.
      repeat split; try reflexivity. stats.
    + unfold calls_for. simpl. destruct (_on_receive_callback m);
        unfold delivered in *; rewrite Ht; lia.
  - destruct (type pk =? PKT_TYPE_DATA); [|steps; split; [reflexivity | exact Hd]].
    steps. cbn [_on_receive_callback set_stats].
    destruct (_on_receive_callback m) eqn:Hcb.
    + steps. use spec__enter_nav_random.
      intros _ n3 ([until Hs] & Ht & _). steps. cbn [self env] in *.
      split; [reflexivity|]. exists (mkStats 0 0 1 0 1 0 0).
      split; [right; reflexivity|]. split.
      * rewrite Hs. unfold nav_update, same_setup. simpl.
        repeat split; try reflexivity. stats.
      * unfold calls_for. rewrite Hcb. unfold delivered in *. rewrite Ht. simpl.
        rewrite D2, D1. simpl. lia.
    + steps. use spec__enter_nav_random.
      intros _ n3 ([until Hs] & Ht & _). steps. cbn [self env] in *.
      split; [reflexivity|]. exists (mkStats 0 0 1 0 1 0 0).
      split; [right; reflexivity|]. split.
      * rewrite Hs. unfold nav_update, same_setup. simpl.
        repeat split; try reflexivity. stats.
      * unfold calls_for. rewrite Hcb. unfold delivered in *. rewrite Ht. lia.
Qed.

Lemma tally_listen_loop
      (fuel : nat) (start duration poll_interval idle_count : Z) (n : Node) :
  spec (listen_loop fuel start duration poll_interval idle_count) n
       (fun r n' =>
          match r with
          | Some b =>
              b = false /\
              exists d,
                (d = mkStats 0 0 0 1 1 0 0 \/ d = mkStats 0 0 1 0 1 0 0) /\
                nav_update d (self n) (self n') /\
                delivered (calls_for (self n) d) (env n) (env n')
          | None => self n' = self n /\ delivered 0 (env n) (env n')
          end)
       (fun _ _ => True)
       True.
Proof.
  revert poll_interval idle_count n.
  induction fuel as [|fuel IH]; intros poll_interval idle_count [m e]; [exact I|].
  cbn [self env]. cbn [listen_loop]. steps.
  destruct (ticks_diff (ticks_ms e) start <? duration);
    [|steps; split; [reflexivity | apply delivered_refl]].
  steps. use (tally_listen_poll poll_interval idle_count (mkNode m e)).
  intros r n1 Hr. cbn [self env] in *. destruct r as [b | [poll' idle']].
  - steps. exact Hr.
  - destruct Hr as [Hs1 D1]. destruct n1 as [m1 e1]. cbn [self env] in *. subst m1.
    steps. use IH.
      intros r n2 Hr2. cbn [self env] in *.
    assert (Hstep : forall k, delivered k (sleep_ms poll' e1) (env n2) ->
                              delivered k e (env n2)).
    { intros k. unfold delivered in *. simpl. lia. }
    destruct r as [b|].
    + destruct Hr2 as (-> & d & Hd & Hu & Hdel). split; [reflexivity|].
      exists d. split; [exact Hd|]. split; [exact Hu | apply Hstep; exact Hdel].
    + destruct Hr2 as [Hs2 Hdel]. split; [exact Hs2 | apply Hstep; exact Hdel].
Qed.

Lemma same_world_draw_backoff (n : Node) :
  spec draw_backoff n
       (fun _ n' => self n' = self n /\ delivered 0 (env n) (env n'))
       (fun _ _ => True) False.
Proof.
  use spec_draw_backoff.
  - intros b n' [Hs Ht]. split; [exact Hs | apply delivered_same; congruence].
  - intros; exact I.
Qed.

Lemma tally__phase3_send_data (fuel : nat) (data : list byte) (n : Node) :
  spec (_phase3_send_data fuel data) n
       (fun b n' => b = true /\ tallied true (mkStats 1 0 0 0 0 0 1) n n')
       (fun _ _ => True) True.
Proof.
  destruct n as [m e]. cbn [self env].
  unfold _phase3_send_data. steps. use same_world_draw_backoff.
  intros backoff [m1 e1] [Hs1 D1]. cbn [self env] in *. subst m1. steps.
  use del_send_packet. intros _ e2 D2. steps.
  split; [reflexivity|]. unfold tallied. cbn [self env].
  split; [unfold same_setup; simpl; repeat split; reflexivity|].
  split; [stats|]. split; [|split; reflexivity].
  unfold calls_for. simpl. destruct (_on_receive_callback m);
    unfold delivered in *; simpl in *; lia.
Qed.

Lemma tally__phase2_send_rts (fuel : nat) (pending_data : list byte) (n : Node) :
  spec (_phase2_send_rts fuel pending_data) n
       (fun b n' =>
          if b then tallied true sent_tally n n'
          else exists d,
                 (d = mkStats 0 1 0 1 1 0 1 \/ d = mkStats 0 1 1 0 1 0 1) /\
                 tallied false d n n')
       (fun _ _ => True) True.
Proof.
  destruct n as [m e]. cbn [self env].
  unfold _phase2_send_rts. steps. use same_world_draw_backoff.
  intros backoff [m1 e1] [Hs1 D1]. cbn [self env] in *. subst m1. steps.
  apply spec_bytearray.
  set (rts := map low_byte [0xCA; 0xFE; 0xBA; 0xBE; len pending_data]). clearbody rts.
  steps.
  use del_send_packet. intros _ e2 D2. steps. use adv_start_rx. intros _ e3 [_ D3]. steps.
  match goal with |- spec (listen_loop _ _ _ _ _) (mkNode ?x _) _ _ _ =>
    set (m3 := x) end.
  assert (S3 : same_setup m m3) by (unfold same_setup; simpl; repeat split; reflexivity).
  assert (St3 : stats m3 = add_stats (stats m) (mkStats 0 1 0 0 0 0 1)) by stats.
  assert (Hcb3 : _on_receive_callback m3 = _on_receive_callback m) by reflexivity.
  assert (Hc3 : consecutive_navs m3 = consecutive_navs m) by reflexivity.
  assert (Hd3 : delivered 0 e e3).
  { unfold delivered in *. simpl in *. rewrite D3. lia. }
  clearbody m3.
  use tally_listen_loop. intros r n4 Hr. cbn [self env] in *. destruct r as [b|].
  - destruct Hr as (-> & d & Hd & (S4 & St4 & Hc4 & Hp4) & Hdel). steps.
    assert (Hfinal : forall d', rx_data d' = rx_data d ->
              stats (self n4) = add_stats (stats m) d' -> tallied false d' (mkNode m e) n4).
    { intros d' Hrx Hst. unfold tallied. cbn [self env].
      split; [exact (same_setup_trans _ _ _ S3 S4)|]. split; [exact Hst|].
      split; [|split; [lia | exact Hp4]].
      unfold calls_for in *. rewrite Hcb3 in Hdel. rewrite Hrx.
      unfold delivered in *. lia. }
    destruct Hd as [-> | ->].
    + exists (mkStats 0 1 0 1 1 0 1). split; [left; reflexivity|].
      apply Hfinal; [reflexivity|]. rewrite St4, St3. stats.
    + exists (mkStats 0 1 1 0 1 0 1). split; [right; reflexivity|].
      apply Hfinal; [reflexivity|]. rewrite St4, St3. stats.
  - destruct Hr as [Hs4 D4]. destruct n4 as [m4 e4]. cbn [self env] in *. subst m4.
    use tally__phase3_send_data. intros b n5 (-> & S5 & St5 & Hdel5 & Hc5 & Hp5).
    cbn [self env] in *. unfold tallied. cbn [self env].
    split; [exact (same_setup_trans _ _ _ S3 S5)|].
    split; [rewrite St5, St3; unfold sent_tally; stats|].
    split; [|split; assumption].
    unfold calls_for in *. rewrite Hcb3 in Hdel5. simpl in *.
    destruct (_on_receive_callback m); unfold delivered in *; simpl in *; lia.
Qed.

Lemma tally__phase1_listen_rts (fuel : nat) (pending_data : list byte) (n : Node) :
  spec (_phase1_listen_rts fuel pending_data) n
       (fun b n' =>
          if b then tallied true sent_tally n n'
          else exists d,
                 (d = mkStats 0 0 0 1 1 0 0 \/ d = mkStats 0 0 1 0 1 0 0 \/
                  d = mkStats 0 1 0 1 1 0 1 \/ d = mkStats 0 1 1 0 1 0 1) /\
                 tallied false d n n')
       (fun _ _ => True) True.
Proof.
  destruct n as [m e]. cbn [self env].
  unfold _phase1_listen_rts. steps. use adv_start_rx. intros _ e1 [_ D1]. steps.
  set (m1 := set_phase PHASE_1_LISTEN m).
  assert (S1 : same_setup m m1) by (unfold same_setup; simpl; repeat split; reflexivity).
  assert (St1 : stats m1 = stats m) by reflexivity.
  assert (Hcb1 : _on_receive_callback m1 = _on_receive_callback m) by reflexivity.
  assert (Hc1 : consecutive_navs m1 = consecutive_navs m) by reflexivity.
  assert (Hd1 : delivered 0 e e1) by (apply delivered_same; exact D1).
  clearbody m1.
  use tally_listen_loop. intros r n2 Hr. cbn [self env] in *. destruct r as [b|].
  - destruct Hr as (-> & d & Hd & (S2 & St2 & Hc2 & Hp2) & Hdel). steps.
    exists d. split; [tauto|]. unfold tallied. cbn [self env].
    split; [exact (same_setup_trans _ _ _ S1 S2)|].
    split; [rewrite St2, St1; reflexivity|].
    split; [|split; [lia | exact Hp2]].
    unfold calls_for in *. rewrite Hcb1 in Hdel. unfold delivered in *. lia.
  - destruct Hr as [Hs2 D2]. destruct n2 as [m2 e2]. cbn [self env] in *. subst m2.
    assert (Hlift : forall b d n3, tallied b d (mkNode m1 e2) n3 ->
                      (b = false -> True) -> tallied b d (mkNode m e) n3).
    { intros b d n3 (S3 & St3 & Hdel3 & Hb3) _. unfold tallied. cbn [self env] in *.
      split; [exact (same_setup_trans _ _ _ S1 S3)|].
      split; [rewrite St3, St1; reflexivity|].
      split.
      - unfold calls_for in *. rewrite Hcb1 in Hdel3. unfold delivered in *. lia.
      - destruct b; [exact Hb3 | rewrite <- Hc1; exact Hb3]. }
    use tally__phase2_send_rts. intros b n3 Hb. destruct b.
    + apply Hlift; [exact Hb | trivial].
    + destruct Hb as (d & Hd & Ht). exists d. split; [tauto|].
      apply Hlift; [exact Ht | trivial].
Qed.

Lemma tally_send_data (fuel : nat) (data : list byte) (priority : string) (n : Node) :
  spec (send_data fuel data priority) n
       (fun b n' =>
          if b then tallied true sent_tally n n'
          else n' = n \/
               exists d, In d (tl deferred_tallies) /\ tallied false d n n')
       (fun _ _ => True) True.
Proof.
  destruct n as [m e]. unfold send_data. step. unfold _in_nav. steps.
  destruct (ticks_ms e <? nav_until m).
  { steps. left. reflexivity. }
  steps.
  assert (Hcad : spec (if use_cad (config m) then on_env (cad fuel) else ret false)
                      (mkNode m e)
                      (fun _ n' => self n' = m /\ delivered 0 e (env n'))
                      never True).
  { destruct (use_cad (config m)); steps.
    - use del_cad. intros b e1 D1. split; [reflexivity | exact D1].
    - split; [reflexivity | apply delivered_refl]. }
  use Hcad. clear Hcad. intros busy [m1 e1] [Hs1 D1]. cbn [self env] in *. subst m1.
  destruct busy.
  - steps. use spec__defer_random.
    2:{ intros; exact I. }
    intros _ n2 ([until Hs2] & Ht2 & _). steps. right. cbn [self env] in *.
    exists (mkStats 0 0 0 0 0 1 0). split; [simpl; tauto|].
    unfold tallied. cbn [self env]. rewrite Hs2.
    split; [unfold same_setup; simpl; repeat split; reflexivity|].
    split; [stats|]. split; [|split; reflexivity].
    unfold calls_for. simpl. destruct (_on_receive_callback m);
      unfold delivered in *; rewrite Ht2; simpl; lia.
  - steps.
    assert (Hcoin : spec (if (priority =? "high")%string then ret true
                          else r <- on_env random ;; ret (Qltb r (p m))) (mkNode m e1)
                         (fun _ n' => self n' = m /\ delivered 0 e (env n'))
                         never False).
    { destruct (priority =? "high")%string; steps.
      - split; [reflexivity | exact D1].
      - unfold spec, random. simpl. split; [reflexivity | exact D1]. }
    use Hcoin. clear Hcoin. intros direct [m2 e2] [Hs2 D2]. cbn [self env] in *. subst m2.
    assert (Hlift : forall b d n3, tallied b d (mkNode m e2) n3 ->
                                   tallied b d (mkNode m e) n3).
    { intros b d n3 (S3 & St3 & Hdel3 & Hb3). unfold tallied. cbn [self env] in *.
      split; [exact S3|]. split; [exact St3|]. split; [|exact Hb3].
      unfold delivered in *. lia. }
    destruct direct.
    + use tally__phase2_send_rts. intros b n3 Hb. destruct b.
      * apply Hlift. exact Hb.
      * right. destruct Hb as (d & Hd & Ht). exists d.
        split; [destruct Hd as [-> | ->]; simpl; tauto | apply Hlift; exact Ht].
    + use tally__phase1_listen_rts. intros b n3 Hb. destruct b.
      * apply Hlift. exact Hb.
      * right. destruct Hb as (d & Hd & Ht). exists d.
        split; [destruct Hd as [-> | [-> | [-> | ->]]]; simpl; tauto
               | apply Hlift; exact Ht].
Qed.

(** X6: what one [send_data] does to the counters.  A call that returns
    [True] adds one to [tx_rts] and [tx_data] and two to [backoff_count],
    nothing else, and leaves the phase idle.  A call that returns [False]
    adds one of six vectors: nothing (called inside a NAV period), one CAD
    detection, or one reception with one NAV entry, after an RTS and a
    backoff of its own if it got to Phase 2; [consecutive_navs] grows by
    the NAV entries and CAD detections counted, and unless nothing was
    added the phase is NAV.  The setup fields of [self] never change. *)
Theorem send_data_tally
        (fuel : nat) (data : list byte) (priority : string) (n n' : Node) (b : bool) :
  send_data fuel data priority n = Ok b n' ->
  exists d,
    stats (self n') = add_stats (stats (self n)) d /\
    same_setup (self n) (self n') /\
    if b then
      d = sent_tally /\ phase (self n') = PHASE_IDLE
    else
      In d deferred_tallies /\
      consecutive_navs (self n') =
        consecutive_navs (self n) + nav_count d + cad_detected d /\
      (d <> mkStats 0 0 0 0 0 0 0 -> phase (self n') = PHASE_NAV).
Proof.
  intros Hrun.
  pose proof (spec_Ok _ _ _ _ _ _ _ (tally_send_data fuel data priority n) Hrun) as H.
  cbv beta in H. destruct b.
  - destruct H as (S & St & _ & _ & Hp). exists sent_tally. tauto.
  - destruct H as [-> | (d & Hd & S & St & _ & Hc & Hp)].
    + exists (mkStats 0 0 0 0 0 0 0). split; [stats|].
      split; [apply same_setup_refl|]. split; [simpl; tauto|].
      split; [simpl; lia | intros Hne; congruence].
    + exists d. split; [exact St|]. split; [exact S|].
      split; [simpl in *; tauto|]. split; [|intros _; exact Hp].
      simpl in Hd. rewrite Hc.
      destruct Hd as [<- | [<- | [<- | [<- | [<- | []]]]]]; simpl; lia.
Qed.

Lemma send_data_tally_witness :
  exists d,
    stats (self (state_of (send_data 2000 hi "normal" (idle_node incoming_data))
                          (idle_node incoming_data))) =
      add_stats (stats (self (idle_node incoming_data))) d /\
    same_setup (self (idle_node incoming_data))
               (self (state_of (send_data 2000 hi "normal" (idle_node incoming_data))
                               (idle_node incoming_data))) /\
    In d deferred_tallies /\
    consecutive_navs (self (state_of (send_data 2000 hi "normal" (idle_node incoming_data))
                                     (idle_node incoming_data))) =
      consecutive_navs (self (idle_node incoming_data)) + nav_count d + cad_detected d /\
    (d <> mkStats 0 0 0 0 0 0 0 ->
     phase (self (state_of (send_data 2000 hi "normal" (idle_node incoming_data))
                           (idle_node incoming_data))) = PHASE_NAV).
Proof.
  apply (send_data_tally 2000 hi "normal" (idle_node incoming_data) _ false).
  vm_compute. reflexivity.
Defined.

End Accounting.

(** ** What the receive callback is given *)

Section Delivery.

Ltac pass L := use L; try solve [intros; exact I].

Lemma dlv_cad_wait (fuel : nat) (start : Z) (e : World) :
  spec (cad_wait fuel start) e
       (fun _ e' => deliveries (trace e') = deliveries (trace e)) never True.
Proof.
  revert e. induction fuel as [|fuel IH]; intros e; [exact I|].
  cbn [cad_wait]. steps.
  destruct (ticks_diff (ticks_ms e) start <? 100); [|steps; reflexivity].
  steps. use adv__get_irq_status. intros irq e1 [_ D1].
  destruct (flag_set irq IRQ_CAD_DONE).
  - steps. use adv_clear_irq. intros _ e2 [_ D2]. steps. congruence.
  - steps. use IH. intros b e2 D2. rewrite D2. exact D1.
Qed.

Lemma dlv_cad (fuel : nat) (e : World) :
  spec (cad fuel) e
       (fun _ e' => deliveries (trace e') = deliveries (trace e)) never True.
Proof.
  unfold cad. steps. use adv_clear_irq. intros _ e1 [_ D1].
  steps. use adv__spi_command. intros _ e2 [_ D2].
  steps. use dlv_cad_wait. intros b e3 D3. congruence.
Qed.

Lemma dlv_tx_wait (fuel : nat) (start : Z) (e : World) :
  spec (tx_wait fuel start) e
       (fun _ e' => deliveries (trace e') = deliveries (trace e)) never True.
Proof.
  revert e. induction fuel as [|fuel IH]; intros e; [exact I|].
  cbn [tx_wait]. steps.
  destruct (ticks_diff (ticks_ms e) start <? 10000); [|steps; reflexivity].
  steps. use adv__get_irq_status. intros irq e1 [_ D1].
  destruct (flag_set irq IRQ_TX_DONE).
  - steps. use adv_clear_irq. intros _ e2 [_ D2]. steps. congruence.
  - steps. use IH. intros b e2 D2. rewrite D2. exact D1.
Qed.

Lemma dlv_send_packet (fuel : nat) (data : list byte) (pkt_type : Z) (e : World) :
  spec (send_packet fuel data pkt_type) e
       (fun _ e' => deliveries (trace e') = deliveries (trace e))
       (fun _ _ => True) True.
Proof.
  unfold send_packet. steps. apply spec_bytes; [|exact (fun _ => I)].
  intros tag _. steps. use adv__spi_command. intros _ e1 [_ D1].
  steps. use adv_clear_irq. intros _ e2 [_ D2].
  steps. use adv__spi_command. intros _ e3 [_ D3].
  steps. use dlv_tx_wait. intros b e4 D4. congruence.
Qed.

(** Drawing random numbers reads nothing from the chip and writes
    nothing. *)
Lemma miso_randint (a b : Z) (e : World) :
  spec (randint a b) e
       (fun _ e' => spi_miso e' = spi_miso e /\ trace e' = trace e)
       (fun _ _ => True) False.
Proof. unfold spec, randint. destruct (a <=? b); [split; reflexivity | exact I]. Qed.

Lemma miso__enter_nav_random (n : Node) :
  spec _enter_nav_random n
       (fun _ n' => spi_miso (env n') = spi_miso (env n) /\
                    trace (env n') = trace (env n) /\
                    _on_receive_callback (self n') = _on_receive_callback (self n))
       (fun _ _ => True) False.
Proof.
  destruct n as [m e]. cbn [self env].
  unfold _enter_nav_random. steps. pass miso_randint. intros d0 e1 [M1 T1].
  steps. unfold draw_prime_offset. steps. pass miso_randint. intros i e2 [M2 T2].
  unfold index. destruct (nth_error PRIME_OFFSETS (Z.to_nat i)); [|steps; exact I].
  steps. pass spec_exponential_backoff. intros d n3 [-> _]. steps.
  split; [congruence|]. split; [congruence | reflexivity].
Qed.

Lemma handed_over_refl (n : Node) : handed_over n n.
Proof. left. reflexivity. Qed.

(** A call that starts after a stretch in which nothing was delivered. *)
Lemma handed_over_from (m m1 : LoRaMAC) (e e1 : World) (n' : Node) :
  _on_receive_callback m1 = _on_receive_callback m ->
  deliveries (trace e1) = deliveries (trace e) ->
  handed_over (mkNode m1 e1) n' -> handed_over (mkNode m e) n'.
Proof.
  intros Hcb Hd [H | (e0 & e2 & pkt & Hr & Hm & Ht & Hc & Hl)]; cbn [self env] in *.
  - left. cbn [self env]. congruence.
  - right. exists e0, e2, pkt. cbn [self env]. repeat split; congruence.
Qed.

Lemma ho_listen_poll (poll_interval idle_count : Z) (n : Node) :
  spec (listen_poll poll_interval idle_count) n
       (fun r n' =>
          match r with
          | inl _ => handed_over n n'
          | inr _ => self n' = self n /\
                     deliveries (trace (env n')) = deliveries (trace (env n))
          end)
       (fun _ _ => True) False.
Proof.
  destruct n as [m e]. cbn [self env].
  unfold listen_poll. steps. use adv_rx_done. intros done e1 [_ D1].
  destruct done; [|steps; split; [reflexivity | exact D1]].
  steps. use (spec_run _ _ _ _ _ (adv_read_packet e1)). intros pkt e2 (Hread & _ & D2).
  assert (D : deliveries (trace e2) = deliveries (trace e)) by congruence.
  destruct pkt as [pk|]; [|steps; split; [reflexivity | exact D]].
  destruct (type pk =? PKT_TYPE_RTS).
  - steps. pass spec__enter_nav_from_rts.
    intros _ [m3 e3] (_ & Ht & _). steps. left. cbn [self env] in Ht |- *.
    rewrite Ht. exact D.
  - destruct (type pk =? PKT_TYPE_DATA) eqn:Htype; [|steps; split; [reflexivity | exact D]].
    apply Z.eqb_eq in Htype.
    steps. cbn [_on_receive_callback set_stats].
    destruct (_on_receive_callback m) eqn:Hcb.
    + steps. pass miso__enter_nav_random. intros _ [m3 e3] (M3 & T3 & _). steps.
      cbn [self env spi_miso trace emit] in M3, T3.
      right. exists e1, e2, pk. cbn [self env].
      split; [exact Hread|]. split; [symmetry; exact M3|].
      split; [exact Htype|]. split; [exact Hcb|].
      rewrite T3. cbn [deliveries]. rewrite D. reflexivity.
    + steps. pass miso__enter_nav_random. intros _ [m3 e3] (_ & T3 & _). steps.
      left. cbn [self env] in T3 |- *. rewrite T3. exact D.
Qed.

Lemma ho_listen_loop
      (fuel : nat) (start duration poll_interval idle_count : Z) (n : Node) :
  spec (listen_loop fuel start duration poll_interval idle_count) n
       (fun r n' =>
          match r with
          | Some _ => handed_over n n'
          | None => self n' = self n /\
                    deliveries (trace (env n')) = deliveries (trace (env n))
          end)
       (fun _ _ => True) True.
Proof.
  revert poll_interval idle_count n.
  induction fuel as [|fuel IH]; intros poll_interval idle_count [m e]; [exact I|].
  cbn [self env]. cbn [listen_loop]. steps.
  destruct (ticks_diff (ticks_ms e) start <? duration);
    [|steps; split; reflexivity].
  steps. pass (ho_listen_poll poll_interval idle_count (mkNode m e)).
  intros r [m1 e1] Hr. cbn [self env] in *. destruct r as [b | [poll' idle']].
  - steps. exact Hr.
  - destruct Hr as [-> D1]. steps. pass IH. intros r n2 Hr2. cbn [self env] in *.
    destruct r as [b|].
    + apply (handed_over_from m m e (sleep_ms poll' e1)); [reflexivity | exact D1 | exact Hr2].
    + destruct Hr2 as [Hs2 D2]. split; [exact Hs2|]. cbn [trace sleep_ms set_clock] in D2.
      congruence.
Qed.

Lemma ho__phase3_send_data (fuel : nat) (data : list byte) (n : Node) :
  spec (_phase3_send_data fuel data) n
       (fun _ n' => deliveries (trace (env n')) = deliveries (trace (env n)))
       (fun _ _ => True) True.
Proof.
  destruct n as [m e]. cbn [self env].
  unfold _phase3_send_data. steps. pass spec_draw_backoff.
  intros backoff [m1 e1] [_ T1]. cbn [self env] in *. steps.
  pass dlv_send_packet. intros _ e2 D2. steps.
  rewrite D2. cbn [trace sleep_ms set_clock]. congruence.
Qed.

Lemma ho__phase2_send_rts (fuel : nat) (pending_data : list byte) (n : Node) :
  spec (_phase2_send_rts fuel pending_data) n
       (fun _ n' => handed_over n n') (fun _ _ => True) True.
Proof.
  destruct n as [m e]. cbn [self env].
  unfold _phase2_send_rts. steps. pass spec_draw_backoff.
  intros backoff [m1 e1] [Hs1 T1]. cbn [self env] in *. subst m1. steps.
  apply spec_bytearray.
  set (rts := map low_byte [0xCA; 0xFE; 0xBA; 0xBE; len pending_data]). clearbody rts.
  steps. pass dlv_send_packet. intros _ e2 D2. steps.
  use adv_start_rx. intros _ e3 [_ D3]. steps.
  assert (D : deliveries (trace e3) = deliveries (trace e)).
  { rewrite D3, D2. cbn [trace sleep_ms set_clock]. congruence. }
  pass ho_listen_loop. intros r [m4 e4] Hr. cbn [self env] in *. destruct r as [b|].
  - steps. eapply handed_over_from; [| exact D | exact Hr]. reflexivity.
  - destruct Hr as [-> D4]. pass ho__phase3_send_data. intros b n5 D5.
    left. cbn [self env] in *. congruence.
Qed.

Lemma ho__phase1_listen_rts (fuel : nat) (pending_data : list byte) (n : Node) :
  spec (_phase1_listen_rts fuel pending_data) n
       (fun _ n' => handed_over n n') (fun _ _ => True) True.
Proof.
  destruct n as [m e]. cbn [self env].
  unfold _phase1_listen_rts. steps. use adv_start_rx. intros _ e1 [_ D1]. steps.
  pass ho_listen_loop. intros r [m2 e2] Hr. cbn [self env] in *. destruct r as [b|].
  - steps. eapply handed_over_from; [| exact D1 | exact Hr]. reflexivity.
  - destruct Hr as [-> D2]. pass ho__phase2_send_rts. intros b n3 H3.
    eapply handed_over_from; [| | exact H3]; [reflexivity | congruence].
Qed.

Lemma ho_send_data (fuel : nat) (data : list byte) (priority : string) (n : Node) :
  spec (send_data fuel data priority) n
       (fun _ n' => handed_over n n') (fun _ _ => True) True.
Proof.
  destruct n as [m e]. cbn [self env].
  unfold send_data. step. unfold _in_nav. steps.
  destruct (ticks_ms e <? nav_until m).
  { steps. apply handed_over_refl. }
  steps.
  assert (Hcad : spec (if use_cad (config m) then on_env (cad fuel) else ret false)
                      (mkNode m e)
                      (fun _ n' => self n' = m /\
                                   deliveries (trace (env n')) = deliveries (trace e))
                      (fun _ _ => True) True).
  { destruct (use_cad (config m)); steps; [|split; reflexivity].
    pass dlv_cad. intros b e1 D1. split; [reflexivity | exact D1]. }
  pass Hcad. clear Hcad. intros busy [m1 e1] [Hs1 D1]. cbn [self env] in *. subst m1.
  destruct busy.
  - steps. pass spec__defer_random. intros _ n2 (_ & T2 & _). steps.
    left. cbn [self env] in *. congruence.
  - steps.
    assert (Hcoin : spec (if (priority =? "high")%string then ret true
                          else r <- on_env random ;; ret (Qltb r (p m)))
                         (mkNode m e1)
                         (fun _ n' => self n' = m /\
                                      deliveries (trace (env n')) = deliveries (trace e))
                         (fun _ _ => True) True).
    { destruct (priority =? "high")%string; steps; [split; [reflexivity | exact D1]|].
      unfold spec, random. simpl. split; [reflexivity | exact D1]. }
    pass Hcoin. clear Hcoin. intros direct [m2 e2] [Hs2 D2]. cbn [self env] in *. subst m2.
    destruct direct.
    + pass ho__phase2_send_rts. intros b n3 H3.
      eapply handed_over_from; [| exact D2 | exact H3]. reflexivity.
    + pass ho__phase1_listen_rts. intros b n3 H3.
      eapply handed_over_from; [| exact D2 | exact H3]. reflexivity.
Qed.

(** X7: what the receive callback gets during a [send_data].  It is
    called once for every DATA packet counted in [rx_data], if a callback
    is registered, and not at all otherwise.  What it is given is the
    payload, RSSI and SNR of a packet that [read_packet] returned with
    type DATA as the last thing read from the chip: an RTS is never
    handed over. *)
Theorem data_received_is_delivered
        (fuel : nat) (data : list byte) (priority : string) (n n' : Node) (b : bool) :
  send_data fuel data priority n = Ok b n' ->
  List.length (deliveries (trace (env n'))) =
    (List.length (deliveries (trace (env n)))
     + if _on_receive_callback (self n)
       then Z.to_nat (rx_data (stats (self n')) - rx_data (stats (self n)))
       else 0)%nat /\
  handed_over n n'.
Proof.
  intros Hrun. split.
  2:{ exact (spec_Ok _ _ _ _ _ _ _ (ho_send_data fuel data priority n) Hrun). }
  pose proof (spec_Ok _ _ _ _ _ _ _ (tally_send_data fuel data priority n) Hrun) as H.
  cbv beta in H.
  assert (Hmain : forall bb d, tallied bb d n n' ->
            List.length (deliveries (trace (env n'))) =
              (List.length (deliveries (trace (env n)))
               + if _on_receive_callback (self n)
                 then Z.to_nat (rx_data (stats (self n')) - rx_data (stats (self n)))
                 else 0)%nat).
  { intros bb d (_ & St & Hdel & _). unfold delivered, calls_for in Hdel.
    rewrite Hdel, St. simpl.
    replace (rx_data (stats (self n)) + rx_data d - rx_data (stats (self n)))
      with (rx_data d) by lia.
    reflexivity. }
  destruct b.
  - exact (Hmain _ _ H).
  - destruct H as [-> | (d & _ & Ht)]; [|exact (Hmain _ _ Ht)].
    rewrite Z.sub_diag. destruct (_on_receive_callback (self n)); simpl; lia.
Qed.

Lemma data_received_is_delivered_witness :
  List.length (deliveries (trace (env
     (state_of (send_data 2000 hi "normal" (subscribed_node incoming_data))
               (subscribed_node incoming_data))))) =
    (List.length (deliveries (trace (env (subscribed_node incoming_data))))
     + if _on_receive_callback (self (subscribed_node incoming_data))
       then Z.to_nat
              (rx_data (stats (self
                 (state_of (send_data 2000 hi "normal" (subscribed_node incoming_data))
                           (subscribed_node incoming_data))))
               - rx_data (stats (self (subscribed_node incoming_data))))
       else 0)%nat /\
  handed_over (subscribed_node incoming_data)
              (state_of (send_data 2000 hi "normal" (subscribed_node incoming_data))
                        (subscribed_node incoming_data)).
Proof.
  apply (data_received_is_delivered 2000 hi "normal" (subscribed_node incoming_data)
           (state_of (send_data 2000 hi "normal" (subscribed_node incoming_data))
                     (subscribed_node incoming_data)) false).
  vm_compute. reflexivity.
Defined.

End Delivery.

(** ** Deferral durations *)

Section DeferralDurations.

Lemma int_times_2_5 (n : Z) : int (inject_Z n * 2.5) = (5 * n) ÷ 2.
Proof.
  unfold int, Qmult, inject_Z. cbn [Qnum Qden].
  change (Z.pos (1 * 10)) with (2 * 5). replace (n * 25) with ((5 * n) * 5) by lia.
  apply Z.quot_mul_cancel_r; lia.
Qed.

Lemma multiplier_le_2_5 (k : Z) : (Qmin (1.0 + inject_Z k * 0.3) 2.5 <= 2.5)%Q.
Proof. apply Q.le_min_r. Qed.

Lemma multiplier_saturated (k : Z) :
  5 <= k -> (Qmin (1.0 + inject_Z k * 0.3) 2.5 == 2.5)%Q.
Proof.
  intros Hk. apply Q.min_r.
  unfold Qle, Qplus, Qmult, inject_Z. cbn [Qnum Qden]. lia.
Qed.

Lemma int_Qeq_2_5 (n : Z) (q : Q) : (q == 2.5)%Q -> int (inject_Z n * q) = (5 * n) ÷ 2.
Proof.
  intros Hq. destruct q as [qn qd]. unfold Qeq in Hq. cbn [Qnum Qden] in Hq.
  unfold int, Qmult, inject_Z. cbn [Qnum Qden].
  change (Z.pos (1 * qd)) with (Z.pos qd).
  assert (Hqn : qn * 2 = 5 * Z.pos qd) by lia.
  rewrite <- (Z.quot_mul_cancel_r (n * qn) (Z.pos qd) 2) by lia.
  replace (n * qn * 2) with (5 * n * Z.pos qd) by nia.
  replace (Z.pos qd * 2) with (2 * Z.pos qd) by lia.
  apply Z.quot_mul_cancel_r; lia.
Qed.

Lemma exponential_backoff_range (duration : Z) (n : Node) :
  exists d,
    exponential_backoff duration n = Ok d n /\
    (consecutive_navs (self n) <= 0 -> d = duration) /\
    (5 <= consecutive_navs (self n) -> d = (5 * duration) ÷ 2) /\
    (0 <= duration -> duration <= d <= (5 * duration) ÷ 2).
Proof.
  destruct n as [m e]. unfold exponential_backoff, bind, attr, gets, ret. cbn [self env].
  destruct (0 <? consecutive_navs m) eqn:Hk.
  - apply Z.ltb_lt in Hk. eexists. split; [reflexivity|].
    split; [lia|]. split.
    + intros H5. apply int_Qeq_2_5. apply multiplier_saturated. exact H5.
    + intros Hd. split.
      * apply int_scale_ge; [exact Hd | apply multiplier_ge_1; exact Hk].
      * rewrite <- int_times_2_5. apply int_scale_mono; [exact Hd | | apply multiplier_le_2_5].
        apply Qle_trans with 1%Q; [unfold Qle; simpl; lia | apply multiplier_ge_1; exact Hk].
  - apply Z.ltb_ge in Hk. exists duration. split; [reflexivity|].
    split; [reflexivity|]. split; [lia|].
    intros Hd. split; [lia|]. apply Z.quot_le_lower_bound; lia.
Qed.

(** X8: the congestion multiplier, for durations of up to 100000 ms
    either way (there the products below are computed exactly in binary
    floating point).  With no deferral behind it the duration is used as
    it is; from five consecutive deferrals on it is scaled by exactly 2.5
    (truncated); in between, a non-negative duration is never shortened
    and never more than 2.5 times longer. *)
Theorem exponential_backoff_saturates (duration : Z) (n : Node) :
  - 100000 <= duration <= 100000 ->
  exists d,
    exponential_backoff duration n = Ok d n /\
    (consecutive_navs (self n) <= 0 -> d = duration) /\
    (5 <= consecutive_navs (self n) -> d = (5 * duration) ÷ 2) /\
    (0 <= duration -> duration <= d <= (5 * duration) ÷ 2).
Proof. intros _. apply exponential_backoff_range. Qed.

Lemma exponential_backoff_saturates_witness :
  exists d,
    exponential_backoff 1000 (deferred_thrice silent_world)
      = Ok d (deferred_thrice silent_world) /\
    (consecutive_navs (self (deferred_thrice silent_world)) <= 0 -> d = 1000) /\
    (5 <= consecutive_navs (self (deferred_thrice silent_world)) -> d = (5 * 1000) ÷ 2) /\
    (0 <= 1000 -> 1000 <= d <= (5 * 1000) ÷ 2).
Proof.
  apply (exponential_backoff_saturates 1000 (deferred_thrice silent_world)). lia.
Defined.

Lemma spec_exponential_backoff_range (duration : Z) (n : Node) :
  spec (exponential_backoff duration) n
       (fun d n' =>
          n' = n /\
          (consecutive_navs (self n) <= 0 -> d = duration) /\
          (0 <= duration -> duration <= d <= (5 * duration) ÷ 2))
       never False.
Proof.
  destruct (exponential_backoff_range duration n) as (d & Hrun & H0 & _ & Hr).
  unfold spec. rewrite Hrun. auto.
Qed.

Lemma enter_nav_random_range (n : Node) :
  exists d n',
    _enter_nav_random n = Ok tt n' /\
    self n' = set_stats (inc_nav_count (stats (self n)))
                        (armed (ticks_ms (env n) + d) (self n)) /\
    clock (env n') = clock (env n) /\
    7873 <= d <= 29550 /\
    (consecutive_navs (self n) <= 0 -> d <= 11820).
Proof.
  cut (spec _enter_nav_random n
            (fun _ n' =>
               exists d,
                 self n' = set_stats (inc_nav_count (stats (self n)))
                                     (armed (ticks_ms (env n) + d) (self n)) /\
                 clock (env n') = clock (env n) /\
                 7873 <= d <= 29550 /\
                 (consecutive_navs (self n) <= 0 -> d <= 11820))
            never False).
  { intros H. apply spec_total in H. destruct H as ([] & n' & Hrun & d & H).
    exists d, n'. tauto. }
  destruct n as [m e]. cbn [self env].
  unfold _enter_nav_random. steps.
  change (int (inject_Z (_calculate_toa 255) * 0.8)) with 7868.
  change (int (inject_Z (_calculate_toa 255) * 1.2)) with 11803.
  use spec_randint.
  2:{ unfold never. intros x e' (_ & Hlt & _). lia. }
  intros d0 e1 (Hd0 & Ht1 & Hc1). steps.
  use spec_draw_prime_offset. intros prime [m2 e2] (Hs2 & Ht2 & Hc2 & Hp).
  cbn [self env] in *. subst m2. steps.
  use spec_exponential_backoff_range. intros d n3 (-> & Hk0 & Hr). cbn [self env] in *.
  steps. exists d. cbn [self env clock].
  split; [unfold ticks_ms; rewrite Hc2, Hc1; reflexivity|].
  split; [congruence|].
  specialize (Hr ltac:(lia)).
  assert (Hcap : (5 * (d0 + prime)) ÷ 2 <= 29550).
  { apply Z.quot_le_upper_bound; lia. }
  split; [lia|]. intros Hk. rewrite (Hk0 Hk). lia.
Qed.

(** X9: the NAV armed on an unexpected DATA packet does not depend on the
    configuration.  [_enter_nav_random] always succeeds, counts the NAV
    entry, and sets [nav_until] between 7873 and 29550 ms after the tick
    count it reads, at most 11820 ms when no deferral precedes it. *)
Theorem enter_nav_random_duration (n : Node) :
  exists d n',
    _enter_nav_random n = Ok tt n' /\
    self n' = set_stats (inc_nav_count (stats (self n)))
                        (armed (ticks_ms (env n) + d) (self n)) /\
    clock (env n') = clock (env n) /\
    7873 <= d <= 29550 /\
    (consecutive_navs (self n) <= 0 -> d <= 11820).
Proof. apply enter_nav_random_range. Qed.

Lemma defer_random_range (n : Node) :
  timing_ok (self n) ->
  exists d n',
    _defer_random n = Ok tt n' /\
    self n' = armed (ticks_ms (env n) + d) (self n) /\
    clock (env n') = clock (env n) /\
    phase1_duration (self n) + 5 <= d <= (5 * (3 * phase1_duration (self n) + 17)) ÷ 2 /\
    (consecutive_navs (self n) <= 0 -> d <= 3 * phase1_duration (self n) + 17).
Proof.
  intros Hok. pose proof (phase1_duration_pos _ Hok) as Hp1.
  cut (spec _defer_random n
            (fun _ n' =>
               exists d,
                 self n' = armed (ticks_ms (env n) + d) (self n) /\
                 clock (env n') = clock (env n) /\
                 phase1_duration (self n) + 5 <= d
                   <= (5 * (3 * phase1_duration (self n) + 17)) ÷ 2 /\
                 (consecutive_navs (self n) <= 0 ->
                  d <= 3 * phase1_duration (self n) + 17))
            never False).
  { intros H. apply spec_total in H. destruct H as ([] & n' & Hrun & d & H).
    exists d, n'. tauto. }
  destruct n as [m e]. cbn [self env] in *.
  unfold _defer_random. steps. use spec_randint.
  2:{ unfold never. intros x e' (_ & Hlt & _). lia. }
  intros d0 e1 (Hd0 & Ht1 & Hc1). steps.
  use spec_draw_prime_offset. intros prime [m2 e2] (Hs2 & Ht2 & Hc2 & Hp).
  cbn [self env] in *. subst m2. steps.
  use spec_exponential_backoff_range. intros d n3 (-> & Hk0 & Hr). cbn [self env] in *.
  steps. exists d. cbn [self env clock].
  split; [unfold ticks_ms; rewrite Hc2, Hc1; reflexivity|].
  split; [congruence|].
  specialize (Hr ltac:(lia)).
  assert (Hcap : (5 * (d0 + prime)) ÷ 2 <= (5 * (3 * phase1_duration m + 17)) ÷ 2).
  { apply Z.quot_le_mono; lia. }
  split; [lia|]. intros Hk. rewrite (Hk0 Hk). lia.
Qed.

(** X10: the deferral after a positive CAD.  For a MAC set up from a
    configuration of the data model, with a listening window short enough
    for [3 * phase1_duration + 17] to stay within 100000 ms (where the
    multiplication by the congestion multiplier is exact in binary
    floating point), [_defer_random] succeeds and sets [nav_until] at
    least [phase1_duration + 5] ms and at most
    [2.5 * (3 * phase1_duration + 17)] ms after the tick count it reads
    (at most [3 * phase1_duration + 17] when no deferral precedes it); it
    touches no counter. *)
Theorem defer_random_duration (n : Node) :
  timing_ok (self n) ->
  3 * phase1_duration (self n) + 17 <= 100000 ->
  exists d n',
    _defer_random n = Ok tt n' /\
    self n' = armed (ticks_ms (env n) + d) (self n) /\
    clock (env n') = clock (env n) /\
    phase1_duration (self n) + 5 <= d <= (5 * (3 * phase1_duration (self n) + 17)) ÷ 2 /\
    (consecutive_navs (self n) <= 0 -> d <= 3 * phase1_duration (self n) + 17).
Proof. intros Hok _. apply defer_random_range. exact Hok. Qed.

Lemma defer_random_duration_witness :
  exists d n',
    _defer_random (idle_node silent_world) = Ok tt n' /\
    self n' = armed (ticks_ms (env (idle_node silent_world)) + d)
                    (self (idle_node silent_world)) /\
    clock (env n') = clock (env (idle_node silent_world)) /\
    phase1_duration (self (idle_node silent_world)) + 5 <= d
      <= (5 * (3 * phase1_duration (self (idle_node silent_world)) + 17)) ÷ 2 /\
    (consecutive_navs (self (idle_node silent_world)) <= 0 ->
     d <= 3 * phase1_duration (self (idle_node silent_world)) + 17).
Proof.
  apply (defer_random_duration (idle_node silent_world)).
  - split; [vm_compute; discriminate|]. split; [vm_compute; reflexivity|].
    split; vm_compute; reflexivity.
  - vm_compute. discriminate.
Defined.

(** The tick counter stays below its period. *)
Lemma ticks_ms_bound (e : World) : 0 <= ticks_ms e < TICKS_PERIOD.
Proof. unfold ticks_ms. apply Z.mod_pos_bound. reflexivity. Qed.

(** X11: [_in_nav] compares [nav_until] with the wrapping tick counter
    directly.  A deadline at or beyond the counter's period is therefore
    never reached: whatever the clock shows, [send_data] returns [False]
    and does nothing. *)
Theorem nav_beyond_tick_period_never_expires
        (fuel : nat) (data : list byte) (priority : string) (m : LoRaMAC) (e : World) :
  TICKS_PERIOD <= nav_until m ->
  send_data fuel data priority (mkNode m e) = Ok false (mkNode m e).
Proof.
  intros Hnav. pose proof (ticks_ms_bound e) as Ht.
  assert (Hin : _in_nav (mkNode m e) = Ok true (mkNode m e)).
  { unfold _in_nav, bind, attr, on_env, zoom, gets, ret. cbn [self env].
    destruct (ticks_ms e <? nav_until m) eqn:Hlt; [reflexivity|].
    apply Z.ltb_ge in Hlt. lia. }
  unfold send_data, bind. rewrite Hin. reflexivity.
Qed.

Lemma nav_beyond_tick_period_never_expires_witness :
  send_data 2000 hi "normal" (mkNode armed_near_wrap clear_channel) =
    Ok false (mkNode armed_near_wrap clear_channel).
Proof.
  apply (nav_beyond_tick_period_never_expires 2000 hi "normal" armed_near_wrap clear_channel).
  vm_compute. discriminate.
Defined.


End DeferralDurations.

(** ** The driver: what goes over SPI *)

Section DriverWire.

Lemma byte_val_bound (b : byte) : 0 <= byte_val b < 256.
Proof. unfold byte_val. pose proof (Byte.to_N_bounded b). lia. Qed.

Lemma _wait_busy_loop_fields (timeout : nat) (e : World) :
  _rx_buffer (_wait_busy_loop timeout e) = _rx_buffer e /\
  _valid_header_detected (_wait_busy_loop timeout e) = _valid_header_detected e /\
  spi_miso (_wait_busy_loop timeout e) = spi_miso e.
Proof.
  revert e. induction timeout as [|t IH]; intros e; simpl;
    destruct (feed (pin_busy e) (cursor (pin_busy e))); simpl; auto.
  match goal with |- context [_wait_busy_loop t ?x] => destruct (IH x) as (H1 & H2 & H3) end.
  rewrite H1, H2, H3. auto.
Qed.

Lemma wire__spi_command (cmd : Z) (params : list byte) (e : World) :
  spec (_spi_command cmd params) e
       (fun _ e' =>
          trace e' = Spi cmd params :: trace e /\
          _rx_buffer e' = _rx_buffer e /\
          _valid_header_detected e' = _valid_header_detected e /\
          spi_miso e' = spi_miso e)
       never False.
Proof.
  unfold _spi_command, _wait_busy. steps.
  destruct (_wait_busy_loop_fields 1000 e) as (A1 & A2 & A3).
  destruct (_wait_busy_loop_fields 1000 (emit (Spi cmd params) (_wait_busy_loop 1000 e)))
    as (B1 & B2 & B3).
  rewrite !_wait_busy_loop_trace. cbn [trace emit].
  rewrite _wait_busy_loop_trace, B1, B2, B3. cbn [_rx_buffer _valid_header_detected spi_miso emit].
  auto.
Qed.

Lemma three_bytes_value (v : Z) :
  ((v / 65536) mod 256) * 65536 + ((v / 256) mod 256) * 256 + v mod 256 = v mod 2 ^ 24.
Proof. change (2 ^ 24) with 16777216. Z.div_mod_to_equations. lia. Qed.

(** X12: what [start_rx] programs.  It clears the receive state of the
    driver and ends with a SET_RX command of three bytes.  For
    [timeout_ms = 0] these are [FF FF FF] (continuous); otherwise they are
    the big-endian value of [64 * timeout_ms] modulo [2^24], so a window
    of 262144 ms or more is not programmed as asked. *)
Theorem start_rx_programs_timeout (timeout_ms : Z) (e : World) :
  exists e' b0 b1 b2,
    start_rx timeout_ms e = Ok tt e' /\
    hd_error (trace e') = Some (Spi CMD_SET_RX [b0; b1; b2]) /\
    byte_val b0 * 65536 + byte_val b1 * 256 + byte_val b2 =
      (if timeout_ms =? 0 then 16777215 else (64 * timeout_ms) mod 2 ^ 24) /\
    _rx_buffer e' = None /\
    _valid_header_detected e' = false.
Proof.
  cut (spec (start_rx timeout_ms) e
            (fun _ e' =>
               exists b0 b1 b2,
                 hd_error (trace e') = Some (Spi CMD_SET_RX [b0; b1; b2]) /\
                 byte_val b0 * 65536 + byte_val b1 * 256 + byte_val b2 =
                   (if timeout_ms =? 0 then 16777215 else (64 * timeout_ms) mod 2 ^ 24) /\
                 _rx_buffer e' = None /\
                 _valid_header_detected e' = false)
            never False).
  { intros H. apply spec_total in H. destruct H as ([] & e' & Hrun & b0 & b1 & b2 & H).
    exists e', b0, b1, b2. tauto. }
  unfold start_rx. steps. unfold clear_irq. use wire__spi_command.
  intros _ e1 (_ & R1 & V1 & _). cbn in R1, V1.
  destruct (timeout_ms =? 0) eqn:Hz; use wire__spi_command;
    intros _ e2 (T2 & R2 & V2 & _).
  - exists xff, xff, xff. rewrite T2. split; [reflexivity|].
    split; [reflexivity|]. split; congruence.
  - eexists _, _, _. rewrite T2. split; [reflexivity|].
    split; [|split; congruence].
    rewrite !byte_val_low_byte. rewrite !Z.shiftr_div_pow2 by lia.
    change (2 ^ 16) with 65536. change (2 ^ 8) with 256.
    rewrite (Z.mul_comm 64 timeout_ms). apply three_bytes_value.
Qed.

Lemma spi_read_feed (length : nat) (e : World) :
  fst (spi_read length e) =
    map (fun i => feed (spi_miso e) (cursor (spi_miso e) + i)%nat) (seq 0 length) /\
  spi_miso (snd (spi_read length e)) =
    mkOracle (feed (spi_miso e)) (cursor (spi_miso e) + length)%nat /\
  _rx_buffer (snd (spi_read length e)) = _rx_buffer e /\
  _valid_header_detected (snd (spi_read length e)) = _valid_header_detected e.
Proof.
  revert e. induction length as [|k IH]; intros e.
  - simpl. rewrite Nat.add_0_r. destruct (spi_miso e). auto.
  - cbn [spi_read draw].
    match goal with |- context [spi_read k ?x] =>
      destruct (IH x) as (H1 & H2 & H3 & H4); destruct (spi_read k x) as [bs e'] end.
    cbn [fst snd spi_miso set_spi_miso feed cursor _rx_buffer _valid_header_detected] in *.
    rewrite H1, H2, H3, H4. repeat split; try reflexivity.
    + cbn [seq map]. rewrite Nat.add_0_r. f_equal.
      rewrite <- seq_shift, map_map. apply map_ext. intros i. f_equal. lia.
    + f_equal. lia.
Qed.

Lemma map_feed_is (f : nat -> byte) (l : list byte) (c : nat) :
  (forall i, (i < List.length l)%nat -> f (c + i)%nat = nth i l x00) ->
  map (fun i => f (c + i)%nat) (seq 0 (List.length l)) = l.
Proof.
  revert c. induction l as [|b l IH]; intros c H; [reflexivity|].
  cbn [List.length seq map]. f_equal.
  - rewrite (H 0%nat); [reflexivity | simpl; lia].
  - rewrite <- seq_shift, map_map. rewrite <- (IH (Datatypes.S c)) at 2.
    + apply map_ext. intros i. f_equal. lia.
    + intros i Hi. replace (Datatypes.S c + i)%nat with (c + Datatypes.S i)%nat by lia.
      rewrite (H (Datatypes.S i)); [reflexivity | simpl; lia].
Qed.

Lemma wire__spi_read (cmd : Z) (length : nat) (e : World) :
  spec (_spi_read cmd length) e
       (fun data e' =>
          data = map (fun i => feed (spi_miso e) (cursor (spi_miso e) + i)%nat)
                     (seq 0 length) /\
          spi_miso e' = mkOracle (feed (spi_miso e)) (cursor (spi_miso e) + length)%nat /\
          trace e' = Spi cmd [x00] :: trace e)
       never False.
Proof.
  unfold _spi_read, _wait_busy. steps. unfold spec.
  destruct (_wait_busy_loop_fields 1000 e) as (_ & _ & A3).
  set (e1 := emit (Spi cmd [x00]) (_wait_busy_loop 1000 e)).
  pose proof (spi_read_feed length e1) as (H1 & H2 & _).
  pose proof (spi_read_spec length e1) as [_ Ht].
  destruct (spi_read length e1) as [d e2]. subst e1.
  cbn [fst snd spi_miso trace emit] in *.
  rewrite A3 in H1, H2. rewrite _wait_busy_loop_trace in Ht. auto.
Qed.

Lemma read_packet_frame
      (e : World) (tag : byte) (data : list byte) (length_byte offset_byte : byte) :
  byte_val length_byte = len (frame tag data) ->
  (forall i, (i < 2 + List.length (frame tag data))%nat ->
             feed (spi_miso e) (cursor (spi_miso e) + i)%nat =
               nth i (length_byte :: offset_byte :: frame tag data) x00) ->
  exists e', read_packet e = Ok (Some (mkPacket (byte_val tag) data (-80) 8)) e'.
Proof.
  intros Hlen Hfeed.
  cut (spec read_packet e
            (fun pkt _ => pkt = Some (mkPacket (byte_val tag) data (-80) 8)) never False).
  { intros H. apply spec_total in H. destruct H as (pkt & e' & Hrun & ->). eauto. }
  unfold read_packet. steps. use wire__spi_read. intros st e1 (-> & M1 & _).
  cbn [seq map]. rewrite (Hfeed 0%nat), (Hfeed 1%nat) by (simpl; lia). cbn [nth].
  unfold index. cbn [nth_error]. steps. rewrite Hlen.
  unfold frame, len in *. cbn [List.length] in *.
  destruct (Z.of_nat (Datatypes.S (List.length data)) =? 0) eqn:Hz;
    [apply Z.eqb_eq in Hz; lia|].
  steps. unfold _wait_busy. steps. unfold spec at 1.
  destruct (_wait_busy_loop_fields 1000 e1) as (_ & _ & A3).
  set (e2 := emit (Spi CMD_READ_BUFFER [offset_byte; x00]) (_wait_busy_loop 1000 e1)).
  pose proof (spi_read_feed (Z.to_nat (Z.of_nat (Datatypes.S (List.length data)))) e2)
    as (H1 & _).
  destruct (spi_read _ e2) as [d e3]. subst e2. cbn [fst spi_miso emit] in H1.
  rewrite A3, M1, Nat2Z.id in H1. cbn [feed cursor] in H1.
  assert (Hd : d = tag :: data).
  { rewrite H1. change (Datatypes.S (List.length data)) with (List.length (tag :: data)).
    apply map_feed_is. intros i Hi.
    replace (cursor (spi_miso e) + 2 + i)%nat with (cursor (spi_miso e) + (2 + i))%nat by lia.
    rewrite Hfeed; [reflexivity | cbn [List.length] in *; lia]. }
  clear H1. subst d. cbn [nth_error tl]. steps. use spec_clear_irq. intros _ e4 _. steps. reflexivity.
Qed.

(** X13: [read_packet] undoes the framing of [send_packet].  When the
    chip reports a buffer of [1 + len(data)] bytes and then returns the
    type tag followed by [data], the packet read has that tag as its type
    and exactly [data] as its payload (with the fixed RSSI -80 and SNR 8):
    nothing of the frame is lost or added. *)
Theorem read_packet_returns_frame
        (e : World) (tag : byte) (data : list byte) (length_byte offset_byte : byte) :
  byte_val length_byte = len (frame tag data) ->
  (forall i, (i < 2 + List.length (frame tag data))%nat ->
             feed (spi_miso e) (cursor (spi_miso e) + i)%nat =
               nth i (length_byte :: offset_byte :: frame tag data) x00) ->
  exists e', read_packet e = Ok (Some (mkPacket (byte_val tag) data (-80) 8)) e'.
Proof. apply read_packet_frame. Qed.

Lemma read_packet_returns_frame_witness :
  exists e', read_packet frame_in_buffer = Ok (Some (mkPacket (byte_val x02) hi (-80) 8)) e'.
Proof.
  apply (read_packet_returns_frame frame_in_buffer x02 hi x03 x00).
  - reflexivity.
  - intros i Hi. do 5 (destruct i as [|i]; [reflexivity|]). simpl in Hi. lia.
Defined.

(** X14: [read_packet] on an empty buffer.  When the chip reports a
    length of zero the result is [None], and the buffer-status query (its
    command byte and the NOP byte) is all that was written to the chip:
    the buffer is not read and the IRQ status is not cleared, so RxDone
    stays raised for the next poll. *)
Theorem read_packet_empty_buffer (e : World) :
  feed (spi_miso e) (cursor (spi_miso e)) = x00 ->
  exists e',
    read_packet e = Ok None e' /\
    trace e' = Spi CMD_GET_RX_BUFFER_STATUS [x00] :: trace e.
Proof.
  intros Hzero.
  cut (spec read_packet e
            (fun pkt e' => pkt = None /\
                           trace e' = Spi CMD_GET_RX_BUFFER_STATUS [x00] :: trace e)
            never False).
  { intros H. apply spec_total in H. destruct H as (pkt & e' & Hrun & -> & Ht). eauto. }
  unfold read_packet. steps. use wire__spi_read. intros st e1 (-> & _ & T1).
  cbn [seq map]. rewrite Nat.add_0_r, Hzero.
  unfold index. cbn [nth_error]. steps. split; [reflexivity | exact T1].
Qed.

Lemma read_packet_empty_buffer_witness :
  exists e',
    read_packet silent_world = Ok None e' /\
    trace e' = Spi CMD_GET_RX_BUFFER_STATUS [x00] :: trace silent_world.
Proof.
  apply (read_packet_empty_buffer silent_world). reflexivity.
Defined.

Lemma irq_status_at_next (e e1 : World) (k : nat) :
  spi_miso e1 = mkOracle (feed (spi_miso e)) (cursor (spi_miso e) + 2)%nat ->
  irq_status_at e1 k = irq_status_at e (Datatypes.S k).
Proof.
  intros H. unfold irq_status_at. rewrite H. cbn [feed cursor].
  f_equal; [f_equal|]; f_equal; f_equal; lia.
Qed.

Lemma wire__get_irq_status (e : World) :
  spec _get_irq_status e
       (fun irq_status e' =>
          irq_status = irq_status_at e 0 /\
          spi_miso e' = mkOracle (feed (spi_miso e)) (cursor (spi_miso e) + 2)%nat)
       never False.
Proof.
  unfold _get_irq_status. steps. use wire__spi_read. intros data e1 (-> & M1 & _).
  cbn [seq map]. unfold index. cbn [nth_error]. steps.
  split; [|exact M1]. unfold irq_status_at.
  rewrite Nat.mul_0_r, !Nat.add_0_r. reflexivity.
Qed.

(** The polls of [send_packet]: every status read before the last had
    TxDone clear, and the result is the TxDone flag of the last one. *)
Lemma polls_tx_wait (fuel : nat) (start : Z) (e : World) :
  spec (tx_wait fuel start) e
       (fun sent e' =>
          exists polls,
            spi_miso e' =
              mkOracle (feed (spi_miso e)) (cursor (spi_miso e) + 2 * polls)%nat /\
            (forall k, (k + 1 < polls)%nat ->
                       flag_set (irq_status_at e k) IRQ_TX_DONE = false) /\
            match polls with
            | O => sent = false
            | Datatypes.S j => sent = flag_set (irq_status_at e j) IRQ_TX_DONE
            end /\
            (ticks_diff (ticks_ms e) start < 10000 -> (1 <= polls)%nat))
       never True.
Proof.
  revert e. induction fuel as [|fuel IH]; intros e; [exact I|].
  cbn [tx_wait]. steps.
  destruct (ticks_diff (ticks_ms e) start <? 10000) eqn:Htest.
  - steps. use wire__get_irq_status. intros irq e1 (-> & M1).
    destruct (flag_set (irq_status_at e 0) IRQ_TX_DONE) eqn:Hflag.
    + steps. unfold clear_irq. use wire__spi_command. intros _ e2 (_ & _ & _ & M2). steps.
      exists 1%nat. rewrite M2, M1. split; [reflexivity|].
      split; [intros k Hk; lia|]. split; [symmetry; exact Hflag | lia].
    + steps. use IH. intros sent e2 (polls & M2 & Hbefore & Hlast & _).
      assert (Hshift : forall k, irq_status_at (sleep_ms 10 e1) k
                                 = irq_status_at e (Datatypes.S k)).
      { intros k. apply irq_status_at_next. exact M1. }
      exists (Datatypes.S polls). split.
      { rewrite M2. cbn [spi_miso sleep_ms set_clock]. rewrite M1. cbn [feed cursor].
        f_equal. lia. }
      split.
      { intros [|k] Hk; [exact Hflag|]. rewrite <- Hshift. apply Hbefore. lia. }
      split; [|lia].
      destruct polls as [|j]; [rewrite Hlast, Hflag; reflexivity|].
      rewrite <- Hshift. exact Hlast.
  - steps. exists 0%nat. rewrite Nat.mul_0_r, Nat.add_0_r.
    split; [cbn [spi_miso emit]; destruct (spi_miso e); reflexivity|].
    split; [intros k Hk; lia|]. split; [reflexivity|].
    apply Z.ltb_ge in Htest. lia.
Qed.

Lemma ticks_diff_same (t : Z) : ticks_diff t t = 0.
Proof.
  unfold ticks_diff. rewrite Z.sub_diag, Z.add_0_l.
  rewrite Z.mod_small; [lia|]. unfold TICKS_PERIOD. change (2 ^ 30 / 2) with 536870912. lia.
Qed.

Lemma polls_send_packet (fuel : nat) (data : list byte) (pkt_type : Z) (e : World) :
  spec (send_packet fuel data pkt_type) e
       (fun sent e' =>
          exists polls,
            (1 <= polls)%nat /\
            cursor (spi_miso e') = (cursor (spi_miso e) + 2 * polls)%nat /\
            (forall k, (k + 1 < polls)%nat ->
                       flag_set (irq_status_at e k) IRQ_TX_DONE = false) /\
            sent = flag_set (irq_status_at e (polls - 1)) IRQ_TX_DONE)
       (fun _ _ => True) True.
Proof.
  unfold send_packet. steps. apply spec_bytes; [|exact (fun _ => I)].
  intros bs _. steps. use wire__spi_command. intros _ e1 (_ & _ & _ & M1).
  steps. unfold clear_irq. use wire__spi_command. intros _ e2 (_ & _ & _ & M2).
  steps. use wire__spi_command. intros _ e3 (_ & _ & _ & M3).
  steps. use polls_tx_wait. intros sent e4 (polls & M4 & Hbefore & Hlast & Hfirst).
  assert (Hsame : forall k, irq_status_at e3 k = irq_status_at e k).
  { intros k. unfold irq_status_at. rewrite M3, M2, M1. reflexivity. }
  specialize (Hfirst ltac:(rewrite ticks_diff_same; lia)).
  exists polls. split; [exact Hfirst|]. split.
  { rewrite M4. cbn [cursor]. rewrite M3, M2, M1. reflexivity. }
  split.
  { intros k Hk. rewrite <- Hsame. apply Hbefore. exact Hk. }
  destruct polls as [|j]; [lia|].
  replace (Datatypes.S j - 1)%nat with j by lia. rewrite <- Hsame. exact Hlast.
Qed.

(** X2: [send_packet] always returns.  With fuel for its 1001 status
    polls it neither raises nor runs on, and it returns within 19.01 s
    (BUSY waits included).  It polls the IRQ status at least once; every
    status read before the last had TxDone clear, and the result is the
    TxDone flag of the last one: [True] on TxDone, [False] when the last
    poll before the timeout still shows it clear, which takes at least
    ten seconds and is reported on the console.  The frame handed to the
    chip is the type tag followed by the data. *)
Theorem send_packet_returns (fuel : nat) (data : list byte) (tag : byte) (e : World) :
  (1001 <= fuel)%nat ->
  exists sent e' polls,
    send_packet fuel data (byte_val tag) e = Ok sent e' /\
    snd (air (trace e')) = frame tag data :: snd (air (trace e)) /\
    clock e <= clock e' <= clock e + 19010 /\
    (sent = false <-> tx_timed_out e') /\
    (sent = false -> clock e + 10000 <= clock e') /\
    (1 <= polls)%nat /\
    cursor (spi_miso e') = (cursor (spi_miso e) + 2 * polls)%nat /\
    (forall k, (k + 1 < polls)%nat ->
               flag_set (irq_status_at e k) IRQ_TX_DONE = false) /\
    sent = flag_set (irq_status_at e (polls - 1)) IRQ_TX_DONE.
Proof.
  intros Hfuel.
  assert (Htag : byte_of_int (byte_val tag) = Some tag).
  { unfold byte_of_int, byte_val.
    destruct (Z.of_N (Byte.to_N tag) <? 0) eqn:Hneg; [apply Z.ltb_lt in Hneg; lia|].
    rewrite N2Z.id. apply Byte.of_to_N. }
  cut (spec (send_packet fuel data (byte_val tag)) e
            (fun sent e' =>
               clock e <= clock e' <= clock e + 19010 /\
               (sent = false -> clock e + 10000 <= clock e'))
            never False).
  { intros Hspec. pose proof (spec_send_packet fuel data _ tag e Htag) as Hair.
    pose proof (spec_send_packet_last fuel data (byte_val tag) e) as Hlast.
    pose proof (polls_send_packet fuel data (byte_val tag) e) as Hpolls.
    unfold spec, never in *.
    destruct (send_packet fuel data (byte_val tag) e) as [sent e'| |]; [|tauto|tauto].
    destruct Hpolls as (polls & Hp1 & Hp2 & Hp3 & Hp4).
    exists sent, e', polls. tauto. }
  unfold send_packet. steps. apply spec_bytes.
  2:{ simpl. rewrite Htag. discriminate. }
  intros bs _. steps. use adv__spi_command. intros _ e1 [H1 _].
  steps. use adv_clear_irq. intros _ e2 [H2 _].
  steps. use adv__spi_command. intros _ e3 [H3 _].
  steps. unfold ticks_ms. use (tx_wait_terminates fuel (clock e3) e3); try lia.
  intros sent e4 (H4 & _ & Hs). split; [lia|]. intros Hf. specialize (Hs Hf). lia.
Qed.

Lemma send_packet_returns_witness :
  exists sent e' polls,
    send_packet 1001 hi (byte_val x02) clear_channel = Ok sent e' /\
    snd (air (trace e')) = frame x02 hi :: snd (air (trace clear_channel)) /\
    clock clear_channel <= clock e' <= clock clear_channel + 19010 /\
    (sent = false <-> tx_timed_out e') /\
    (sent = false -> clock clear_channel + 10000 <= clock e') /\
    (1 <= polls)%nat /\
    cursor (spi_miso e') = (cursor (spi_miso clear_channel) + 2 * polls)%nat /\
    (forall k, (k + 1 < polls)%nat ->
               flag_set (irq_status_at clear_channel k) IRQ_TX_DONE = false) /\
    sent = flag_set (irq_status_at clear_channel (polls - 1)) IRQ_TX_DONE.
Proof.
  apply (send_packet_returns 1001 hi x02 clear_channel). lia.
Defined.

Lemma wire__spi_command_ints (cmd : Z) (params : list Z) (e : World) :
  spec (_spi_command_ints cmd params) e
       (fun _ e' => exists bs, bytes_of_ints params = Some bs /\
                               trace e' = Spi cmd bs :: trace e)
       (fun x e' => x = ValueError /\ bytes_of_ints params = None /\
                    trace e' = Spi cmd [] :: trace e)
       False.
Proof.
  unfold _spi_command_ints, _wait_busy. steps.
  destruct (bytes_of_ints params) as [bs|]; steps.
  - exists bs. rewrite !_wait_busy_loop_trace. cbn [trace emit].
    rewrite _wait_busy_loop_trace. auto.
  - cbn [trace emit]. rewrite _wait_busy_loop_trace. auto.
Qed.

(** X15: [set_tx_power] accepts any argument.  It stores the power
    clamped to 0..22, sends it as the first parameter byte of
    SET_TX_PARAMS with ramp byte 4, changes no other setting, and never
    raises. *)
Theorem set_tx_power_clamps (power_dbm : Z) (d : Device) :
  exists d' b,
    set_tx_power power_dbm d = Ok tt d' /\
    0 <= lora_hal.tx_power (radio d') <= 22 /\
    (0 <= power_dbm <= 22 -> lora_hal.tx_power (radio d') = power_dbm) /\
    byte_val b = lora_hal.tx_power (radio d') /\
    trace (world d') = Spi CMD_SET_TX_PARAMS [b; x04] :: trace (world d) /\
    lora_hal.freq_mhz (radio d') = lora_hal.freq_mhz (radio d) /\
    sf (radio d') = sf (radio d) /\ bw (radio d') = bw (radio d).
Proof.
  destruct d as [r e].
  set (pw := Z.max 0 (Z.min 22 power_dbm)).
  assert (Hpw : 0 <= pw <= 22) by (unfold pw; lia).
  destruct (byte_of_int_Some pw ltac:(lia)) as (b & Hb & Hv).
  cut (spec (set_tx_power power_dbm) (mkDevice r e)
            (fun _ d' =>
               radio d' = mkLoRaRadio (lora_hal.freq_mhz r) (sf r) (bw r) pw /\
               trace (world d') = Spi CMD_SET_TX_PARAMS [b; x04] :: trace e)
            never False).
  { intros H. apply spec_total in H. destruct H as ([] & d' & Hrun & Hr & Ht).
    exists d', b. rewrite Hr. cbn. split; [exact Hrun|]. split; [exact Hpw|].
    split; [unfold pw; lia|]. auto. }
  unfold set_tx_power. fold pw. steps. unfold on_world. apply spec_zoom. cbn [world radio].
  use wire__spi_command_ints.
  - intros _ e' (bs & Hbs & Ht). cbn [bytes_of_ints] in Hbs. rewrite Hb in Hbs.
    cbn in Hbs. injection Hbs as <-. cbn [radio world]. auto.
  - unfold never. intros x e' (_ & Hnone & _). cbn [bytes_of_ints] in Hnone.
    rewrite Hb in Hnone. discriminate.
Qed.

Lemma byte_of_masked (v : Z) :
  exists b, byte_of_int (Z.land v 0xFF) = Some b /\ byte_val b = v mod 256.
Proof.
  change 0xFF with (Z.ones 8). rewrite Z.land_ones by lia. change (2 ^ 8) with 256.
  apply byte_of_int_Some. pose proof (Z.mod_pos_bound v 256 ltac:(lia)). lia.
Qed.

Lemma four_bytes_value (v : Z) :
  ((v / 16777216) mod 256) * 16777216 + ((v / 65536) mod 256) * 65536
  + ((v / 256) mod 256) * 256 + v mod 256 = v mod 2 ^ 32.
Proof. change (2 ^ 32) with 4294967296. Z.div_mod_to_equations. lia. Qed.

Lemma configure_prefix (d : Device) :
  exists b3 b2 b1 b0,
    let freq_int := int ((lora_hal.freq_mhz (radio d) * 1000000) / 61.03515625) in
    bytes_of_ints [Z.land (Z.shiftr freq_int 24) 0xFF; Z.land (Z.shiftr freq_int 16) 0xFF;
                   Z.land (Z.shiftr freq_int 8) 0xFF; Z.land freq_int 0xFF]
      = Some [b3; b2; b1; b0] /\
    byte_val b3 * 16777216 + byte_val b2 * 65536 + byte_val b1 * 256 + byte_val b0
      = freq_int mod 2 ^ 32.
Proof.
  set (f := int ((lora_hal.freq_mhz (radio d) * 1000000) / 61.03515625)).
  destruct (byte_of_masked (Z.shiftr f 24)) as (b3 & H3 & V3).
  destruct (byte_of_masked (Z.shiftr f 16)) as (b2 & H2 & V2).
  destruct (byte_of_masked (Z.shiftr f 8)) as (b1 & H1 & V1).
  destruct (byte_of_masked f) as (b0 & H0 & V0).
  exists b3, b2, b1, b0. cbv zeta. split.
  - cbn [bytes_of_ints]. rewrite H3, H2, H1, H0. reflexivity.
  - rewrite V3, V2, V1, V0. rewrite !Z.shiftr_div_pow2 by lia.
    change (2 ^ 24) with 16777216. change (2 ^ 16) with 65536. change (2 ^ 8) with 256.
    apply four_bytes_value.
Qed.


End DriverWire.

(** ** The RTS frame from sender to receiver *)

Section RoundTrip.

Lemma int_scale_le (n : Z) (q : Q) :
  0 <= n -> (0 <= q)%Q -> (q <= 1)%Q -> int (inject_Z n * q) <= n.
Proof.
  intros Hn Hq0 Hq1. unfold int. destruct q as [qn qd]. unfold Qle in *. simpl in *.
  apply Z.quot_le_upper_bound; [lia | nia].
Qed.

(** What [_enter_nav_from_rts] makes of a packet whose fifth payload byte
    is [L]: it fails only where [randint] does. *)
Lemma decode__enter_nav_from_rts (rts_packet : Packet) (L : byte) (n : Node) :
  nth_error (payload rts_packet) 4 = Some L ->
  spec (_enter_nav_from_rts rts_packet) n
       (fun _ n' => nav_armed_for (byte_val L) n n')
       (fun x _ => x = ValueError)
       False.
Proof.
  intros HL. destruct n as [m e]. unfold nav_armed_for. cbn [self env].
  unfold _enter_nav_from_rts. step. unfold index. rewrite HL. steps.
  use spec_draw_prime_offset_in. intros prime [m1 e1] (Hprime & Hs1 & Ht1 & Hc1).
  cbn [self env] in *. subst m1.
  set (base := phase1_duration m + w m * difs m + _calculate_toa (byte_val L) + prime).
  steps. use spec_randint.
  2:{ intros x e' (-> & _). reflexivity. }
  intros jitter e2 (Hj & Ht2 & Hc2). steps.
  use spec_exponential_backoff_range. intros d n3 (-> & Hk0 & Hd). steps.
  cbn [nav_until set_stats set_phase set_nav_until set_consecutive_navs
       consecutive_navs phase].
  exists prime, jitter. split; [exact Hprime|]. fold base.
  assert (Hnow : ticks_ms e2 = ticks_ms e) by (unfold ticks_ms; congruence).
  split.
  { intros Hb. split.
    - assert (0 <= int (inject_Z base * 0.05)).
      { apply int_scale_nonneg; [exact Hb|]. unfold Qle; simpl; lia. }
      lia.
    - assert (int (inject_Z base * 0.15) <= base).
      { apply int_scale_le; [exact Hb | |]; unfold Qle; simpl; lia. }
      lia. }
  split; [intros _; exact Hj|].
  split; [intros Hb; specialize (Hd Hb); lia|].
  split; [intros Hk; rewrite (Hk0 Hk); lia|].
  split; reflexivity.
Qed.



End RoundTrip.

(** ** Configuration records *)

Section Configuration.

(** X17: [to_dict] and [Config.from_dict] are inverse to each other on
    the entries they share.  [from_dict] rebuilds from [to_dict(c)] a
    configuration equal to [c].  It succeeds exactly on the dicts that
    hold all three sections and all eleven keys, whatever else they hold,
    and the configuration it returns has the values found under those
    keys: a missing key is a [KeyError], never a default, and other keys
    are ignored. *)
Theorem config_dict_round_trip (c : MACConfig) (config_dict : ConfigDict) :
  from_dict (to_dict c) = inr c /\
  (from_dict config_dict = inr c <-> known_entries config_dict = to_dict c).
Proof.
  assert (Hrt : forall c0, from_dict (to_dict c0) = inr c0) by (intros []; reflexivity).
  split; [apply Hrt|]. split.
  - destruct config_dict as [[[[p0|] [w0|] [d0|] [u0|] mk]|]
                             [[[f0|] [s0|] [b0|] [t0|] [r0|] rk]|]
                             [[[n0|] [h0|] ak]|] ok];
      cbn; intros H; try discriminate.
    injection H as <-. reflexivity.
  - destruct config_dict as [[[[p0|] [w0|] [d0|] [u0|] mk]|]
                             [[[f0|] [s0|] [b0|] [t0|] [r0|] rk]|]
                             [[[n0|] [h0|] ak]|] ok];
      unfold known_entries, to_dict; cbn; intros H; try discriminate.
    destruct c. cbn in H. injection H as -> -> -> -> -> -> -> -> -> -> ->. reflexivity.
Qed.

(** A dict with a fourth section and an unread key in the MAC section is
    read like the [to_dict] of the default configuration. *)
Lemma from_dict_ignores_other_keys :
  exists c,
    MACConfig_init no_kwargs tt = Ok c tt /\
    from_dict annotated_dict = inr c /\
    annotated_dict <> to_dict c.
Proof.
  eexists. split; [reflexivity|]. split; [reflexivity|]. discriminate.
Qed.

Lemma preset_dense (node_count : Z) :
  exists cfg mac,
    for_dense_deployment node_count tt = Ok cfg tt /\
    LoRaMAC_init cfg tt = Ok mac tt /\
    timing_ok mac /\ (0 < p mac)%Q /\ (p mac <= 1)%Q /\
    400 <= phase1_duration mac <= 9786.
Proof.
  unfold for_dense_deployment.
  destruct (node_count <=? 50); [|destruct (node_count <=? 200)];
    (eexists; eexists; split; [reflexivity|]; split; [reflexivity|];
     unfold timing_ok; cbn; repeat split; (lia || reflexivity || discriminate)).
Qed.

(** X18: every preset of [Config] is a configuration of the data model.
    The MAC built from [for_dense_deployment] (for any node count),
    [for_testing], [for_long_range] or [for_low_power] has [W >= 0],
    [difs > 0], [0 < P <= 1] and a listening window between 400 and
    9786 ms. *)
Theorem presets_are_valid (preset : M unit MACConfig) :
  (exists node_count, preset = for_dense_deployment node_count) \/
  In preset [for_testing; for_long_range; for_low_power] ->
  exists cfg mac,
    preset tt = Ok cfg tt /\
    LoRaMAC_init cfg tt = Ok mac tt /\
    timing_ok mac /\ (0 < p mac)%Q /\ (p mac <= 1)%Q /\
    400 <= phase1_duration mac <= 9786.
Proof.
  intros [[node_count ->] | Hin]; [apply preset_dense|].
  destruct Hin as [<- | [<- | [<- | []]]];
    (eexists; eexists; split; [reflexivity|]; split; [reflexivity|];
     unfold timing_ok; cbn; repeat split; (lia || reflexivity || discriminate)).
Qed.

Lemma presets_are_valid_witness :
  exists cfg mac,
    for_dense_deployment 500 tt = Ok cfg tt /\
    LoRaMAC_init cfg tt = Ok mac tt /\
    timing_ok mac /\ (0 < p mac)%Q /\ (p mac <= 1)%Q /\
    400 <= phase1_duration mac <= 9786.
Proof.
  apply (presets_are_valid (for_dense_deployment 500)).
  left. exists 500. reflexivity.
Defined.

End Configuration.

(** ** What a deferred send leaves on the air *)

Section DeferredSends.

(** X19: a [send_data] that returns [False] has sent no DATA frame.
    During the call either nothing went on the air, or exactly one frame,
    the RTS built for [len(data)]; [tx_data] is unchanged either way. *)
Theorem deferred_sends_no_data
        (fuel : nat) (data : list byte) (priority : string) (n n' : Node) :
  send_data fuel data priority n = Ok false n' ->
  tx_data (stats (self n')) = tx_data (stats (self n)) /\
  (frames_sent (env n') = frames_sent (env n) \/
   exists rts, rts_payload (len data) = Some rts /\
               frames_sent (env n') = frames_sent (env n) ++ [frame x01 rts]).
Proof.
  intros Hrun.
  pose proof (spec_Ok _ _ _ _ _ _ _ (spec_send_data fuel data priority n) Hrun) as H.
  cbv beta iota in H. destruct H as [(Ha & _ & Hd) | (rts & Hp & Ha & _ & Hd & _)].
  - split; [exact Hd|]. left. unfold frames_sent. rewrite Ha. reflexivity.
  - split; [exact Hd|]. right. exists rts. split; [exact Hp|].
    apply (frames_sent_app _ _ [frame x01 rts]). exact Ha.
Qed.

Lemma deferred_sends_no_data_witness :
  tx_data (stats (self (state_of (send_data 2000 hi "normal" (low_power_node competing_rts))
                                 (low_power_node competing_rts)))) =
    tx_data (stats (self (low_power_node competing_rts))) /\
  (frames_sent (env (state_of (send_data 2000 hi "normal" (low_power_node competing_rts))
                              (low_power_node competing_rts))) =
     frames_sent (env (low_power_node competing_rts)) \/
   exists rts, rts_payload (len hi) = Some rts /\
     frames_sent (env (state_of (send_data 2000 hi "normal" (low_power_node competing_rts))
                                (low_power_node competing_rts))) =
       frames_sent (env (low_power_node competing_rts)) ++ [frame x01 rts]).
Proof.
  apply (deferred_sends_no_data 2000 hi "normal" (low_power_node competing_rts)).
  vm_compute. reflexivity.
Defined.

End DeferredSends.

(** ** A deferral holds off the next call *)

Section Retry.

Ltac pass L := use L; try solve [intros; exact I].

Lemma pending__enter_nav_from_rts (rts_packet : Packet) (n : Node) :
  timing_ok (self n) ->
  spec (_enter_nav_from_rts rts_packet) n
       (fun _ n' => ticks_ms (env n') < nav_until (self n'))
       (fun _ _ => True) False.
Proof.
  destruct n as [m e]. cbn [self env]. intros (Hw & Hdifs & Hrts & Hp1).
  assert (Hslots : 0 <= w m * difs m) by nia.
  assert (Htoa5 : _calculate_toa 5 = 586) by reflexivity.
  unfold _enter_nav_from_rts. step. unfold index.
  destruct (nth_error (payload rts_packet) 4) as [L|]; [|step; exact I].
  assert (Htoa : 401 <= _calculate_toa (byte_val L)) by (unfold _calculate_toa, byte_val; lia).
  steps.
  use spec_draw_prime_offset. intros prime [m1 e1] (Hs1 & Ht1 & Hc1 & Hprime).
  cbn [self env] in *. subst m1.
  set (base := phase1_duration m + w m * difs m + _calculate_toa (byte_val L) + prime).
  assert (Hbase : 0 < base) by (unfold base; lia).
  steps. pass spec_randint.
  intros jitter e2 (Hj & Ht2 & Hc2).
  assert (Hjitter : 0 <= jitter).
  { assert (0 <= int (inject_Z base * 0.05)).
    { apply int_scale_nonneg; [lia|]. unfold Qle; simpl; lia. }
    lia. }
  steps. use spec_exponential_backoff_range. intros d n3 (-> & _ & Hd). steps.
  cbn [nav_until set_stats set_phase set_nav_until set_consecutive_navs].
  specialize (Hd ltac:(lia)). lia.
Qed.

Lemma pending__enter_nav_random (n : Node) :
  spec _enter_nav_random n
       (fun _ n' => ticks_ms (env n') < nav_until (self n'))
       (fun _ _ => True) False.
Proof.
  destruct (enter_nav_random_range n) as (d & n' & Hrun & Hs & Hc & Hd & _).
  unfold spec. rewrite Hrun. rewrite Hs. unfold ticks_ms. rewrite Hc.
  unfold armed. cbn [nav_until set_stats set_phase set_nav_until set_consecutive_navs].
  unfold ticks_ms. lia.
Qed.

Lemma pending__defer_random (n : Node) :
  timing_ok (self n) ->
  spec _defer_random n
       (fun _ n' => ticks_ms (env n') < nav_until (self n'))
       (fun _ _ => True) False.
Proof.
  intros Hok. pose proof (phase1_duration_pos _ Hok) as Hp1.
  destruct (defer_random_range n Hok) as (d & n' & Hrun & Hs & Hc & Hd & _).
  unfold spec. rewrite Hrun. rewrite Hs. unfold ticks_ms. rewrite Hc.
  unfold armed. cbn [nav_until set_stats set_phase set_nav_until set_consecutive_navs].
  unfold ticks_ms. lia.
Qed.

Lemma pending_listen_poll (poll_interval idle_count : Z) (n : Node) :
  timing_ok (self n) ->
  spec (listen_poll poll_interval idle_count) n
       (fun r n' =>
          match r with
          | inl _ => ticks_ms (env n') < nav_until (self n')
          | inr _ => self n' = self n
          end)
       (fun _ _ => True) False.
Proof.
  destruct n as [m e]. cbn [self env]. intros Hok.
  unfold listen_poll. steps. use adv_rx_done. intros done e1 _.
  destruct done; [|steps; reflexivity].
  steps. use adv_read_packet. intros pkt e2 _.
  destruct pkt as [pk|]; [|steps; reflexivity].
  destruct (type pk =? PKT_TYPE_RTS).
  - steps. pass pending__enter_nav_from_rts; [exact Hok|].
    intros _ n3 H3. steps. exact H3.
  - destruct (type pk =? PKT_TYPE_DATA); [|steps; reflexivity].
    steps. cbn [_on_receive_callback set_stats].
    destruct (_on_receive_callback m); steps;
      (pass pending__enter_nav_random; intros _ n3 H3; steps; exact H3).
Qed.

Lemma pending_listen_loop
      (fuel : nat) (start duration poll_interval idle_count : Z) (n : Node) :
  timing_ok (self n) ->
  spec (listen_loop fuel start duration poll_interval idle_count) n
       (fun r n' =>
          match r with
          | Some _ => ticks_ms (env n') < nav_until (self n')
          | None => self n' = self n
          end)
       (fun _ _ => True) True.
Proof.
  revert poll_interval idle_count n.
  induction fuel as [|fuel IH]; intros poll_interval idle_count [m e] Hok; [exact I|].
  cbn [self env] in *. cbn [listen_loop]. steps.
  destruct (ticks_diff (ticks_ms e) start <? duration); [|steps; reflexivity].
  steps. pass (pending_listen_poll poll_interval idle_count (mkNode m e) Hok).
  intros r [m1 e1] Hr. cbn [self env] in *. destruct r as [b | [poll' idle']].
  - steps. exact Hr.
  - subst m1. steps. pass IH; [exact Hok|].
    intros r n2 Hr2. exact Hr2.
Qed.

Lemma pending__phase2_send_rts (fuel : nat) (pending_data : list byte) (n : Node) :
  timing_ok (self n) ->
  spec (_phase2_send_rts fuel pending_data) n
       (fun b n' => b = false -> ticks_ms (env n') < nav_until (self n'))
       (fun _ _ => True) True.
Proof.
  destruct n as [m e]. cbn [self env]. intros Hok.
  unfold _phase2_send_rts. steps. pass spec_draw_backoff.
  intros backoff [m1 e1] [Hs1 _]. cbn [self env] in *. subst m1. steps.
  apply spec_bytearray.
  set (rts := map low_byte [0xCA; 0xFE; 0xBA; 0xBE; len pending_data]). clearbody rts.
  steps.
  pass (spec_send_packet fuel rts PKT_TYPE_RTS x01); [reflexivity|].
  intros _ e2 _. steps. use spec_start_rx. intros _ e3 _. steps.
  pass pending_listen_loop; [exact Hok|].
  intros r [m4 e4] Hr. cbn [self env] in *. destruct r as [b|].
  - steps. intros _. exact Hr.
  - pass spec__phase3_send_data.
    intros b n5 (-> & _). discriminate.
Qed.

Lemma pending__phase1_listen_rts (fuel : nat) (pending_data : list byte) (n : Node) :
  timing_ok (self n) ->
  spec (_phase1_listen_rts fuel pending_data) n
       (fun b n' => b = false -> ticks_ms (env n') < nav_until (self n'))
       (fun _ _ => True) True.
Proof.
  destruct n as [m e]. cbn [self env]. intros Hok.
  unfold _phase1_listen_rts. steps. use spec_start_rx. intros _ e1 _. steps.
  pass pending_listen_loop; [exact Hok|].
  intros r [m2 e2] Hr. cbn [self env] in *. destruct r as [b|].
  - steps. intros _. exact Hr.
  - subst m2. pass pending__phase2_send_rts; [exact Hok|].
    intros b n3 H3. exact H3.
Qed.

Lemma pending_send_data (fuel : nat) (data : list byte) (priority : string) (n : Node) :
  timing_ok (self n) ->
  spec (send_data fuel data priority) n
       (fun b n' => b = false -> ticks_ms (env n') < nav_until (self n'))
       (fun _ _ => True) True.
Proof.
  destruct n as [m e]. cbn [self env]. intros Hok.
  unfold send_data. step. unfold _in_nav. steps.
  destruct (ticks_ms e <? nav_until m) eqn:Hnav.
  { steps. intros _. apply Z.ltb_lt. exact Hnav. }
  steps.
  assert (Hcad : spec (if use_cad (config m) then on_env (cad fuel) else ret false)
                      (mkNode m e)
                      (fun _ n' => self n' = m) (fun _ _ => True) True).
  { destruct (use_cad (config m)); steps; [|reflexivity].
    pass spec_cad. intros b e1 _. reflexivity. }
  pass Hcad. clear Hcad. intros busy [m1 e1] Hs1. cbn [self env] in *. subst m1.
  destruct busy.
  - steps. pass pending__defer_random; [exact Hok|].
    intros _ n2 H2. steps. intros _. exact H2.
  - steps.
    assert (Hcoin : spec (if (priority =? "high")%string then ret true
                          else r <- on_env random ;; ret (Qltb r (p m)))
                         (mkNode m e1)
                         (fun _ n' => self n' = m) (fun _ _ => True) True).
    { destruct (priority =? "high")%string; steps; reflexivity. }
    pass Hcoin. clear Hcoin. intros direct [m2 e2] Hs2. cbn [self env] in *. subst m2.
    destruct direct.
    + pass pending__phase2_send_rts; [exact Hok|].
      intros b n3 H3. exact H3.
    + pass pending__phase1_listen_rts; [exact Hok|].
      intros b n3 H3. exact H3.
Qed.

(** X21: a deferral holds off the next call.  For a MAC set up from a
    configuration of the data model, a [send_data] that returns [False]
    returns inside a NAV period ([nav_until] is later than the tick count
    at return), so a [send_data] called again at once, with whatever
    arguments, returns [False] and does nothing. *)
Theorem deferred_send_blocks_retry
        (fuel fuel' : nat) (data data' : list byte) (priority priority' : string)
        (n n' : Node) :
  timing_ok (self n) ->
  send_data fuel data priority n = Ok false n' ->
  ticks_ms (env n') < nav_until (self n') /\
  send_data fuel' data' priority' n' = Ok false n'.
Proof.
  intros Hok Hrun.
  pose proof (spec_Ok _ _ _ _ _ _ _ (pending_send_data fuel data priority n Hok) Hrun) as H.
  cbv beta in H. specialize (H eq_refl). split; [exact H|].
  destruct n' as [m' e']. cbn [self env] in *.
  assert (Hin : _in_nav (mkNode m' e') = Ok true (mkNode m' e')).
  { unfold _in_nav, bind, attr, on_env, zoom, gets, ret. cbn [self env].
    apply Z.ltb_lt in H. rewrite H. reflexivity. }
  unfold send_data, bind. rewrite Hin. reflexivity.
Qed.

Lemma deferred_send_blocks_retry_witness :
  ticks_ms (env (state_of (send_data 2000 hi "normal" (idle_node busy_channel))
                          (idle_node busy_channel)))
    < nav_until (self (state_of (send_data 2000 hi "normal" (idle_node busy_channel))
                                (idle_node busy_channel))) /\
  send_data 0 (payload_of 300) "high"
            (state_of (send_data 2000 hi "normal" (idle_node busy_channel))
                      (idle_node busy_channel)) =
    Ok false (state_of (send_data 2000 hi "normal" (idle_node busy_channel))
                       (idle_node busy_channel)).
Proof.
  apply (deferred_send_blocks_retry 2000 0 hi (payload_of 300) "normal" "high"
           (idle_node busy_channel)).
  - split; [vm_compute; discriminate|]. split; [vm_compute; reflexivity|].
    split; vm_compute; reflexivity.
  - vm_compute. reflexivity.
Defined.

End Retry.

(** ** Exceptions *)

Section Exceptions.

Ltac pass L := use L; try solve [intros; exact I].

Lemma err__enter_nav_from_rts (rts_packet : Packet) (n : Node) :
  timing_ok (self n) ->
  spec (_enter_nav_from_rts rts_packet) n
       (fun _ _ => True)
       (fun x n' => x = IndexError /\ n' = n /\ len (payload rts_packet) < 5)
       False.
Proof.
  destruct n as [m e]. cbn [self env]. intros (Hw & Hdifs & Hrts & Hp1).
  assert (Hslots : 0 <= w m * difs m) by nia.
  assert (Htoa5 : _calculate_toa 5 = 586) by reflexivity.
  unfold _enter_nav_from_rts. step. unfold index.
  destruct (nth_error (payload rts_packet) 4) as [L|] eqn:HL.
  2:{ step. split; [reflexivity|]. split; [reflexivity|].
      apply nth_error_None in HL. unfold len. lia. }
  assert (Htoa : 401 <= _calculate_toa (byte_val L)) by (unfold _calculate_toa, byte_val; lia).
  steps.
  use spec_draw_prime_offset. intros prime [m1 e1] (Hs1 & Ht1 & Hc1 & Hprime).
  cbn [self env] in *. subst m1.
  set (base := phase1_duration m + w m * difs m + _calculate_toa (byte_val L) + prime).
  assert (Hbase : 0 <= base) by (unfold base; lia).
  steps. use spec_randint.
  2:{ intros x e' (_ & Hlt & _).
      assert (int (inject_Z base * 0.05) <= int (inject_Z base * 0.15)).
      { apply int_scale_mono; [exact Hbase | |]; unfold Qle; simpl; lia. }
      lia. }
  intros jitter e2 _. steps.
  use spec_exponential_backoff. intros d n3 [-> _]. steps. exact I.
Qed.

Lemma err_listen_poll (poll_interval idle_count : Z) (n : Node) :
  timing_ok (self n) ->
  spec (listen_poll poll_interval idle_count) n
       (fun r n' =>
          match r with
          | inl _ => True
          | inr _ => self n' = self n
          end)
       (fun x n' =>
          x = IndexError /\
          self n' = set_stats (inc_rx_rts (stats (self n))) (self n) /\
          exists e0 e1 pkt,
            read_packet e0 = Ok (Some pkt) e1 /\
            spi_miso e1 = spi_miso (env n') /\
            type pkt = PKT_TYPE_RTS /\
            len (payload pkt) < 5)
       False.
Proof.
  destruct n as [m e]. cbn [self env]. intros Hok.
  unfold listen_poll. steps. use adv_rx_done. intros done e1 _.
  destruct done; [|steps; reflexivity].
  steps. use (spec_run _ _ _ _ _ (adv_read_packet e1)). intros pkt e2 (Hread & _).
  destruct pkt as [pk|]; [|steps; reflexivity].
  destruct (type pk =? PKT_TYPE_RTS) eqn:Htype.
  - apply Z.eqb_eq in Htype. steps.
    use err__enter_nav_from_rts; [exact Hok | | ].
    + intros _ n3 _. steps. exact I.
    + intros x n3 (-> & -> & Hshort). cbn [self env].
      split; [reflexivity|]. split; [reflexivity|].
      exists e1, e2, pk. auto.
  - destruct (type pk =? PKT_TYPE_DATA); [|steps; reflexivity].
    steps. cbn [_on_receive_callback set_stats].
    destruct (_on_receive_callback m); steps;
      (use spec__enter_nav_random; intros _ n3 _; steps; exact I).
Qed.

Lemma err_listen_loop
      (fuel : nat) (start duration poll_interval idle_count : Z) (n : Node) :
  timing_ok (self n) ->
  spec (listen_loop fuel start duration poll_interval idle_count) n
       (fun r n' =>
          match r with
          | Some _ => True
          | None => self n' = self n
          end)
       (fun x n' =>
          x = IndexError /\
          self n' = set_stats (inc_rx_rts (stats (self n))) (self n) /\
          exists e0 e1 pkt,
            read_packet e0 = Ok (Some pkt) e1 /\
            spi_miso e1 = spi_miso (env n') /\
            type pkt = PKT_TYPE_RTS /\
            len (payload pkt) < 5)
       True.
Proof.
  revert poll_interval idle_count n.
  induction fuel as [|fuel IH]; intros poll_interval idle_count [m e] Hok; [exact I|].
  cbn [self env] in *. cbn [listen_loop]. steps.
  destruct (ticks_diff (ticks_ms e) start <? duration); [|steps; reflexivity].
  steps. use (err_listen_poll poll_interval idle_count (mkNode m e) Hok).
  intros r [m1 e1] Hr. cbn [self env] in *. destruct r as [b | [poll' idle']].
  - steps. exact I.
  - subst m1. steps. use IH; [exact Hok|]. intros r n2 Hr2. exact Hr2.
Qed.

Lemma err_draw_backoff (n : Node) :
  timing_ok (self n) ->
  spec draw_backoff n (fun _ n' => self n' = self n) never False.
Proof.
  intros (Hw & _).
  destruct (backoff_is_slots_plus_prime_aux n Hw)
    as (slots & prime & n' & Hrun & _ & _ & Hself & _).
  unfold spec. rewrite Hrun. exact Hself.
Qed.

Lemma err__phase3_send_data (fuel : nat) (data : list byte) (n : Node) :
  timing_ok (self n) ->
  spec (_phase3_send_data fuel data) n (fun _ _ => True) never True.
Proof.
  destruct n as [m e]. cbn [self env]. intros Hok.
  unfold _phase3_send_data. steps.
  use (err_draw_backoff (mkNode (set_phase PHASE_3_DATA m) e) Hok).
  intros backoff [m1 e1] Hs1. cbn [self env] in *. steps.
  use (spec_send_packet fuel data PKT_TYPE_DATA x02); [reflexivity|].
  intros _ e2 _. steps. exact I.
Qed.

Lemma err__phase2_send_rts (fuel : nat) (pending_data : list byte) (n : Node) :
  timing_ok (self n) ->
  spec (_phase2_send_rts fuel pending_data) n
       (fun _ _ => True)
       (fun x n' => x = IndexError /\ stopped_by_short_rts n n')
       True.
Proof.
  destruct n as [m e]. cbn [self env]. intros Hok.
  unfold _phase2_send_rts. steps.
  use (err_draw_backoff (mkNode (set_phase PHASE_2_RTS m) e) Hok).
  intros backoff [m1 e1] Hs1. cbn [self env] in *. subst m1. steps.
  apply spec_bytearray.
  set (rts := map low_byte [0xCA; 0xFE; 0xBA; 0xBE; len pending_data]). clearbody rts.
  steps. use (spec_send_packet fuel rts PKT_TYPE_RTS x01); [reflexivity|].
  intros _ e2 _. steps. use spec_start_rx. intros _ e3 _. steps.
  use err_listen_loop; [exact Hok | |].
  - intros r [m4 e4] Hr. cbn [self env] in *. destruct r as [b|]; [steps; exact I|].
    subst m4. use err__phase3_send_data; [exact Hok|]. intros; exact I.
  - intros x [m4 e4] (-> & Hs4 & Hpkt). cbn [self env] in *.
    split; [reflexivity|]. unfold stopped_by_short_rts. cbn [self env]. rewrite Hs4.
    cbn [stats nav_until consecutive_navs phase set_stats set_phase inc_rx_rts
         inc_tx_rts inc_backoff_count rx_rts nav_count].
    split; [reflexivity|]. split; [reflexivity|]. split; [reflexivity|].
    split; [reflexivity|]. split; [right; reflexivity | exact Hpkt].
Qed.

Lemma err__phase1_listen_rts (fuel : nat) (pending_data : list byte) (n : Node) :
  timing_ok (self n) ->
  spec (_phase1_listen_rts fuel pending_data) n
       (fun _ _ => True)
       (fun x n' => x = IndexError /\ stopped_by_short_rts n n')
       True.
Proof.
  destruct n as [m e]. cbn [self env]. intros Hok.
  unfold _phase1_listen_rts. steps. use spec_start_rx. intros _ e1 _. steps.
  use err_listen_loop; [exact Hok | |].
  - intros r [m2 e2] Hr. cbn [self env] in *. destruct r as [b|]; [steps; exact I|].
    subst m2. use err__phase2_send_rts; [exact Hok | intros; exact I].
  - intros x [m2 e2] (-> & Hs2 & Hpkt). cbn [self env] in *.
    split; [reflexivity|]. unfold stopped_by_short_rts. cbn [self env]. rewrite Hs2.
    cbn [stats nav_until consecutive_navs phase set_stats set_phase inc_rx_rts
         rx_rts nav_count].
    split; [reflexivity|]. split; [reflexivity|]. split; [reflexivity|].
    split; [reflexivity|]. split; [left; reflexivity | exact Hpkt].
Qed.

Lemma err_send_data (fuel : nat) (data : list byte) (priority : string) (n : Node) :
  timing_ok (self n) ->
  spec (send_data fuel data priority) n
       (fun _ _ => True)
       (fun x n' => x = IndexError /\ stopped_by_short_rts n n')
       True.
Proof.
  destruct n as [m e]. cbn [self env]. intros Hok.
  unfold send_data. step. unfold _in_nav. steps.
  destruct (ticks_ms e <? nav_until m); [steps; exact I|].
  steps.
  assert (Hcad : spec (if use_cad (config m) then on_env (cad fuel) else ret false)
                      (mkNode m e)
                      (fun _ n' => self n' = m) never True).
  { destruct (use_cad (config m)); steps; [|reflexivity].
    use spec_cad. intros b e1 _. reflexivity. }
  use Hcad. clear Hcad. intros busy [m1 e1] Hs1. cbn [self env] in *. subst m1.
  destruct busy.
  - steps.
    destruct (defer_random_range
                (mkNode (set_stats (inc_cad_detected (stats m)) m) e1) Hok)
      as (d & n2 & Hrun & _).
    unfold spec at 1. rewrite Hrun. steps. exact I.
  - steps.
    assert (Hcoin : spec (if (priority =? "high")%string then ret true
                          else r <- on_env random ;; ret (Qltb r (p m)))
                         (mkNode m e1)
                         (fun _ n' => self n' = m) never True).
    { destruct (priority =? "high")%string; steps; reflexivity. }
    use Hcoin. clear Hcoin. intros direct [m2 e2] Hs2. cbn [self env] in *. subst m2.
    destruct direct.
    + use err__phase2_send_rts; [exact Hok | intros; exact I].
    + use err__phase1_listen_rts; [exact Hok | intros; exact I].
Qed.

(** X22: the one way [send_data] fails.  For a MAC set up from a
    configuration of the data model, [send_data] raises an exception only
    when it has read an RTS packet with fewer than five payload bytes
    while listening: the exception is [IndexError], the reception is
    counted in [rx_rts], but the NAV is not armed and the phase is left
    at the listening phase the call was in.  The payload handed to
    [send_data] never makes it fail.  (The receive callback is taken to
    return.) *)
Theorem send_data_fails_only_on_short_rts
        (fuel : nat) (data : list byte) (priority : string) (n n' : Node) (x : Exn) :
  timing_ok (self n) ->
  send_data fuel data priority n = Raise x n' ->
  x = IndexError /\ stopped_by_short_rts n n'.
Proof.
  intros Hok Hrun.
  exact (spec_Raise _ _ _ _ _ _ _ (err_send_data fuel data priority n Hok) Hrun).
Qed.

Lemma send_data_fails_only_on_short_rts_witness :
  IndexError = IndexError /\
  stopped_by_short_rts (idle_node short_rts)
                       (state_of (send_data 2000 hi "normal" (idle_node short_rts))
                                 (idle_node short_rts)).
Proof.
  apply (send_data_fails_only_on_short_rts 2000 hi "normal" (idle_node short_rts)).
  - split; [vm_compute; discriminate|]. split; [vm_compute; reflexivity|].
    split; vm_compute; reflexivity.
  - vm_compute. reflexivity.
Defined.

End Exceptions.
